(** * release-init: version bump and changelog tools

    A shallow embedding of the release tooling of fry69/release-init:

    - the version bump of [tools/release.ts] (and of the older single-file
      script [src/main.ts]);
    - the section extraction of [tools/get-changelog.ts];
    - the header rewrite of [tools/update-changelog.ts];
    - the update of the version files, the split of the project name and
      the release link of [tools/release.ts];
    - the tool name of [tools/get-meta.ts];
    - the conflict check and the copy loop of the installer.

    Text is a [string]: a character stands for one UTF-16 code unit, and the
    model keeps the code units U+0000..U+00FF.  The regular expressions of
    the scripts are written with a small backtracking combinator library
    whose results are listed in the priority order of the ECMAScript
    matcher (greedy quantifiers try the longest repetition first). *)

From Stdlib Require Import String Ascii List NArith Arith Lia Bool.
From Stdlib Require Import DecimalString.
Import ListNotations.
Open Scope list_scope.
Open Scope string_scope.

(* ================================================================== *)
(** * Characters *)
(* ================================================================== *)

Module Char.

Definition code (c : ascii) : nat := nat_of_ascii c.

Definition in_range (lo hi : nat) (c : ascii) : bool :=
  Nat.leb lo (code c) && Nat.leb (code c) hi.

(** [\d] *)
Definition is_digit (c : ascii) : bool := in_range 48 57 c.

Definition is_upper (c : ascii) : bool := in_range 65 90 c.
Definition is_lower (c : ascii) : bool := in_range 97 122 c.

(** LineTerminator: LF and CR (U+2028 and U+2029 lie outside the model). *)
Definition is_line_terminator (c : ascii) : bool :=
  Nat.eqb (code c) 10 || Nat.eqb (code c) 13.

(** [\s], also the set removed by [String.prototype.trim]: TAB, LF, VT,
    FF, CR, SPACE and NBSP. *)
Definition is_space (c : ascii) : bool :=
  in_range 9 13 c || Nat.eqb (code c) 32 || Nat.eqb (code c) 160.

Definition is_hash (c : ascii) : bool := Ascii.eqb c "#".

(** Canonicalize of a case-insensitive, non-unicode RegExp: the character
    is mapped through [toUpperCase].  Below U+0100 that changes a-z and
    the Latin-1 letters U+00E0..U+00FE (without the division sign); the
    upper-case forms of U+00B5 and U+00FF lie above U+00FF and equal no
    canonical form of another character of the model, and U+00DF
    upper-cases to two characters and is kept. *)
Definition canonicalize (c : ascii) : ascii :=
  if is_lower c || (in_range 224 254 c && negb (Nat.eqb (code c) 247))
  then ascii_of_nat (code c - 32)
  else c.

Definition eqb_ci (a b : ascii) : bool :=
  Ascii.eqb (canonicalize a) (canonicalize b).

End Char.

(* ================================================================== *)
(** * Strings as the scripts use them *)
(* ================================================================== *)

Module Str.

Fixpoint forallb (p : ascii -> bool) (s : string) : bool :=
  match s with
  | EmptyString => true
  | String c s' => p c && forallb p s'
  end.

(** [s.startsWith(p)] *)
Definition startsWith (p s : string) : bool := String.prefix p s.

(** [s.includes(sub)] *)
Fixpoint includes (sub s : string) : bool :=
  startsWith sub s ||
  match s with
  | EmptyString => false
  | String _ s' => includes sub s'
  end.

Fixpoint endsWith_char (c : ascii) (s : string) : bool :=
  match s with
  | EmptyString => false
  | String a EmptyString => Ascii.eqb a c
  | String _ s' => endsWith_char c s'
  end.

(** [parts.join(sep)] *)
Fixpoint join (sep : string) (parts : list string) : string :=
  match parts with
  | [] => ""
  | [p] => p
  | p :: rest => p ++ sep ++ join sep rest
  end.

(** [s.split(sep)] for a one-character separator. *)
Fixpoint split_char (sep : ascii) (s : string) : list string :=
  match s with
  | EmptyString => [""]
  | String c s' =>
      if Ascii.eqb c sep then "" :: split_char sep s'
      else match split_char sep s' with
           | l :: ls => String c l :: ls
           | [] => [String c ""]
           end
  end.

(** The text before the first [sep], and the text after it when there is
    one. *)
Fixpoint cut (sep : ascii) (s : string) : string * option string :=
  match s with
  | EmptyString => ("", None)
  | String c s' =>
      if Ascii.eqb c sep then ("", Some s')
      else let '(a, b) := cut sep s' in (String c a, b)
  end.

(** [md.split(/\r?\n/)]: a separator is CR LF or a lone LF; a CR that is
    not followed by LF stays in its line. *)
Fixpoint split_lines (s : string) : list string :=
  match s with
  | EmptyString => [""]
  | String c s' =>
      if Ascii.eqb c "010" then "" :: split_lines s'
      else
        let keep :=
          match split_lines s' with
          | l :: ls => String c l :: ls
          | [] => [String c ""]
          end in
        match s' with
        | String c' s'' =>
            if Ascii.eqb c "013" && Ascii.eqb c' "010"
            then "" :: split_lines s''
            else keep
        | EmptyString => keep
        end
  end.

Fixpoint trimStart (s : string) : string :=
  match s with
  | EmptyString => ""
  | String c s' => if Char.is_space c then trimStart s' else s
  end.

Fixpoint trimEnd (s : string) : string :=
  match s with
  | EmptyString => ""
  | String c s' =>
      match trimEnd s' with
      | EmptyString => if Char.is_space c then "" else String c ""
      | t => String c t
      end
  end.

(** [s.trim()] *)
Definition trim (s : string) : string := trimEnd (trimStart s).

(** [s.replace(/^v/, "")]: the pattern has no [i] flag, so only a
    lower-case v is removed, and only one. *)
Definition strip_v (s : string) : string :=
  match s with
  | String c s' => if Ascii.eqb c "v" then s' else s
  | EmptyString => ""
  end.

End Str.

(* ================================================================== *)
(** * The semantic-version library *)
(* ================================================================== *)

Module Semver.

(** The [SemVer] object of [@std/semver]. *)
Record SemVer : Type := mkSemVer {
  major : N;
  minor : N;
  patch : N;
  prerelease : list string;
  build : list string
}.

(** [Number.MAX_SAFE_INTEGER] *)
Definition MAX_SAFE_INTEGER : N := 2 ^ 53 - 1.

Definition is_ident_char (c : ascii) : bool :=
  Char.is_digit c || Char.is_upper c || Char.is_lower c || Ascii.eqb c "-".

Definition digit_value (c : ascii) : N := N.of_nat (Char.code c - 48).

Fixpoint number_of_digits (acc : N) (s : string) : N :=
  match s with
  | EmptyString => acc
  | String c s' => number_of_digits (10 * acc + digit_value c)%N s'
  end.

(** A numeric component: one or more digits, kept only when the value is
    a safe integer, so that the number the script increments is exact. *)
Definition parse_number (s : string) : option N :=
  match s with
  | EmptyString => None
  | _ =>
      if Str.forallb Char.is_digit s then
        let n := number_of_digits 0 s in
        if (n <=? MAX_SAFE_INTEGER)%N then Some n else None
      else None
  end.

Definition is_identifier (s : string) : bool :=
  match s with
  | EmptyString => false
  | _ => Str.forallb is_ident_char s
  end.

(** Dot-separated identifiers over [0-9A-Za-z-], none of them empty. *)
Definition parse_identifiers (s : string) : option (list string) :=
  let ids := Str.split_char "." s in
  if List.forallb is_identifier ids then Some ids else None.

(** Modelled from the spec: [semver.parse] belongs to the [@std/semver]
    library, which is not part of the repository.  The accepted grammar is
    [MAJOR.MINOR.PATCH] with an optional [-prerelease] and an optional
    [+build]; the numeric components are digits only; prerelease and build
    identifiers are kept verbatim.  [None] stands for the thrown error. *)
Definition parse (value : string) : option SemVer :=
  let '(front, buildText) := Str.cut "+" value in
  let '(core, preText) := Str.cut "-" front in
  match List.map parse_number (Str.split_char "." core) with
  | [Some ma; Some mi; Some pa] =>
      let pre :=
        match preText with
        | None => Some []
        | Some t => parse_identifiers t
        end in
      let bld :=
        match buildText with
        | None => Some []
        | Some t => parse_identifiers t
        end in
      match pre, bld with
      | Some p, Some b => Some (mkSemVer ma mi pa p b)
      | _, _ => None
      end
  | _ => None
  end.

Definition formatNumber (n : N) : string :=
  NilZero.string_of_uint (N.to_uint n).

(** Modelled from the spec: [semver.format] of the same library renders
    [MAJOR.MINOR.PATCH[-prerelease][+build]]. *)
Definition format (v : SemVer) : string :=
  formatNumber (major v) ++ "." ++ formatNumber (minor v) ++ "."
    ++ formatNumber (patch v)
    ++ (match prerelease v with
        | [] => ""
        | ids => "-" ++ Str.join "." ids
        end)
    ++ (match build v with
        | [] => ""
        | ids => "+" ++ Str.join "." ids
        end).

End Semver.

(* ================================================================== *)
(** * Outcome of a script step *)
(* ================================================================== *)

(** A step returns a value, leaves through [exitError msg], or is ended by
    the error that [semver.parse] throws on [input] (src/main.ts lets it
    escape; tools/release.ts catches it at the end of its main [try] and
    leaves with the message of the library). *)
Inductive outcome (A : Type) : Type :=
| Returned (a : A)
| ExitError (msg : string)
| Thrown (input : string).

Arguments Returned {A} a.
Arguments ExitError {A} msg.
Arguments Thrown {A} input.

(* ================================================================== *)
(** * tools/release.ts: the next version *)
(* ================================================================== *)

Module Release.
Import Semver.

(** [next.major++; next.minor = 0; next.patch = 0] *)
Definition bump_major (v : SemVer) : SemVer :=
  mkSemVer (major v + 1) 0 0 (prerelease v) (build v).

(** [next.minor++; next.patch = 0] *)
Definition bump_minor (v : SemVer) : SemVer :=
  mkSemVer (major v) (minor v + 1) 0 (prerelease v) (build v).

(** [next.patch++] *)
Definition bump_patch (v : SemVer) : SemVer :=
  mkSemVer (major v) (minor v) (patch v + 1) (prerelease v) (build v).

(** [next.prerelease = []] *)
Definition clear_prerelease (v : SemVer) : SemVer :=
  mkSemVer (major v) (minor v) (patch v) [] (build v).

(** The block "Calculate next version" of the main [try], after
    [const current = semver.parse(meta.version)]. *)
Definition next (metaVersion versionArg : string) : outcome SemVer :=
  match parse metaVersion with
  | None => Thrown metaVersion
  | Some _current =>
      if List.existsb (String.eqb versionArg) ["major"; "minor"; "patch"]
      then
        match parse metaVersion with
        | None => Thrown metaVersion
        | Some next0 =>
            let next1 :=
              if String.eqb versionArg "major" then bump_major next0
              else if String.eqb versionArg "minor" then bump_minor next0
              else bump_patch next0 in
            Returned (clear_prerelease next1)
        end
      else
        match parse versionArg with
        | Some next0 => Returned next0
        | None => ExitError ("Invalid version: " ++ versionArg)
        end
  end.

(** [const nextVersion = semver.format(next)] *)
Definition nextVersion (metaVersion versionArg : string) : outcome string :=
  match next metaVersion versionArg with
  | Returned v => Returned (format v)
  | ExitError m => ExitError m
  | Thrown i => Thrown i
  end.

End Release.

(* ================================================================== *)
(** * src/main.ts: the same step in the single-file release script *)
(* ================================================================== *)

Module MainScript.
Import Semver.

Definition next (currentVersion versionArg : string) : outcome SemVer :=
  match parse currentVersion with
  | None => Thrown currentVersion
  | Some _current =>
      if String.eqb versionArg "major" then
        match parse currentVersion with
        | None => Thrown currentVersion
        | Some n =>
            Returned (Release.clear_prerelease (Release.bump_major n))
        end
      else if String.eqb versionArg "minor" then
        match parse currentVersion with
        | None => Thrown currentVersion
        | Some n =>
            Returned (Release.clear_prerelease (Release.bump_minor n))
        end
      else if String.eqb versionArg "patch" then
        match parse currentVersion with
        | None => Thrown currentVersion
        | Some n =>
            Returned (Release.clear_prerelease (Release.bump_patch n))
        end
      else
        match parse versionArg with
        | Some n => Returned n
        | None => ExitError ("Invalid version: " ++ versionArg)
        end
  end.

End MainScript.

(* ================================================================== *)
(** * Regular expressions *)
(* ================================================================== *)

Module Rx.

(** A matcher started at the head of [s] lists the ways it can match, in
    the order in which the backtracking matcher of ECMAScript tries them:
    each entry has the result of the match and the input left after it. *)
Definition t (A : Type) : Type := string -> list (A * string).

Definition ret {A : Type} (a : A) : t A := fun s => [(a, s)].

Definition bind {A B : Type} (m : t A) (f : A -> t B) : t B :=
  fun s => List.flat_map (fun ar => f (fst ar) (snd ar)) (m s).

Declare Scope rx_scope.
Delimit Scope rx_scope with rx.
Notation "x <- m ;; k" := (bind m (fun x => k))
  (at level 61, m at next level, right associativity) : rx_scope.
Open Scope rx_scope.

(** Concatenation of two patterns; the match is the text of both. *)
Definition seq (a b : t string) : t string :=
  x <- a ;; y <- b ;; ret (x ++ y).
Infix "+++" := seq (at level 60, right associativity) : rx_scope.

Definition cons_match (c : ascii) (mr : string * string) : string * string :=
  (String c (fst mr), snd mr).

(** One character of a class. *)
Definition chr (p : ascii -> bool) : t string :=
  fun s =>
    match s with
    | String c s' => if p c then [(String c "", s')] else []
    | EmptyString => []
    end.

(** [x?], greedy: first with [x], then without. *)
Definition opt (m : t string) : t string :=
  fun s => (m s ++ [("", s)])%list.

(** [c*] for a class [c], greedy: the longest run first. *)
Fixpoint star (p : ascii -> bool) (s : string) : list (string * string) :=
  match s with
  | String c s' =>
      if p c then (List.map (cons_match c) (star p s') ++ [("", s)])%list
      else [("", s)]
  | EmptyString => [("", "")]
  end.

(** [c+] *)
Definition plus (p : ascii -> bool) : t string := chr p +++ star p.

(** [c{lo,hi}] for a class [c], greedy. *)
Fixpoint rep (p : ascii -> bool) (lo hi : nat) (s : string)
  : list (string * string) :=
  match hi with
  | O => if Nat.eqb lo 0 then [("", s)] else []
  | S hi' =>
      ((match s with
        | String c s' =>
            if p c then List.map (cons_match c) (rep p (Nat.pred lo) hi' s')
            else []
        | EmptyString => []
        end) ++ (if Nat.eqb lo 0 then [("", s)] else []))%list
  end.

(** A literal text. *)
Fixpoint lit (l : string) (s : string) : list (string * string) :=
  match l with
  | EmptyString => [("", s)]
  | String a l' =>
      match s with
      | String c s' =>
          if Ascii.eqb a c then List.map (cons_match c) (lit l' s') else []
      | EmptyString => []
      end
  end.

(** A literal text under the [i] flag: characters are compared through
    Canonicalize, and the match is the text as the input spells it. *)
Fixpoint lit_ci (l : string) (s : string) : list (string * string) :=
  match l with
  | EmptyString => [("", s)]
  | String a l' =>
      match s with
      | String c s' =>
          if Char.eqb_ci a c then List.map (cons_match c) (lit_ci l' s')
          else []
      | EmptyString => []
      end
  end.

(** [$] without the [m] flag. *)
Definition eos : t unit :=
  fun s => match s with EmptyString => [(tt, "")] | _ => [] end.

(** [rx.exec(s)] for a pattern that starts with [^]: the first way. *)
Definition exec {A : Type} (m : t A) (s : string) : option A :=
  match m s with
  | (a, _) :: _ => Some a
  | [] => None
  end.

(** [rx.test(s)] for a pattern that starts with [^]. *)
Definition test {A : Type} (m : t A) (s : string) : bool :=
  match m s with
  | [] => false
  | _ :: _ => true
  end.

(** [s.replace(rx, by)] for a pattern without [^] and without the [g]
    flag: the leftmost match is replaced, the text around it is kept. *)
Fixpoint replace_first (m : t string) (by_ : string) (s : string) : string :=
  match m s with
  | (_, rest) :: _ => by_ ++ rest
  | [] =>
      match s with
      | String c s' => String c (replace_first m by_ s')
      | EmptyString => ""
      end
  end.

(** The five captures of the header patterns of update-changelog.ts. *)
Record captures : Type := mkCaptures {
  whole : string;
  g1 : string;
  g2 : string;
  g3 : string;
  g4 : string;
  g5 : string
}.

Definition group (n : nat) (c : captures) : option string :=
  match n with
  | 1 => Some (g1 c)
  | 2 => Some (g2 c)
  | 3 => Some (g3 c)
  | 4 => Some (g4 c)
  | 5 => Some (g5 c)
  | _ => None
  end.

Definition digit_index (d : ascii) : nat := Char.code d - 48.

(** GetSubstitution for a match that spans the whole subject (so the
    texts before and after the match are empty) of a pattern with five
    groups and no named group: [$$], [$&], [$`], [$'], [$n] and [$nn] are
    expanded; a two-digit reference beyond the groups falls back to its
    first digit; everything else is copied. *)
Fixpoint getSubstitution (c : captures) (template : string) : string :=
  match template with
  | EmptyString => ""
  | String a rest =>
      if Ascii.eqb a "$" then
        match rest with
        | EmptyString => "$"
        | String b rest' =>
            if Ascii.eqb b "$" then String "$" (getSubstitution c rest')
            else if Ascii.eqb b "&" then whole c ++ getSubstitution c rest'
            else if Ascii.eqb b "`" then getSubstitution c rest'
            else if Ascii.eqb b "'" then getSubstitution c rest'
            else if Char.is_digit b then
              let one :=
                match group (digit_index b) c with
                | Some g => g ++ getSubstitution c rest'
                | None => String "$" (String b (getSubstitution c rest'))
                end in
              match rest' with
              | String d rest'' =>
                  if Char.is_digit d then
                    let index := 10 * digit_index b + digit_index d in
                    match group index c with
                    | Some g => g ++ getSubstitution c rest''
                    | None =>
                        if Nat.eqb index 0
                        then String "$" (String b (String d
                               (getSubstitution c rest'')))
                        else one
                    end
                  else one
              | EmptyString => one
              end
            else String "$" (getSubstitution c rest)
        end
      else String a (getSubstitution c rest)
  end.

End Rx.

Import Rx.
Open Scope rx_scope.

(** [escapeForRegex] of both changelog scripts: a backslash is put before
    each of the characters . * + ? ^ $ { } ( ) | [ ] and backslash. *)
Definition is_escaped_char (c : ascii) : bool :=
  List.existsb (Ascii.eqb c)
    ["."; "*"; "+"; "?"; "^"; "$"; "{"; "}"; "("; ")"; "|"; "["; "]"; "092"]%char.

Fixpoint escapeForRegex (s : string) : string :=
  match s with
  | EmptyString => ""
  | String c s' =>
      if is_escaped_char c then String "092" (String c (escapeForRegex s'))
      else String c (escapeForRegex s')
  end.

(** SyntaxCharacter of the pattern grammar. *)
Definition is_syntax_char (c : ascii) : bool :=
  List.existsb (Ascii.eqb c)
    ["^"; "$"; "092"; "."; "*"; "+"; "?"; "("; ")"; "["; "]"; "{"; "}"; "|"]%char.

(** The text a pattern source denotes when it is made of pattern characters
    and of identity escapes of syntax characters only; [None] for any other
    source. *)
Fixpoint pattern_literal (src : string) : option string :=
  match src with
  | EmptyString => Some ""
  | String c rest =>
      if Ascii.eqb c "092" then
        match rest with
        | String e rest' =>
            if is_syntax_char e then
              option_map (String e) (pattern_literal rest')
            else None
        | EmptyString => None
        end
      else if is_syntax_char c then None
      else option_map (String c) (pattern_literal rest)
  end.

(** [lines.findIndex(p)], [None] for -1; also the loops that stop at the
    first index with [p]. *)
Fixpoint findIndex {A : Type} (p : A -> bool) (l : list A) : option nat :=
  match l with
  | [] => None
  | x :: l' => if p x then Some 0 else option_map S (findIndex p l')
  end.

(** [lines[i]] *)
Definition line_at (lines : list string) (i : nat) : string :=
  List.nth i lines "".

(** [lines.slice(start, end)] *)
Definition slice {A : Type} (start end_ : nat) (l : list A) : list A :=
  List.firstn (end_ - start) (List.skipn start l).

(** [lines[i] = x] for an index inside the array. *)
Fixpoint set_nth {A : Type} (i : nat) (x : A) (l : list A) : list A :=
  match l, i with
  | [], _ => []
  | _ :: l', O => x :: l'
  | y :: l', S i' => y :: set_nth i' x l'
  end.

(** [lines.splice(i, 0, ...items)] *)
Definition splice_in {A : Type} (i : nat) (items l : list A) : list A :=
  (List.firstn i l ++ items ++ List.skipn i l)%list.

Definition LF : string := String "010" "".
Definition CR : string := String "013" "".

(* ================================================================== *)
(** * tools/get-changelog.ts *)
(* ================================================================== *)

Module GetChangelog.

(** [(?:\s+-\s+\d{4}-\d{2}-\d{2})?], the optional date of [hdrRx]. *)
Definition dateRx : Rx.t string :=
  plus Char.is_space +++ lit "-" +++ plus Char.is_space
    +++ rep Char.is_digit 4 4 +++ lit "-" +++ rep Char.is_digit 2 2
    +++ lit "-" +++ rep Char.is_digit 2 2.

(** [^#{1,6}\s*\[?v?VERSION\]?(?:\s+-\s+\d{4}-\d{2}-\d{2})?] with the
    [i] flag, where VERSION is [escapeForRegex(version)], a pattern that
    denotes the text [version] itself (see [pattern_literal]). *)
Definition hdrRx (version : string) : Rx.t string :=
  rep Char.is_hash 1 6 +++ star Char.is_space +++ opt (lit "[")
    +++ opt (lit_ci "v") +++ lit_ci version +++ opt (lit "]")
    +++ opt dateRx.

(** [/^#{1,6}\s*\[?Unreleased\]?/i] *)
Definition unreleasedRx : Rx.t string :=
  rep Char.is_hash 1 6 +++ star Char.is_space +++ opt (lit "[")
    +++ lit_ci "Unreleased" +++ opt (lit "]").

(** [/^(#{1,6})/]; the result is the capture. *)
Definition levelRx : Rx.t string := rep Char.is_hash 1 6.

(** [/^(#{1,6})\s+\S/]; the result is the capture. *)
Definition headingRx : Rx.t string :=
  h <- rep Char.is_hash 1 6 ;;
  _ <- plus Char.is_space ;;
  _ <- chr (fun c => negb (Char.is_space c)) ;;
  ret h.

(** [/\n\n\[[\d.]+\]:\s+https?:\/\/.+$/s] *)
Definition linkRefRx : Rx.t string :=
  m <- lit (LF ++ LF ++ "[")
         +++ plus (fun c => Char.is_digit c || Ascii.eqb c ".")
         +++ lit "]:" +++ plus Char.is_space +++ lit "http"
         +++ opt (lit "s") +++ lit "://" +++ plus (fun _ => true) ;;
  _ <- eos ;;
  ret m.

(** [startLine.match(/^(#{1,6})/)?.[1].length ?? 2] *)
Definition startLevel (startLine : string) : nat :=
  match exec levelRx startLine with
  | Some h => String.length h
  | None => 2
  end.

(** The loop [for (let i = start + 1; i < lines.length; i++)]: [rest] is
    the lines from [i] on; the result is [end]. *)
Fixpoint find_end (level : nat) (i : nat) (rest : list string) : nat :=
  match rest with
  | [] => i
  | l :: rest' =>
      match exec headingRx l with
      | Some h =>
          if Nat.leb (String.length h) level then i
          else find_end level (S i) rest'
      | None => find_end level (S i) rest'
      end
  end.

Definition section_end (lines : list string) (start : nat) : nat :=
  find_end (startLevel (line_at lines start)) (S start)
    (List.skipn (S start) lines).

(** The section text: the lines joined, trimmed, and cut at the first
    link reference that follows an empty line. *)
Definition section_text (lines : list string) (start : nat) : string :=
  replace_first linkRefRx ""
    (Str.trim
       (Str.join LF (slice start (section_end lines start) lines))).

(** The index [start]: the first line with the version header, else the
    first line with an Unreleased header. *)
Definition find_start (version : string) (lines : list string)
  : option nat :=
  match findIndex (test (hdrRx version)) lines with
  | Some i => Some i
  | None => findIndex (test unreleasedRx) lines
  end.

Definition not_found (version : string) : string :=
  "No changelog entry found for version " ++ version
    ++ " and no 'Unreleased' section present.".

(** The value of [content] printed by the script, for the text [md] of
    CHANGELOG.md and a non-empty argument [versionArg]: the script reaches
    this computation only after its guard on the argument (see [script]
    below). *)
Definition content (md versionArg : string) : string :=
  let version := Str.strip_v versionArg in
  let lines := Str.split_lines md in
  match find_start version lines with
  | None => not_found version
  | Some start => section_text lines start
  end.

Definition usage : string :=
  "Usage: deno run -A tools/get-changelog.ts <version>".

(** The script, for the text [md] of CHANGELOG.md and the argument
    [versionArg] ([Deno.args[0] ?? ""]): with an empty argument it prints
    the usage line to stderr and leaves with [Deno.exit(1)], which
    [ExitError usage] stands for; otherwise it prints [content]. *)
Definition script (md versionArg : string) : outcome string :=
  if String.eqb versionArg "" then ExitError usage
  else Returned (content md versionArg).

End GetChangelog.

(* ================================================================== *)
(** * tools/update-changelog.ts *)
(* ================================================================== *)

Module UpdateChangelog.

(** The characters that the dot of a pattern without the [s] flag
    matches: all but the line terminators.  Of these the text of the model
    holds LF and CR; U+2028 and U+2029, which the dot refuses as well, lie
    above U+00FF. *)
Definition not_terminator (c : ascii) : bool :=
  negb (Char.is_line_terminator c).

(** A header pattern: the prefix group, the optional bracket, the token
    group given as argument, and the tail that both header patterns
    share (optional closing bracket, then anything up to the end of the
    line, where the dot matches no line terminator). *)
Definition header_pattern (token : Rx.t string) : Rx.t captures :=
  fun s =>
    (prefix <- rep Char.is_hash 1 6 +++ star Char.is_space ;;
     lb <- opt (lit "[") ;;
     tok <- token ;;
     rb <- opt (lit "]") ;;
     rest <- star not_terminator ;;
     _ <- eos ;;
     ret (mkCaptures s prefix lb tok rb rest)) s.

(** [versionRx]: the pattern [^(G1)(G2)(G3)(G4)(G5)$] with the [i] flag,
    where G1 is [#{1,6}\s*], G2 is [\[?], G3 is [v?VERSION], G4 is [\]?]
    and G5 is [.*]. *)
Definition versionRx (version : string) : Rx.t captures :=
  header_pattern (opt (lit_ci "v") +++ lit_ci version).

(** [unreleasedRx]: the same pattern with G3 the word [Unreleased]. *)
Definition unreleasedRx : Rx.t captures :=
  header_pattern (lit_ci "Unreleased").

(** [/^#\s+/] *)
Definition titleRx : Rx.t string := lit "#" +++ plus Char.is_space.

(** The replacement of a matched version header: the replacer function
    [(_, prefix, _lb, ver, _rb) => ...]. *)
Definition version_line (today : string) (c : captures) : string :=
  let cleanVer := Str.strip_v (g3 c) in
  g1 c ++ "[" ++ cleanVer ++ "] - " ++ today.

(** The replacement of a matched Unreleased header: the template
    [`$1[${version}] - ${today}`]. *)
Definition unreleased_line (version today : string) (c : captures)
  : string :=
  getSubstitution c ("$1[" ++ version ++ "] - " ++ today).

(** [line.replace(rx, by)] for one of the two header patterns, which
    match a whole line or nothing. *)
Definition replace_line (rx : Rx.t captures) (by_ : captures -> string)
    (line : string) : string :=
  match exec rx line with
  | Some c => by_ c
  | None => line
  end.

(** The [while] loop that skips the blank lines after the title. *)
Fixpoint skip_blank (i : nat) (rest : list string) : nat :=
  match rest with
  | [] => i
  | l :: rest' =>
      if String.eqb (Str.trim l) "" then skip_blank (S i) rest' else i
  end.

Definition insertIndex (lines : list string) : nat :=
  match findIndex (test titleRx) lines with
  | None => 0
  | Some i => skip_blank (S i) (List.skipn (S i) lines)
  end.

Definition newHeader (version today : string) : string :=
  "## [" ++ version ++ "] - " ++ today.

Definition newSection (version today : string) : list string :=
  [""; newHeader version today; ""; "### Added"; ""; "- Initial release";
   ""].

(** What the script does to the lines; [true] when it created a header. *)
Definition update_lines (version today : string) (lines : list string)
  : list string * bool :=
  match findIndex (test (versionRx version)) lines with
  | Some headerIndex =>
      let line := line_at lines headerIndex in
      let newLine :=
        replace_line (versionRx version) (version_line today) line in
      (set_nth headerIndex newLine lines, false)
  | None =>
      match findIndex (test unreleasedRx) lines with
      | Some headerIndex =>
          let line := line_at lines headerIndex in
          let newLine :=
            replace_line unreleasedRx (unreleased_line version today)
              line in
          (set_nth headerIndex newLine lines, false)
      | None =>
          (splice_in (insertIndex lines) (newSection version today) lines,
           true)
      end
  end.

(** The text written back to CHANGELOG.md for its old text [content], a
    non-empty argument [versionArg] and the date [today]
    ([new Date().toISOString().split("T")[0]]): the script reaches this
    computation only after its guard on the argument (see [script]
    below). *)
Definition written (content versionArg today : string) : string :=
  let version := Str.strip_v versionArg in
  let lines := Str.split_lines content in
  Str.join LF (fst (update_lines version today lines)).

Definition created (content versionArg today : string) : bool :=
  snd (update_lines (Str.strip_v versionArg) today
         (Str.split_lines content)).

Definition usage : string :=
  "Usage: deno run -A tools/update-changelog.ts <version>".

(** The script, for the old text [content] of CHANGELOG.md, the argument
    [versionArg] ([Deno.args[0] ?? ""]) and the date [today]: with an empty
    argument it prints the usage line to stderr and leaves with
    [Deno.exit(1)] before it reads the file; otherwise it writes [written],
    and [created] tells which of its two messages it prints. *)
Definition script (content versionArg today : string)
  : outcome (string * bool) :=
  if String.eqb versionArg "" then ExitError usage
  else Returned (written content versionArg today,
                 created content versionArg today).

End UpdateChangelog.

(* ================================================================== *)
(** * Vocabulary of the statements *)
(* ================================================================== *)

(** The number of [#] characters a line starts with. *)
Fixpoint leading_hashes (s : string) : nat :=
  match s with
  | String c s' => if Char.is_hash c then S (leading_hashes s') else 0
  | EmptyString => 0
  end.

(** The heading level of a line as get-changelog.ts detects it in its
    scan for the end of a section: [None] when the line is no heading. *)
Definition heading_level (line : string) : option nat :=
  option_map String.length (exec GetChangelog.headingRx line).

(** Two texts that the [i] flag identifies. *)
Fixpoint eq_ci (a b : string) : bool :=
  match a, b with
  | EmptyString, EmptyString => true
  | String x a', String y b' => Char.eqb_ci x y && eq_ci a' b'
  | _, _ => false
  end.

(** A text without [$], CR and LF: as part of a replacement template it
    stands for itself, and as part of a line it does not break the line. *)
Definition plain_char (c : ascii) : bool :=
  negb (Ascii.eqb c "$") && negb (Char.is_line_terminator c).

Definition plain_text (s : string) : bool := Str.forallb plain_char s.

(** Whether a text begins with v or V. *)
Definition starts_v (s : string) : bool :=
  match s with
  | String c _ => Char.eqb_ci "v" c
  | EmptyString => false
  end.

Definition starts_hash (s : string) : bool :=
  match s with
  | String c _ => Char.is_hash c
  | EmptyString => false
  end.

(** A version text that is not empty, is plain, and does not begin with v,
    V or [#]. *)
Definition plain_version (v : string) : bool :=
  negb (String.eqb v "") && plain_text v && negb (starts_v v)
    && negb (starts_hash v).

(** The next character, if any, is outside the class [p]. *)
Definition stops (p : ascii -> bool) (r : string) : Prop :=
  match r with
  | String c _ => p c = false
  | EmptyString => True
  end.

(** A version token that the rewrite leaves as it is: the version as some
    line may spell it, either bare or behind a V. *)
Definition settled_token (version tok : string) : Prop :=
  (eq_ci version tok = true /\ starts_v tok = false) \/
  (exists c m, tok = String c m /\ Char.eqb_ci "v" c = true /\
               Ascii.eqb c "v" = false /\ eq_ci version m = true).

(** No line ends with a carriage return. *)
Definition no_trailing_cr (lines : list string) : bool :=
  List.forallb (fun l => negb (Str.endsWith_char "013" l)) lines.

(** A text without LF. *)
Definition no_lf (l : string) : bool :=
  Str.forallb (fun c => negb (Ascii.eqb c "010")) l.

(** A line that [join] and [split_lines] give back as it is: it has no LF
    and does not end with CR. *)
Definition stable_line (l : string) : bool :=
  no_lf l && negb (Str.endsWith_char "013" l).

(** The first element of [l] with [p] is [x], between [pre] and [post]. *)
Definition first_match {A : Type} (p : A -> bool) (l pre : list A) (x : A)
    (post : list A) : Prop :=
  l = (pre ++ x :: post)%list /\
  List.forallb (fun y => negb (p y)) pre = true /\
  p x = true.

Definition no_match {A : Type} (p : A -> bool) (l : list A) : Prop :=
  List.forallb (fun y => negb (p y)) l = true.

(* ================================================================== *)
(** * Searching and replacing in a whole text *)
(* ================================================================== *)

(** The double quote. *)
Definition DQ : string := String "034" "".

(** The leftmost match of a pattern without [^]: the text before it, the
    match (the first way at that position) and the text after it. *)
Fixpoint find_match (m : Rx.t string) (s : string)
  : option (string * string * string) :=
  match m s with
  | (matched, rest) :: _ => Some ("", matched, rest)
  | [] =>
      match s with
      | String c s' =>
          match find_match m s' with
          | Some (before, matched, after) =>
              Some (String c before, matched, after)
          | None => None
          end
      | EmptyString => None
      end
  end.

(** GetSubstitution for a pattern without groups: [$$], [$&], [$`] and
    [$'] are expanded; a [$] before anything else, a digit included, is
    copied. *)
Fixpoint expand0 (before matched after template : string) : string :=
  match template with
  | EmptyString => ""
  | String a rest =>
      if Ascii.eqb a "$" then
        match rest with
        | EmptyString => "$"
        | String b rest' =>
            if Ascii.eqb b "$"
            then String "$" (expand0 before matched after rest')
            else if Ascii.eqb b "&"
            then matched ++ expand0 before matched after rest'
            else if Ascii.eqb b "`"
            then before ++ expand0 before matched after rest'
            else if Ascii.eqb b "'"
            then after ++ expand0 before matched after rest'
            else String "$" (expand0 before matched after rest)
        end
      else String a (expand0 before matched after rest)
  end.

(** [s.replace(rx, template)] for a pattern without [^], groups and [g]. *)
Definition replace_template (m : Rx.t string) (template s : string)
  : string :=
  match find_match m s with
  | Some (before, matched, after) =>
      before ++ expand0 before matched after template ++ after
  | None => s
  end.

(** [s.replace(rx, (match) => f(match))] for such a pattern. *)
Definition replace_fn (m : Rx.t string) (f : string -> string) (s : string)
  : string :=
  match find_match m s with
  | Some (before, matched, after) => before ++ f matched ++ after
  | None => s
  end.

(** [a || b] on texts: the empty text is falsy. *)
Definition or_else (a b : string) : string :=
  match a with
  | EmptyString => b
  | _ => a
  end.

Fixpoint map_chars (f : ascii -> ascii) (s : string) : string :=
  match s with
  | EmptyString => ""
  | String c s' => String (f c) (map_chars f s')
  end.

(* ================================================================== *)
(** * tools/get-meta.ts: the tool name *)
(* ================================================================== *)

Module GetMeta.

(** [/^@.*\//]: the dot matches no line terminator. *)
Definition scopeRx : Rx.t string :=
  lit "@" +++ star UpdateChangelog.not_terminator +++ lit "/".

(** [.replace(/^@.*\//, "")] *)
Definition strip_scope (s : string) : string :=
  match scopeRx s with
  | (_, rest) :: _ => rest
  | [] => s
  end.

(** The class [a-zA-Z0-9._-]. *)
Definition is_name_char (c : ascii) : bool :=
  Char.is_lower c || Char.is_upper c || Char.is_digit c
  || Ascii.eqb c "." || Ascii.eqb c "_" || Ascii.eqb c "-".

Definition clean_char (c : ascii) : ascii :=
  if is_name_char c then c else "-"%char.

(** [const name = String(rawName).replace(/^@.*\//, "")
    .replace(/[^a-zA-Z0-9._-]/g, "-")], for the text of [rawName]. *)
Definition name (rawName : string) : string :=
  map_chars clean_char (strip_scope rawName).

End GetMeta.

(* ================================================================== *)
(** * tools/release.ts: the project name and the version files *)
(* ================================================================== *)

Module ProjectMeta.

Definition not_slash (c : ascii) : bool := negb (Ascii.eqb c "/").

(** The group [(@([^/]+)\/)]; the result is the inner capture. *)
Definition scopeGroup : Rx.t string :=
  _ <- lit "@" ;;
  sc <- plus not_slash ;;
  _ <- lit "/" ;;
  ret sc.

(** [/^(@([^/]+)\/)?(.+)$/]; the result is the captures 2 and 3, capture
    2 being undefined when the optional group is skipped. *)
Definition nameRx : Rx.t (option string * string) :=
  fun s =>
    ((sc <- scopeGroup ;;
      pkg <- plus UpdateChangelog.not_terminator ;;
      _ <- eos ;;
      ret (Some sc, pkg)) s
     ++
     (pkg <- plus UpdateChangelog.not_terminator ;;
      _ <- eos ;;
      ret (None, pkg)) s)%list.

(** [const scope = match?.[2] || ""] *)
Definition scope (fullName : string) : string :=
  match exec nameRx fullName with
  | Some (Some sc, _) => or_else sc ""
  | _ => ""
  end.

(** [const packageName = match?.[3] || fullName] *)
Definition packageName (fullName : string) : string :=
  match exec nameRx fullName with
  | Some (_, pkg) => or_else pkg fullName
  | None => fullName
  end.

End ProjectMeta.

Module VersionFiles.

Definition not_quote (c : ascii) : bool := negb (Ascii.eqb c "034").

(** A quoted text [Q[^Q]+Q], where Q is the double quote. *)
Definition quotedRx : Rx.t string :=
  lit DQ +++ plus not_quote +++ lit DQ.

(** [(?:export )?const VERSION = Q[^Q]+Q;] *)
Definition versionConstRx : Rx.t string :=
  opt (lit "export ") +++ lit "const VERSION = " +++ quotedRx +++ lit ";".

(** [Qversion Q:\s*Q[^Q]+Q] (without the blank before the second Q). *)
Definition jsonVersionRx : Rx.t string :=
  lit (DQ ++ "version" ++ DQ ++ ":") +++ star Char.is_space +++ quotedRx.

(** The replacer of the entry point:
    [(match) => match.replace(/Q[^Q]+Q/, `Q${nextVersion}Q`)]. *)
Definition bump_const (nextVersion matched : string) : string :=
  replace_template quotedRx (DQ ++ nextVersion ++ DQ) matched.

(** The step "Updating <entry point>": the text to write, or the exit when
    the replacement changed nothing. *)
Definition update_entry (entryPoint content nextVersion : string)
  : outcome string :=
  let updated := replace_fn versionConstRx (bump_const nextVersion) content in
  if String.eqb content updated
  then ExitError ("Failed to update VERSION constant in " ++ entryPoint)
  else Returned updated.

(** The canonical member [Qversion Q: QnextVersionQ]. *)
Definition json_member (nextVersion : string) : string :=
  DQ ++ "version" ++ DQ ++ ": " ++ DQ ++ nextVersion ++ DQ.

(** The step "Updating deno.json"; src/main.ts has the same step. *)
Definition update_deno_json (content nextVersion : string) : outcome string :=
  let updatedJson :=
    replace_template jsonVersionRx (json_member nextVersion) content in
  if String.eqb content updatedJson
  then ExitError "Failed to update version in deno.json"
  else Returned updatedJson.

End VersionFiles.

(* ================================================================== *)
(** * src/main.ts: the version file *)
(* ================================================================== *)

Module MainFiles.

(** [export const VERSION = Q[^Q]+Q;] *)
Definition exportConstRx : Rx.t string :=
  lit "export const VERSION = " +++ VersionFiles.quotedRx +++ lit ";".

(** The step "Updating src/version.ts": the match is replaced by the
    template [export const VERSION = Q${nextVersion}Q;]. *)
Definition update_version_file (versionFileContent nextVersion : string)
  : outcome string :=
  let updatedVersionFile :=
    replace_template exportConstRx
      ("export const VERSION = " ++ DQ ++ nextVersion ++ DQ ++ ";")
      versionFileContent in
  if String.eqb versionFileContent updatedVersionFile
  then ExitError "Failed to update VERSION constant in src/version.ts"
  else Returned updatedVersionFile.

End MainFiles.

(* ================================================================== *)
(** * tools/release.ts: the links printed at the end *)
(* ================================================================== *)

Module Links.

(** [/url = (.+)/]; the result is the capture. *)
Definition urlRx : Rx.t string :=
  _ <- lit "url = " ;;
  u <- plus UpdateChangelog.not_terminator ;;
  ret u.

(** [/\.git$/] *)
Definition gitSuffixRx : Rx.t string :=
  m <- lit ".git" ;;
  _ <- eos ;;
  ret m.

(** [.replace(/^git@github\.com:/, "https://github.com/")] *)
Definition https_of_ssh (url : string) : string :=
  match lit "git@github.com:" url with
  | (_, rest) :: _ => "https://github.com/" ++ rest
  | [] => url
  end.

(** [const repoUrl = config.match(...)?.[1]?.replace(...)?.replace(...)]
    for the text of .git/config; [None] stands for [undefined]. *)
Definition repoUrl (gitConfig : string) : option string :=
  match find_match urlRx gitConfig with
  | Some (_, url, _) =>
      Some (https_of_ssh (replace_template gitSuffixRx "" url))
  | None => None
  end.

(** The link of the line "GitHub:", printed [if (repoUrl)]. *)
Definition release_link (gitConfig version : string) : option string :=
  match repoUrl gitConfig with
  | Some u =>
      if String.eqb u "" then None
      else Some (u ++ "/releases/tag/v" ++ version)
  | None => None
  end.

End Links.

(* ================================================================== *)
(** * src/main.ts: the installer *)
(* ================================================================== *)

Module Init.



Section Install.

(** [join] of [@std/path]. *)
Variable join : string -> string -> string.
(** Whether [Deno.stat(path)] succeeds. *)
Variable stat : string -> bool.
(** Whether [copyFile(sourcePath, destPath, description)] returns; it
    throws otherwise. *)
Variable copyFile : string -> string -> string -> bool.







End Install.

End Init.

(* ================================================================== *)
(** * Vocabulary of the further statements *)
(* ================================================================== *)

(** A run of [n] characters [#]. *)
Fixpoint hashes (n : nat) : string :=
  match n with
  | O => ""
  | S n' => String "#" (hashes n')
  end.

(** A line that the end scan of get-changelog.ts takes for a heading of
    level [n]: one to six [#], then whitespace, then a character that is
    not whitespace.  A line such as [##[1.9.0]], with nothing between the
    [#] and the text, is none. *)
Definition heading_line (n : nat) (line : string) : Prop :=
  1 <= n <= 6 /\
  exists ws c rest,
    line = hashes n ++ ws ++ String c rest /\
    ws <> "" /\ Str.forallb Char.is_space ws = true /\
    Char.is_space c = false.

(** The lines [body] that follow the start line [x] in its section, among
    the lines [post] after it: they end before the first heading line with
    at most as many [#] as [x] has at its head, or with [post]. *)
Definition section_body (x : string) (post body : list string) : Prop :=
  exists k,
    k <= List.length post /\ body = List.firstn k post /\
    (forall j n, j < k -> heading_line n (List.nth j post "") ->
       leading_hashes x < n) /\
    (k < List.length post ->
       exists n, heading_line n (List.nth k post "") /\
                 n <= leading_hashes x).

(** A link reference after an empty line, and whatever follows it to the
    end of the text: two LF, [[], digits and dots, []:], whitespace,
    [http://] or [https://] and at least one more character. *)
Definition link_ref_tail (s : string) : Prop :=
  exists ds ws sch rest,
    s = (LF ++ LF ++ "[") ++ ds ++ "]:" ++ ws ++ "http" ++ sch ++ "://"
        ++ rest /\
    ds <> "" /\
    Str.forallb (fun c => Char.is_digit c || Ascii.eqb c ".") ds = true /\
    ws <> "" /\ Str.forallb Char.is_space ws = true /\
    (sch = "" \/ sch = "s") /\
    rest <> "".

(** [c] is [t] cut at its first link reference after an empty line: [t]
    itself when it has none. *)
Definition cut_at_link_ref (t c : string) : Prop :=
  (c = t /\ forall p s, t = p ++ s -> ~ link_ref_tail s) \/
  (exists s,
     t = c ++ s /\ link_ref_tail s /\
     forall p' s', t = p' ++ s' -> link_ref_tail s' ->
       String.length c <= String.length p').

(** A declaration of the VERSION constant at [before], with the value
    [old], such that no declaration starts earlier in [content]. *)
Definition first_declaration (content before kw old after : string) : Prop :=
  content = before ++ kw ++ DQ ++ old ++ DQ ++ ";" ++ after /\
  (kw = "const VERSION = " \/ kw = "export const VERSION = ") /\
  old <> "" /\ Str.forallb VersionFiles.not_quote old = true /\
  forall before' kw' old' after',
    content = before' ++ kw' ++ DQ ++ old' ++ DQ ++ ";" ++ after' ->
    (kw' = "const VERSION = " \/ kw' = "export const VERSION = ") ->
    old' <> "" -> Str.forallb VersionFiles.not_quote old' = true ->
    String.length before <= String.length before'.

(** The same for the exported declaration that src/main.ts looks for. *)
Definition first_export (content before old after : string) : Prop :=
  content = before ++ "export const VERSION = " ++ DQ ++ old ++ DQ ++ ";"
            ++ after /\
  old <> "" /\ Str.forallb VersionFiles.not_quote old = true /\
  forall before' old' after',
    content = before' ++ "export const VERSION = " ++ DQ ++ old' ++ DQ
              ++ ";" ++ after' ->
    old' <> "" -> Str.forallb VersionFiles.not_quote old' = true ->
    String.length before <= String.length before'.

(** A member [Qversion Q:], whitespace [ws] and the quoted value [old] at
    [before], such that no such member starts earlier in [content]. *)
Definition first_member (content before ws old after : string) : Prop :=
  content = before ++ (DQ ++ "version" ++ DQ ++ ":") ++ ws ++ DQ ++ old
            ++ DQ ++ after /\
  Str.forallb Char.is_space ws = true /\
  old <> "" /\ Str.forallb VersionFiles.not_quote old = true /\
  forall before' ws' old' after',
    content = before' ++ (DQ ++ "version" ++ DQ ++ ":") ++ ws' ++ DQ ++ old'
              ++ DQ ++ after' ->
    Str.forallb Char.is_space ws' = true ->
    old' <> "" -> Str.forallb VersionFiles.not_quote old' = true ->
    String.length before <= String.length before'.

(** The order of versions by major, minor and patch. *)
Definition core_lt (a b : Semver.SemVer) : Prop :=
  (Semver.major a < Semver.major b)%N \/
  (Semver.major a = Semver.major b /\
   ((Semver.minor a < Semver.minor b)%N \/
    (Semver.minor a = Semver.minor b /\
     (Semver.patch a < Semver.patch b)%N))).

(** The characters of a formatted version. *)
Definition is_version_char (c : ascii) : bool :=
  Semver.is_ident_char c || Ascii.eqb c "." || Ascii.eqb c "+".

(** A text without [$]. *)
Definition no_dollar (s : string) : bool :=
  Str.forallb (fun c => negb (Ascii.eqb c "$")) s.

(** A text without [/]. *)
Definition no_slash (s : string) : bool :=
  Str.forallb ProjectMeta.not_slash s.

(* ================================================================== *)
(** * Facts about strings *)
(* ================================================================== *)

Lemma append_nil_r (s : string) : s ++ "" = s.
Proof. induction s as [|c s IH]; simpl; [reflexivity | now rewrite IH]. Qed.

Lemma append_assoc (a b c : string) : (a ++ b) ++ c = a ++ b ++ c.
Proof. induction a as [|x a IH]; simpl; [reflexivity | now rewrite IH]. Qed.

Lemma prefix_refl (s : string) : String.prefix s s = true.
Proof.
  induction s as [|c s IH]; simpl; [reflexivity|].
  destruct (ascii_dec c c) as [_|n]; [exact IH | now elim n].
Qed.

Lemma prefix_append (p s : string) : String.prefix p (p ++ s) = true.
Proof.
  induction p as [|c p IH]; simpl.
  - now destruct s.
  - destruct (ascii_dec c c) as [_|n]; [exact IH | now elim n].
Qed.

Lemma includes_append_r (sub a b : string) :
  Str.includes sub b = true -> Str.includes sub (a ++ b) = true.
Proof.
  intros H. induction a as [|c a IH]; simpl; [exact H|].
  rewrite IH. apply orb_true_r.
Qed.

Lemma includes_of_prefix (sub s : string) :
  Str.startsWith sub s = true -> Str.includes sub s = true.
Proof. destruct s; simpl; intros ->; reflexivity. Qed.

Lemma includes_append_l (sub b : string) :
  Str.includes sub (sub ++ b) = true.
Proof. apply includes_of_prefix, prefix_append. Qed.

Lemma includes_middle (a sub b : string) :
  Str.includes sub (a ++ sub ++ b) = true.
Proof. apply includes_append_r, includes_append_l. Qed.

(* ================================================================== *)
(** * The version bump *)
(* ================================================================== *)

Section Bump.
Import Semver.

Lemma parse_number_safe (s : string) (n : N) :
  parse_number s = Some n -> (n <= MAX_SAFE_INTEGER)%N.
Proof.
  unfold parse_number. destruct s as [|c s]; [discriminate|].
  destruct (Str.forallb Char.is_digit (String c s)); [|discriminate].
  destruct (N.leb_spec (number_of_digits 0 (String c s)) MAX_SAFE_INTEGER)
    as [Hle|_]; [|discriminate].
  intros [= <-]. exact Hle.
Qed.

(** The components that [parse] returns are safe integers: incrementing
    one of them as a JavaScript number is exact. *)
Lemma parse_safe (s : string) (v : SemVer) :
  parse s = Some v ->
  (major v <= MAX_SAFE_INTEGER /\ minor v <= MAX_SAFE_INTEGER
   /\ patch v <= MAX_SAFE_INTEGER)%N.
Proof.
  unfold parse.
  destruct (Str.cut "+" s) as [front buildText].
  destruct (Str.cut "-" front) as [core preText].
  destruct (List.map parse_number (Str.split_char "." core))
    as [|[ma|] [|[mi|] [|[pa|] [|x l]]]] eqn:E; try discriminate.
  destruct (match preText with None => Some [] | Some t => parse_identifiers t end);
    [|discriminate].
  destruct (match buildText with None => Some [] | Some t => parse_identifiers t end);
    [|discriminate].
  intros [= <-]; simpl.
  pose proof (@parse_number_safe) as P.
  remember (Str.split_char "." core) as parts eqn:Ep.
  destruct parts as [|a [|b [|c [|d parts]]]]; try discriminate.
  simpl in E. injection E as Ea Eb Ec.
  repeat split; eapply P; eassumption.
Qed.

Lemma main_next_release_next (current versionArg : string) :
  MainScript.next current versionArg = Release.next current versionArg.
Proof.
  unfold MainScript.next, Release.next.
  destruct (parse current) as [c|]; [|reflexivity].
  simpl List.existsb.
  destruct (String.eqb versionArg "major") eqn:E1; [reflexivity|].
  destruct (String.eqb versionArg "minor") eqn:E2; [reflexivity|].
  destruct (String.eqb versionArg "patch") eqn:E3; reflexivity.
Qed.

Lemma not_keyword (versionArg : string) :
  versionArg <> "major" -> versionArg <> "minor" -> versionArg <> "patch" ->
  List.existsb (String.eqb versionArg) ["major"; "minor"; "patch"] = false.
Proof.
  intros H1 H2 H3. simpl.
  apply String.eqb_neq in H1, H2, H3. now rewrite H1, H2, H3.
Qed.

End Bump.

(** C1. For a current version that parses, each of the keywords major,
    minor and patch increments its component by one, sets the less
    significant components to zero and empties the prerelease list, in
    tools/release.ts and in src/main.ts alike; 1.0.0-beta.1 bumped by patch
    is 1.0.1. *)
Theorem C1_keyword_bump (current : string) (v : Semver.SemVer) :
  Semver.parse current = Some v ->
  (forall n, Release.next current "major" = Returned n ->
     MainScript.next current "major" = Returned n /\
     Semver.major n = (Semver.major v + 1)%N /\ Semver.minor n = 0%N /\
     Semver.patch n = 0%N /\ Semver.prerelease n = []) /\
  (forall n, Release.next current "minor" = Returned n ->
     MainScript.next current "minor" = Returned n /\
     Semver.major n = Semver.major v /\
     Semver.minor n = (Semver.minor v + 1)%N /\
     Semver.patch n = 0%N /\ Semver.prerelease n = []) /\
  (forall n, Release.next current "patch" = Returned n ->
     MainScript.next current "patch" = Returned n /\
     Semver.major n = Semver.major v /\ Semver.minor n = Semver.minor v /\
     Semver.patch n = (Semver.patch v + 1)%N /\ Semver.prerelease n = []) /\
  (exists a b c, Release.next current "major" = Returned a /\
     Release.next current "minor" = Returned b /\
     Release.next current "patch" = Returned c) /\
  Release.nextVersion "1.0.0-beta.1" "patch" = Returned "1.0.1".
Proof.
  intros Hp.
  assert (Hmaj : Release.next current "major"
                 = Returned (Release.clear_prerelease (Release.bump_major v))).
  { unfold Release.next. rewrite Hp. reflexivity. }
  assert (Hmin : Release.next current "minor"
                 = Returned (Release.clear_prerelease (Release.bump_minor v))).
  { unfold Release.next. rewrite Hp. reflexivity. }
  assert (Hpat : Release.next current "patch"
                 = Returned (Release.clear_prerelease (Release.bump_patch v))).
  { unfold Release.next. rewrite Hp. reflexivity. }
  split; [|split; [|split; [|split]]].
  - intros n H. rewrite main_next_release_next. split; [assumption|].
    rewrite Hmaj in H. injection H as <-. now repeat split.
  - intros n H. rewrite main_next_release_next. split; [assumption|].
    rewrite Hmin in H. injection H as <-. now repeat split.
  - intros n H. rewrite main_next_release_next. split; [assumption|].
    rewrite Hpat in H. injection H as <-. now repeat split.
  - do 3 eexists. repeat split; eassumption.
  - reflexivity.
Qed.

Lemma C1_keyword_bump_witness :
  Semver.parse "1.0.0-beta.1" = Some (Semver.mkSemVer 1 0 0 ["beta"; "1"] [])
  /\ Release.nextVersion "1.0.0-beta.1" "patch" = Returned "1.0.1".
Proof.
  split; [reflexivity|].
  apply (C1_keyword_bump "1.0.0-beta.1"
           (Semver.mkSemVer 1 0 0 ["beta"; "1"] [])).
  reflexivity.
Defined.

Lemma next_keyword (current k : string) (v : Semver.SemVer) :
  Semver.parse current = Some v ->
  k = "major" \/ k = "minor" \/ k = "patch" ->
  exists n,
    Release.next current k = Returned n /\
    MainScript.next current k = Returned n /\
    Semver.prerelease n = [] /\
    Semver.build n = Semver.build v.
Proof.
  intros Hp Hk. rewrite main_next_release_next. unfold Release.next.
  rewrite Hp.
  destruct Hk as [-> | [-> | ->]]; simpl; eexists; repeat split.
Qed.

Lemma format_build_suffix (n : Semver.SemVer) (b : string) (bs : list string) :
  Semver.build n = b :: bs ->
  exists front,
    Semver.format n = front ++ "+" ++ Str.join "." (b :: bs).
Proof.
  intros Hb. unfold Semver.format. rewrite Hb.
  set (pre := match Semver.prerelease n with [] => "" | _ => _ end).
  exists (Semver.formatNumber (Semver.major n) ++ "."
          ++ Semver.formatNumber (Semver.minor n) ++ "."
          ++ Semver.formatNumber (Semver.patch n) ++ pre).
  rewrite !append_assoc. reflexivity.
Qed.

(** C7, as the claim states it, fails: 1.2.3+build.5 bumped by patch is
    formatted as 1.2.4+build.5, which still carries the build suffix. *)
Lemma C7_build_dropped_counterexample :
  exists r,
    Release.nextVersion "1.2.3+build.5" "patch" = Returned r /\
    MainScript.next "1.2.3+build.5" "patch"
      = Returned (Semver.mkSemVer 1 2 4 [] ["build"; "5"]) /\
    r = "1.2.4+build.5" /\
    Str.includes "+build.5" r = true.
Proof. exists "1.2.4+build.5". repeat split. Qed.

(** C7 (amended). A keyword bump leaves the build metadata of the parsed
    current version untouched: the next version has the same build list,
    and when that list is not empty the formatted next version ends with
    the same +build suffix. *)
Theorem C7_build_kept (current k : string) (v : Semver.SemVer) :
  Semver.parse current = Some v ->
  k = "major" \/ k = "minor" \/ k = "patch" ->
  exists n,
    Release.next current k = Returned n /\
    MainScript.next current k = Returned n /\
    Semver.build n = Semver.build v /\
    (forall b bs, Semver.build v = b :: bs ->
       exists front,
         Release.nextVersion current k
           = Returned (front ++ "+" ++ Str.join "." (b :: bs))).
Proof.
  intros Hp Hk.
  destruct (next_keyword current k v Hp Hk) as (n & Hn & Hm & _ & Hb).
  exists n. repeat split; try assumption.
  intros b bs Hv. rewrite Hv in Hb.
  destruct (format_build_suffix n b bs Hb) as [front Hf].
  exists front. unfold Release.nextVersion. rewrite Hn, Hf. reflexivity.
Qed.

Lemma C7_build_kept_witness :
  exists n,
    Release.next "1.2.3+build.5" "minor" = Returned n /\
    MainScript.next "1.2.3+build.5" "minor" = Returned n /\
    Semver.build n = ["build"; "5"] /\
    (forall b bs, ["build"; "5"] = b :: bs ->
       exists front,
         Release.nextVersion "1.2.3+build.5" "minor"
           = Returned (front ++ "+" ++ Str.join "." (b :: bs))).
Proof.
  apply (C7_build_kept "1.2.3+build.5" "minor"
           (Semver.mkSemVer 1 2 3 [] ["build"; "5"])).
  - reflexivity.
  - right. left. reflexivity.
Defined.

(** C9. A request that is none of the three keywords is parsed as a
    version: when it parses, the parsed version is the next version as it
    stands, whatever the current version is (prerelease identifiers kept,
    lower and equal targets accepted); when it does not parse, the script
    leaves through [exitError] with a message that contains the request. *)
Theorem C9_explicit_version (current versionArg : string)
    (c : Semver.SemVer) :
  Semver.parse current = Some c ->
  versionArg <> "major" -> versionArg <> "minor" -> versionArg <> "patch" ->
  (forall v, Semver.parse versionArg = Some v ->
     Release.next current versionArg = Returned v /\
     MainScript.next current versionArg = Returned v /\
     Release.nextVersion current versionArg = Returned (Semver.format v)) /\
  (Semver.parse versionArg = None ->
     exists msg,
       Release.next current versionArg = ExitError msg /\
       MainScript.next current versionArg = ExitError msg /\
       Release.nextVersion current versionArg = ExitError msg /\
       Str.includes versionArg msg = true).
Proof.
  intros Hc H1 H2 H3.
  assert (E : Release.next current versionArg
              = match Semver.parse versionArg with
                | Some n => Returned n
                | None => ExitError ("Invalid version: " ++ versionArg)
                end).
  { unfold Release.next. rewrite Hc, (not_keyword versionArg H1 H2 H3).
    reflexivity. }
  split.
  - intros v Hv. rewrite Hv in E.
    rewrite main_next_release_next. unfold Release.nextVersion.
    rewrite E. repeat split.
  - intros Hv. rewrite Hv in E.
    exists ("Invalid version: " ++ versionArg).
    rewrite main_next_release_next. unfold Release.nextVersion.
    rewrite E. repeat split.
    apply includes_append_r, includes_of_prefix, prefix_refl.
Qed.

Lemma C9_explicit_version_witness :
  Release.nextVersion "1.0.0" "2.5.7" = Returned "2.5.7" /\
  Release.nextVersion "1.0.0-beta.1" "1.0.0-rc.1" = Returned "1.0.0-rc.1" /\
  Release.nextVersion "2.0.0" "1.0.0" = Returned "1.0.0" /\
  exists msg,
    Release.next "1.0.0" "not-a-version" = ExitError msg /\
    Str.includes "not-a-version" msg = true.
Proof.
  split; [|split; [|split]].
  - destruct (C9_explicit_version "1.0.0" "2.5.7"
                (Semver.mkSemVer 1 0 0 [] [])) as [H _];
      [reflexivity | discriminate | discriminate | discriminate |].
    exact (proj2 (proj2 (H (Semver.mkSemVer 2 5 7 [] []) eq_refl))).
  - destruct (C9_explicit_version "1.0.0-beta.1" "1.0.0-rc.1"
                (Semver.mkSemVer 1 0 0 ["beta"; "1"] [])) as [H _];
      [reflexivity | discriminate | discriminate | discriminate |].
    exact (proj2 (proj2 (H (Semver.mkSemVer 1 0 0 ["rc"; "1"] []) eq_refl))).
  - destruct (C9_explicit_version "2.0.0" "1.0.0"
                (Semver.mkSemVer 2 0 0 [] [])) as [H _];
      [reflexivity | discriminate | discriminate | discriminate |].
    exact (proj2 (proj2 (H (Semver.mkSemVer 1 0 0 [] []) eq_refl))).
  - destruct (C9_explicit_version "1.0.0" "not-a-version"
                (Semver.mkSemVer 1 0 0 [] [])) as [_ H];
      [reflexivity | discriminate | discriminate | discriminate |].
    destruct (H eq_refl) as (msg & Hr & _ & _ & Hi).
    exists msg. split; assumption.
Defined.

(* ================================================================== *)
(** * The escaped version is a literal pattern *)
(* ================================================================== *)

Lemma escaped_is_syntax (c : ascii) : is_syntax_char c = is_escaped_char c.
Proof. destruct c as [[] [] [] [] [] [] [] []]; reflexivity. Qed.

(** [escapeForRegex] escapes every syntax character, so the pattern it
    returns denotes the text it was given: inside the header patterns the
    version is matched as text, character by character. *)
Lemma escapeForRegex_literal (version : string) :
  pattern_literal (escapeForRegex version) = Some version.
Proof.
  induction version as [|c v IH]; [reflexivity|].
  cbn [escapeForRegex]. destruct (is_escaped_char c) eqn:E.
  - cbn [pattern_literal]. rewrite Ascii.eqb_refl, escaped_is_syntax, E, IH.
    reflexivity.
  - cbn [pattern_literal].
    destruct (Ascii.eqb_spec c "092") as [->|_]; [discriminate E|].
    now rewrite escaped_is_syntax, E, IH.
Qed.

(* ================================================================== *)
(** * Facts about lists of lines *)
(* ================================================================== *)

Lemma findIndex_first {A : Type} (p : A -> bool) (l : list A) (i : nat) :
  findIndex p l = Some i ->
  exists pre x post, first_match p l pre x post /\ List.length pre = i.
Proof.
  revert i. induction l as [|y l IH]; simpl; intros i H; [discriminate|].
  destruct (p y) eqn:Ey.
  - injection H as <-. exists [], y, l. now repeat split.
  - destruct (findIndex p l) as [j|]; [|discriminate].
    injection H as <-.
    destruct (IH j eq_refl) as (pre & x & post & (-> & Hpre & Hx) & Hlen).
    exists (y :: pre), x, post. repeat split; simpl.
    + now rewrite Ey, Hpre.
    + exact Hx.
    + now rewrite Hlen.
Qed.

Lemma findIndex_none {A : Type} (p : A -> bool) (l : list A) :
  findIndex p l = None -> no_match p l.
Proof.
  unfold no_match. induction l as [|y l IH]; simpl; intros H; [reflexivity|].
  destruct (p y); [discriminate|].
  destruct (findIndex p l); [discriminate|]. simpl. now apply IH.
Qed.

Lemma first_match_findIndex {A : Type} (p : A -> bool) (l pre : list A)
    (x : A) (post : list A) :
  first_match p l pre x post -> findIndex p l = Some (List.length pre).
Proof.
  intros (-> & Hpre & Hx). induction pre as [|y pre IH]; simpl.
  - now rewrite Hx.
  - simpl in Hpre. apply andb_true_iff in Hpre as [Hy Hpre].
    apply negb_true_iff in Hy. rewrite Hy, (IH Hpre). reflexivity.
Qed.

Lemma no_match_findIndex {A : Type} (p : A -> bool) (l : list A) :
  no_match p l -> findIndex p l = None.
Proof.
  unfold no_match. induction l as [|y l IH]; simpl; intros H; [reflexivity|].
  apply andb_true_iff in H as [Hy H]. apply negb_true_iff in Hy.
  now rewrite Hy, (IH H).
Qed.

Lemma line_at_middle (pre : list string) (x : string) (post : list string) :
  line_at (pre ++ x :: post) (List.length pre) = x.
Proof. unfold line_at. induction pre; simpl; auto. Qed.

Lemma set_nth_middle {A : Type} (pre : list A) (x y : A) (post : list A) :
  set_nth (List.length pre) y (pre ++ x :: post) = (pre ++ y :: post)%list.
Proof. induction pre as [|z pre IH]; simpl; [reflexivity | now rewrite IH]. Qed.


(* ================================================================== *)
(** * Facts about the matchers *)
(* ================================================================== *)

Section RxFacts.

Lemma bind_In {A B : Type} (m : Rx.t A) (f : A -> Rx.t B) (s : string)
    (b : B) (r : string) :
  In (b, r) (bind m f s) <->
  exists a r1, In (a, r1) (m s) /\ In (b, r) (f a r1).
Proof.
  unfold bind. rewrite in_flat_map. split.
  - intros ([a r1] & H1 & H2). now exists a, r1.
  - intros (a & r1 & H1 & H2). now exists (a, r1).
Qed.

Lemma ret_In {A : Type} (a b : A) (s r : string) :
  In (b, r) (ret a s) <-> b = a /\ r = s.
Proof.
  unfold ret. simpl. split.
  - intros [[= <- <-]|[]]. now split.
  - intros [-> ->]. now left.
Qed.

Lemma seq_In (a b : Rx.t string) (s m r : string) :
  In (m, r) ((a +++ b) s) <->
  exists x r1 y, In (x, r1) (a s) /\ In (y, r) (b r1) /\ m = x ++ y.
Proof.
  unfold seq. rewrite bind_In. split.
  - intros (x & r1 & Hx & H). apply bind_In in H as (y & r2 & Hy & H).
    apply ret_In in H as [-> ->]. now exists x, r1, y.
  - intros (x & r1 & y & Hx & Hy & ->). exists x, r1. split; [exact Hx|].
    apply bind_In. exists y, r. split; [exact Hy|]. now apply ret_In.
Qed.

Lemma opt_In (x : Rx.t string) (s m r : string) :
  In (m, r) (opt x s) <-> In (m, r) (x s) \/ (m = "" /\ r = s).
Proof.
  unfold opt. rewrite in_app_iff. simpl. split.
  - intros [H|[[= <- <-]|[]]]; [now left | now right].
  - intros [H|[-> ->]]; [now left | right; now left].
Qed.

Lemma cons_match_In (c : ascii) (l : list (string * string))
    (m r : string) :
  In (m, r) (List.map (cons_match c) l) <->
  exists m', m = String c m' /\ In (m', r) l.
Proof.
  rewrite in_map_iff. unfold cons_match. split.
  - intros ([m' r'] & [= <- <-] & H). now exists m'.
  - intros (m' & -> & H). now exists (m', r).
Qed.

Lemma chr_In (p : ascii -> bool) (s m r : string) :
  In (m, r) (chr p s) <->
  exists c, p c = true /\ m = String c "" /\ s = String c r.
Proof.
  unfold chr. destruct s as [|c s]; simpl.
  - split; [intros [] | intros (c & _ & _ & [=])].
  - destruct (p c) eqn:E; simpl; split.
    + intros [[= <- <-]|[]]. now exists c.
    + intros (c' & _ & -> & [= -> ->]). now left.
    + intros [].
    + intros (c' & Hc & _ & [= -> _]). congruence.
Qed.

Lemma star_sound (p : ascii -> bool) (s m r : string) :
  In (m, r) (star p s) -> s = m ++ r /\ Str.forallb p m = true.
Proof.
  revert m r. induction s as [|c s IH]; simpl; intros m r H.
  - destruct H as [[= <- <-]|[]]. now split.
  - destruct (p c) eqn:E.
    + apply in_app_iff in H as [H|[[= <- <-]|[]]]; [|now split].
      apply cons_match_In in H as (m' & -> & H).
      destruct (IH _ _ H) as [-> Hm]. simpl. now rewrite E, Hm.
    + destruct H as [[= <- <-]|[]]. now split.
Qed.

Lemma rep_sound (p : ascii -> bool) (lo hi : nat) (s m r : string) :
  In (m, r) (rep p lo hi s) ->
  s = m ++ r /\ Str.forallb p m = true /\
  lo <= String.length m <= hi.
Proof.
  revert lo s m r. induction hi as [|hi IH]; simpl; intros lo s m r H.
  - destruct (Nat.eqb_spec lo 0) as [->|]; [|destruct H].
    destruct H as [[= <- <-]|[]]. simpl. repeat split; lia.
  - apply in_app_iff in H as [H|H].
    + destruct s as [|c s]; [destruct H|].
      destruct (p c) eqn:E; [|destruct H].
      apply cons_match_In in H as (m' & -> & H).
      destruct (IH _ _ _ _ H) as (-> & Hm & Hlen). simpl.
      rewrite E, Hm. repeat split; lia.
    + destruct (Nat.eqb_spec lo 0) as [->|]; [|destruct H].
      destruct H as [[= <- <-]|[]]. simpl. repeat split; lia.
Qed.

Lemma lit_sound (l s m r : string) :
  In (m, r) (lit l s) -> s = l ++ r /\ m = l.
Proof.
  revert s m r. induction l as [|a l IH]; simpl; intros s m r H.
  - destruct H as [[= <- <-]|[]]. now split.
  - destruct s as [|c s]; [destruct H|].
    destruct (Ascii.eqb_spec a c) as [->|]; [|destruct H].
    apply cons_match_In in H as (m' & -> & H).
    destruct (IH _ _ _ H) as [-> ->]. now split.
Qed.

Lemma lit_ci_sound (l s m r : string) :
  In (m, r) (lit_ci l s) -> s = m ++ r /\ eq_ci l m = true.
Proof.
  revert s m r. induction l as [|a l IH]; simpl; intros s m r H.
  - destruct H as [[= <- <-]|[]]. now split.
  - destruct s as [|c s]; [destruct H|].
    destruct (Char.eqb_ci a c) eqn:E; [|destruct H].
    apply cons_match_In in H as (m' & -> & H).
    destruct (IH _ _ _ H) as [-> Hm]. simpl. now rewrite E, Hm.
Qed.

Lemma eos_In (s : string) (u : unit) (r : string) :
  In (u, r) (eos s) -> s = "" /\ r = "".
Proof.
  unfold eos. destruct s; simpl; [|intros []].
  intros [[= <-]|[]]. now split.
Qed.

Lemma exec_In {A : Type} (m : Rx.t A) (s : string) (a : A) :
  exec m s = Some a -> exists r, In (a, r) (m s).
Proof.
  unfold exec. destruct (m s) as [|[a' r] l]; [discriminate|].
  intros [= <-]. exists r. now left.
Qed.

Lemma test_In {A : Type} (m : Rx.t A) (s : string) :
  test m s = true -> exists a r, In (a, r) (m s).
Proof.
  unfold test. destruct (m s) as [|[a r] l]; [discriminate|].
  intros _. exists a, r. now left.
Qed.

Lemma In_test {A : Type} (m : Rx.t A) (s : string) (a : A) (r : string) :
  In (a, r) (m s) -> test m s = true.
Proof. unfold test. destruct (m s); [intros [] | reflexivity]. Qed.

Lemma test_exec {A : Type} (m : Rx.t A) (s : string) :
  test m s = true -> exists a, exec m s = Some a.
Proof.
  unfold test, exec. destruct (m s) as [|[a r] l]; [discriminate|].
  intros _. now exists a.
Qed.

Lemma exec_test {A : Type} (m : Rx.t A) (s : string) (a : A) :
  exec m s = Some a -> test m s = true.
Proof.
  unfold test, exec. destruct (m s) as [|[a' r] l]; [discriminate|].
  reflexivity.
Qed.

(** The first way of a sequence, when the first way of its head leads to
    a first way of its tail. *)
Lemma bind_head {A B : Type} (m : Rx.t A) (f : A -> Rx.t B) (s : string)
    (a : A) (r1 : string) (tl : list (A * string)) (b : B) (r : string)
    (tl' : list (B * string)) :
  m s = (a, r1) :: tl -> f a r1 = (b, r) :: tl' ->
  exists tl'', bind m f s = (b, r) :: tl''.
Proof.
  intros Hm Hf. unfold bind. rewrite Hm. simpl. rewrite Hf. simpl. eauto.
Qed.

End RxFacts.

(* ================================================================== *)
(** * Heading levels *)
(* ================================================================== *)

Lemma space_not_hash (c : ascii) :
  Char.is_space c = true -> Char.is_hash c = false.
Proof.
  unfold Char.is_hash. destruct (Ascii.eqb_spec c "#") as [->|]; [|reflexivity].
  discriminate.
Qed.

Lemma leading_hashes_run (h r : string) :
  Str.forallb Char.is_hash h = true ->
  leading_hashes r = 0 ->
  leading_hashes (h ++ r) = String.length h.
Proof.
  intros Hh Hr. induction h as [|c h IH]; simpl in *; [exact Hr|].
  apply andb_true_iff in Hh as [Hc Hh]. now rewrite Hc, (IH Hh).
Qed.

Lemma leading_hashes_prefix (h r : string) :
  Str.forallb Char.is_hash h = true ->
  String.length h <= leading_hashes (h ++ r).
Proof.
  intros Hh. induction h as [|c h IH]; simpl in *; [lia|].
  apply andb_true_iff in Hh as [Hc Hh]. rewrite Hc.
  specialize (IH Hh). lia.
Qed.

Lemma rep_zero_nonempty (p : ascii -> bool) (hi : nat) (s : string) :
  rep p 0 hi s <> [].
Proof.
  destruct hi; simpl; [discriminate|].
  intros H. apply app_eq_nil in H as [_ H]. discriminate.
Qed.

(** The first way of [#{lo,hi}] takes as many [#] as the bound allows. *)
Lemma rep_hash_head (lo hi : nat) (s : string) :
  match rep Char.is_hash lo hi s with
  | (m, _) :: _ => String.length m = Nat.min hi (leading_hashes s)
  | [] => True
  end.
Proof.
  revert lo s. induction hi as [|hi IH]; intros lo s; simpl.
  - destruct (Nat.eqb lo 0); simpl; auto.
  - destruct s as [|c s]; simpl.
    + destruct (Nat.eqb lo 0); simpl; auto.
    + destruct (Char.is_hash c) eqn:E; simpl.
      * specialize (IH (Nat.pred lo) s).
        destruct (rep Char.is_hash (Nat.pred lo) hi s) as [|[m r] l] eqn:R;
          simpl.
        -- destruct (Nat.eqb_spec lo 0) as [->|]; simpl; [|auto].
           now apply rep_zero_nonempty in R.
        -- now rewrite IH.
      * destruct (Nat.eqb lo 0); simpl; auto.
Qed.

Lemma rep_hash_enough (lo hi : nat) (s : string) :
  lo <= hi -> lo <= leading_hashes s -> rep Char.is_hash lo hi s <> [].
Proof.
  revert lo s. induction hi as [|hi IH]; intros lo s Hlo Hs.
  - replace lo with 0 by lia. apply rep_zero_nonempty.
  - destruct lo as [|lo]; [apply rep_zero_nonempty|].
    destruct s as [|c s]; simpl in Hs; [lia|].
    simpl. destruct (Char.is_hash c); [|lia].
    intros H. apply app_eq_nil in H as [H _]. apply map_eq_nil in H.
    revert H. apply IH; lia.
Qed.

Lemma rep_hash_some (s : string) :
  1 <= leading_hashes s -> rep Char.is_hash 1 6 s <> [].
Proof. apply rep_hash_enough. lia. Qed.

Lemma startLevel_leading (line : string) :
  1 <= leading_hashes line ->
  GetChangelog.startLevel line = Nat.min 6 (leading_hashes line).
Proof.
  intros H. unfold GetChangelog.startLevel, GetChangelog.levelRx, exec.
  pose proof (rep_hash_head 1 6 line) as Hh.
  pose proof (rep_hash_some line H) as Hs.
  destruct (rep Char.is_hash 1 6 line) as [|[m r] l]; [now elim Hs|].
  exact Hh.
Qed.

(** A heading of the end scan has between one and six [#], all the [#]
    the line starts with. *)
Lemma heading_level_hashes (line : string) (n : nat) :
  heading_level line = Some n ->
  n = leading_hashes line /\ 1 <= n <= 6.
Proof.
  unfold heading_level. destruct (exec GetChangelog.headingRx line) as [h|] eqn:E;
    [|discriminate].
  intros [= <-]. apply exec_In in E as [r E].
  unfold GetChangelog.headingRx in E.
  apply bind_In in E as (h' & r1 & Hrep & E).
  apply bind_In in E as (sp & r2 & Hsp & E).
  apply bind_In in E as (x & r3 & _ & E).
  apply ret_In in E as [-> _].
  apply rep_sound in Hrep as (-> & Hh & Hlen).
  unfold plus in Hsp. apply seq_In in Hsp as (a & ra & b & Ha & _ & _).
  apply chr_In in Ha as (c & Hc & _ & ->).
  split; [|exact Hlen].
  symmetry. apply leading_hashes_run; [exact Hh|].
  simpl. now rewrite (space_not_hash c Hc).
Qed.

Lemma hashes_then_leading (a b : Rx.t string) (s : string) :
  (forall s m r, In (m, r) (a s) ->
     s = m ++ r /\ Str.forallb Char.is_hash m = true /\
     1 <= String.length m <= 6) ->
  test (a +++ b) s = true -> 1 <= leading_hashes s.
Proof.
  intros Ha H. apply test_In in H as (m & r & H).
  apply seq_In in H as (x & r1 & y & Hx & _ & _).
  destruct (Ha _ _ _ Hx) as (-> & Hh & Hlen).
  pose proof (leading_hashes_prefix x r1 Hh). lia.
Qed.

Lemma hdrRx_leading (version line : string) :
  test (GetChangelog.hdrRx version) line = true -> 1 <= leading_hashes line.
Proof.
  apply hashes_then_leading. intros s m r. apply rep_sound.
Qed.

Lemma unreleasedRx_leading (line : string) :
  test GetChangelog.unreleasedRx line = true -> 1 <= leading_hashes line.
Proof.
  apply hashes_then_leading. intros s m r. apply rep_sound.
Qed.

(** The end scan: [k] lines are passed, none of them a heading at the
    level of the start or above it, and the scan stops at such a heading or
    at the end of the lines. *)
Lemma find_end_spec (level i : nat) (rest : list string) :
  exists k,
    GetChangelog.find_end level i rest = i + k /\
    k <= List.length rest /\
    (forall j n, j < k -> heading_level (List.nth j rest "") = Some n ->
       level < n) /\
    (k < List.length rest ->
       exists n, heading_level (List.nth k rest "") = Some n /\ n <= level).
Proof.
  revert i. induction rest as [|l rest IH]; intros i; simpl.
  - exists 0. repeat split; try lia.
  - assert (Hgo : (forall n, heading_level l = Some n -> level < n) ->
                  exists k,
                    GetChangelog.find_end level (S i) rest = i + k /\
                    k <= S (List.length rest) /\
                    (forall j n, j < k ->
                       heading_level
                         (match j with 0 => l | S m => List.nth m rest "" end)
                         = Some n -> level < n) /\
                    (k < S (List.length rest) ->
                       exists n,
                         heading_level
                           (match k with 0 => l | S m => List.nth m rest "" end)
                           = Some n /\ n <= level)).
    { intros Hl. destruct (IH (S i)) as (k & Hk & Hle & Hin & Hstop).
      exists (S k). repeat split; try lia.
      - intros [|j] n Hj; [apply Hl | apply Hin; lia].
      - intros Hlt. apply Hstop. lia. }
    destruct (exec GetChangelog.headingRx l) as [h|] eqn:E.
    + assert (HL : heading_level l = Some (String.length h))
        by (unfold heading_level; now rewrite E).
      destruct (Nat.leb_spec (String.length h) level) as [Hle|Hgt].
      * exists 0. repeat split; try lia.
        intros _. exists (String.length h). now split.
      * apply Hgo. intros n Hn. rewrite HL in Hn. now injection Hn as <-.
    + assert (HL : heading_level l = None)
        by (unfold heading_level; now rewrite E).
      apply Hgo. intros n Hn. rewrite HL in Hn. discriminate.
Qed.

Lemma skipn_middle {A : Type} (pre : list A) (x : A) (post : list A) :
  List.skipn (List.length pre) (pre ++ x :: post) = x :: post.
Proof. induction pre; simpl; auto. Qed.

Lemma skipn_after {A : Type} (pre : list A) (x : A) (post : list A) :
  List.skipn (S (List.length pre)) (pre ++ x :: post) = post.
Proof. induction pre; simpl; auto. Qed.

Lemma firstn_middle {A : Type} (pre : list A) (rest : list A) :
  List.firstn (List.length pre) (pre ++ rest) = pre.
Proof. induction pre as [|y pre IH]; simpl; [now destruct rest | now rewrite IH]. Qed.

Lemma line_at_after (pre : list string) (x : string) (post : list string)
    (j : nat) :
  line_at (pre ++ x :: post) (S (List.length pre) + j) = List.nth j post "".
Proof. unfold line_at. induction pre; simpl; auto. Qed.

(* ================================================================== *)
(** * Extraction of a section *)
(* ================================================================== *)

Lemma section_shape (pre : list string) (x : string) (post : list string) :
  exists k,
    k <= List.length post /\
    GetChangelog.section_end (pre ++ x :: post) (List.length pre)
      = S (List.length pre) + k /\
    slice (List.length pre) (S (List.length pre) + k) (pre ++ x :: post)
      = x :: List.firstn k post /\
    (forall j n, j < k -> heading_level (List.nth j post "") = Some n ->
       GetChangelog.startLevel x < n) /\
    (k < List.length post ->
       exists n, heading_level (List.nth k post "") = Some n /\
                 n <= GetChangelog.startLevel x).
Proof.
  unfold GetChangelog.section_end. rewrite line_at_middle, skipn_after.
  destruct (find_end_spec (GetChangelog.startLevel x) (S (List.length pre)) post)
    as (k & Hk & Hle & Hin & Hstop).
  exists k. repeat split; try assumption.
  unfold slice. rewrite skipn_middle.
  replace (S (List.length pre) + k - List.length pre) with (S k) by lia.
  reflexivity.
Qed.

Lemma find_start_first (version : string) (lines : list string) (start : nat) :
  GetChangelog.find_start version lines = Some start ->
  exists pre x post,
    lines = (pre ++ x :: post)%list /\ List.length pre = start /\
    1 <= leading_hashes x /\
    (first_match (test (GetChangelog.hdrRx version)) lines pre x post \/
     (no_match (test (GetChangelog.hdrRx version)) lines /\
      first_match (test GetChangelog.unreleasedRx) lines pre x post)).
Proof.
  unfold GetChangelog.find_start.
  destruct (findIndex (test (GetChangelog.hdrRx version)) lines) as [i|] eqn:E.
  - intros [= <-].
    destruct (findIndex_first _ _ _ E) as (pre & x & post & Hf & Hlen).
    exists pre, x, post. destruct Hf as (Hl & Hpre & Hx).
    repeat split; try assumption.
    + now apply hdrRx_leading in Hx.
    + left. now repeat split.
  - intros H. apply findIndex_none in E.
    destruct (findIndex_first _ _ _ H) as (pre & x & post & Hf & Hlen).
    exists pre, x, post. destruct Hf as (Hl & Hpre & Hx).
    repeat split; try assumption.
    + now apply unreleasedRx_leading in Hx.
    + right. split; [exact E | now repeat split].
Qed.

(** The step after the end scan: the joined lines are cut at the first link
    reference that follows an empty line, whatever comes after it. *)
Example link_reference_cut :
  let lines :=
    ["## [1.0.0]"; ""; "[1.0.0]: https://example.com/v1.0.0"; "";
     "### Added"; "- foo"; "## [0.9.0]"; "- old"] in
  GetChangelog.find_start "1.0.0" lines = Some 0 /\
  GetChangelog.section_end lines 0 = 6 /\
  GetChangelog.content (Str.join LF lines) "1.0.0" = "## [1.0.0]".
Proof. repeat split. Qed.

(* ================================================================== *)
(** * First ways of the matchers *)
(* ================================================================== *)

Lemma forallb_append (p : ascii -> bool) (a b : string) :
  Str.forallb p (a ++ b) = Str.forallb p a && Str.forallb p b.
Proof.
  induction a as [|c a IH]; simpl; [reflexivity|].
  now rewrite IH, andb_assoc.
Qed.

Lemma forallb_weaken (p q : ascii -> bool) (s : string) :
  (forall c, p c = true -> q c = true) ->
  Str.forallb p s = true -> Str.forallb q s = true.
Proof.
  intros Hpq. induction s as [|c s IH]; simpl; [auto|].
  intros H. apply andb_true_iff in H as [Hc H].
  now rewrite (Hpq c Hc), (IH H).
Qed.

Lemma rep_head_run (p : ascii -> bool) (lo hi : nat) (h r : string) :
  Str.forallb p h = true -> lo <= String.length h <= hi -> stops p r ->
  exists tl, rep p lo hi (h ++ r) = (h, r) :: tl.
Proof.
  revert lo h. induction hi as [|hi IH]; intros lo h Hh Hlen Hr.
  - destruct h; simpl in Hlen; [|lia]. replace lo with 0 by lia.
    simpl. eauto.
  - destruct h as [|c h]; simpl in *.
    + replace lo with 0 by lia. simpl.
      destruct r as [|c r]; simpl in *; [eauto|]. rewrite Hr. simpl. eauto.
    + apply andb_true_iff in Hh as [Hc Hh]. rewrite Hc.
      destruct (IH (Nat.pred lo) h Hh) as [tl Htl]; [lia | exact Hr |].
      rewrite Htl. simpl. unfold cons_match at 1. simpl. eauto.
Qed.

Lemma star_head_run (p : ascii -> bool) (m r : string) :
  Str.forallb p m = true -> stops p r ->
  exists tl, star p (m ++ r) = (m, r) :: tl.
Proof.
  intros Hm Hr. induction m as [|c m IH]; simpl in *.
  - destruct r as [|c r]; simpl in *; [eauto|]. rewrite Hr. eauto.
  - apply andb_true_iff in Hm as [Hc Hm]. rewrite Hc.
    destruct (IH Hm) as [tl Htl]. rewrite Htl. simpl.
    unfold cons_match at 1. simpl. eauto.
Qed.

Lemma star_head_all (p : ascii -> bool) (m : string) :
  Str.forallb p m = true -> exists tl, star p m = (m, "") :: tl.
Proof.
  intros Hm. destruct (star_head_run p m "" Hm I) as [tl H].
  rewrite append_nil_r in H. eauto.
Qed.

Lemma lit_head (l r : string) : lit l (l ++ r) = [(l, r)].
Proof.
  induction l as [|a l IH]; simpl; [reflexivity|].
  now rewrite Ascii.eqb_refl, IH.
Qed.

Lemma lit_ci_head (l m r : string) :
  eq_ci l m = true -> lit_ci l (m ++ r) = [(m, r)].
Proof.
  revert m. induction l as [|a l IH]; intros [|c m] H; simpl in *;
    try discriminate; [reflexivity|].
  apply andb_true_iff in H as [Hc H]. now rewrite Hc, (IH m H).
Qed.

Lemma opt_head_some (x : Rx.t string) (s : string) (a : string * string)
    (tl : list (string * string)) :
  x s = a :: tl -> exists tl', opt x s = a :: tl'.
Proof. intros H. unfold opt. rewrite H. simpl. eauto. Qed.

Lemma opt_head_none (x : Rx.t string) (s : string) :
  x s = [] -> opt x s = [("", s)].
Proof. intros H. unfold opt. now rewrite H. Qed.

Lemma seq_head (a b : Rx.t string) (s x r1 y r : string)
    (tl tl' : list (string * string)) :
  a s = (x, r1) :: tl -> b r1 = (y, r) :: tl' ->
  exists tl'', (a +++ b) s = (x ++ y, r) :: tl''.
Proof.
  intros Ha Hb. unfold seq.
  eapply bind_head; [exact Ha|]. simpl.
  unfold bind. rewrite Hb. simpl. eauto.
Qed.

Lemma eq_ci_refl (s : string) : eq_ci s s = true.
Proof.
  induction s as [|c s IH]; simpl; [reflexivity|].
  unfold Char.eqb_ci. now rewrite Ascii.eqb_refl, IH.
Qed.

Lemma test_lit_ci_v (s : string) : test (lit_ci "v") s = starts_v s.
Proof.
  destruct s as [|c s]; simpl; [reflexivity|].
  unfold test. simpl. destruct (Char.eqb_ci "v" c); reflexivity.
Qed.

Lemma lit_ci_v_none (s : string) : starts_v s = false -> lit_ci "v" s = [].
Proof.
  destruct s as [|c s]; simpl; [reflexivity|]. now intros ->.
Qed.

Lemma eq_ci_starts_v (a b : string) :
  eq_ci a b = true -> starts_v b = starts_v a.
Proof.
  destruct a as [|x a], b as [|y b]; simpl; try discriminate;
    [reflexivity|].
  intros H. apply andb_true_iff in H as [H _].
  unfold Char.eqb_ci in *. apply Ascii.eqb_eq in H. now rewrite H.
Qed.

(* ================================================================== *)
(** * The header patterns of update-changelog.ts *)
(* ================================================================== *)

(** What a match of a header pattern looks like. *)
Lemma header_pattern_sound (token : Rx.t string) (s : string) (c : captures)
    (r : string) :
  (forall s m r, In (m, r) (token s) -> s = m ++ r) ->
  In (c, r) (UpdateChangelog.header_pattern token s) ->
  exists h ws r2 r3,
    whole c = s /\
    s = g1 c ++ g2 c ++ g3 c ++ g4 c ++ g5 c /\
    g1 c = h ++ ws /\
    Str.forallb Char.is_hash h = true /\ 1 <= String.length h <= 6 /\
    Str.forallb Char.is_space ws = true /\
    (g2 c = "" \/ g2 c = "[") /\
    In (g3 c, r3) (token r2) /\
    (g4 c = "" \/ g4 c = "]") /\
    Str.forallb UpdateChangelog.not_terminator (g5 c) = true.
Proof.
  intros Htok H. unfold UpdateChangelog.header_pattern in H.
  apply bind_In in H as (prefix & r1 & Hp & H).
  apply bind_In in H as (lb & r2 & Hlb & H).
  apply bind_In in H as (tok & r3 & Ht & H).
  apply bind_In in H as (rb & r4 & Hrb & H).
  apply bind_In in H as (rest & r5 & Hrest & H).
  apply bind_In in H as (u & r6 & Heos & H).
  apply ret_In in H as [-> ->].
  apply seq_In in Hp as (h & r0 & ws & Hh & Hws & ->).
  apply rep_sound in Hh as (Es & Hh & Hlen).
  apply star_sound in Hws as (E0 & Hws).
  apply eos_In in Heos as [E5 _].
  apply star_sound in Hrest as (E4 & Hrest).
  pose proof (Htok _ _ _ Ht) as E2.
  assert (Hl : (lb = "" \/ lb = "[") /\ r1 = lb ++ r2).
  { apply opt_In in Hlb as [Hlb|[-> ->]]; [|now split; [left|]].
    apply lit_sound in Hlb as [-> ->]. now split; [right|]. }
  assert (Hr : (rb = "" \/ rb = "]") /\ r3 = rb ++ r4).
  { apply opt_In in Hrb as [Hrb|[-> ->]]; [|now split; [left|]].
    apply lit_sound in Hrb as [-> ->]. now split; [right|]. }
  destruct Hl as [Hl E1]. destruct Hr as [Hr E3].
  exists h, ws, r2, r3. simpl.
  repeat split; try assumption; try lia.
  rewrite Es, E0, E1, E2, E3, E4, E5, append_nil_r, !append_assoc.
  reflexivity.
Qed.

(** The first way of a header pattern on a line in canonical form. *)
Lemma header_pattern_canonical (token : Rx.t string) (h ws tok tail : string)
    (tl : list (string * string)) :
  Str.forallb Char.is_hash h = true -> 1 <= String.length h <= 6 ->
  Str.forallb Char.is_space ws = true ->
  Str.forallb UpdateChangelog.not_terminator tail = true ->
  token (tok ++ "]" ++ tail) = (tok, "]" ++ tail) :: tl ->
  let s := (h ++ ws) ++ "[" ++ tok ++ "]" ++ tail in
  exec (UpdateChangelog.header_pattern token) s
    = Some (mkCaptures s (h ++ ws) "[" tok "]" tail).
Proof.
  intros Hh Hlen Hws Htail Htok s.
  set (r1 := "[" ++ tok ++ "]" ++ tail).
  assert (Hp : exists tl1,
             (rep Char.is_hash 1 6 +++ star Char.is_space) s
             = (h ++ ws, r1) :: tl1).
  { assert (Hs : stops Char.is_hash (ws ++ r1)).
    { destruct ws as [|c ws]; simpl in *; [reflexivity|].
      apply andb_true_iff in Hws as [Hc _]. now apply space_not_hash. }
    destruct (rep_head_run Char.is_hash 1 6 h (ws ++ r1) Hh Hlen Hs)
      as [tla Ha].
    destruct (star_head_run Char.is_space ws r1 Hws) as [tlb Hb];
      [reflexivity|].
    unfold s. rewrite append_assoc.
    eapply seq_head; eassumption. }
  destruct Hp as [tl1 Hp].
  assert (Hlb : exists tl2, opt (lit "[") r1 = ("[", tok ++ "]" ++ tail) :: tl2).
  { eapply opt_head_some. unfold r1. apply (lit_head "["). }
  destruct Hlb as [tl2 Hlb].
  assert (Hrb : exists tl4, opt (lit "]") ("]" ++ tail) = ("]", tail) :: tl4).
  { eapply opt_head_some. apply (lit_head "]"). }
  destruct Hrb as [tl4 Hrb].
  destruct (star_head_all UpdateChangelog.not_terminator tail Htail)
    as [tl5 Hrest].
  unfold exec, UpdateChangelog.header_pattern, bind.
  rewrite Hp. cbn [flat_map fst snd]. rewrite Hlb. cbn [flat_map fst snd app].
  rewrite Htok. cbn [flat_map fst snd app]. rewrite Hrb.
  cbn [flat_map fst snd app]. rewrite Hrest. cbn [flat_map fst snd app].
  reflexivity.
Qed.

Lemma settled_strip (version tok : string) :
  settled_token version tok -> Str.strip_v tok = tok.
Proof.
  intros [[_ H]|(c & m & -> & _ & Hc & _)]; simpl.
  - destruct tok as [|c tok]; simpl in *; [reflexivity|].
    destruct (Ascii.eqb_spec c "v") as [->|]; [discriminate | reflexivity].
  - now rewrite Hc.
Qed.

Lemma settled_first_way (version tok r : string) :
  settled_token version tok -> starts_v r = false ->
  exists tl,
    (opt (lit_ci "v") +++ lit_ci version) (tok ++ r) = (tok, r) :: tl.
Proof.
  intros [[He Hv]|(c & m & -> & Hc & _ & He)] Hr.
  - assert (Hn : lit_ci "v" (tok ++ r) = []).
    { apply lit_ci_v_none. destruct tok; simpl in *; assumption. }
    apply opt_head_none in Hn.
    change tok with ("" ++ tok) at 2.
    eapply seq_head; [exact Hn | apply (lit_ci_head version tok r He)].
  - assert (Hs : exists tl, opt (lit_ci "v") (String c m ++ r)
                            = (String c "", m ++ r) :: tl).
    { eapply opt_head_some. simpl. rewrite Hc. reflexivity. }
    destruct Hs as [tl Hs].
    change (String c m) with (String c "" ++ m) at 2.
    eapply seq_head; [exact Hs | apply (lit_ci_head version m r He)].
Qed.

(** A line in canonical form with a settled token is a version header, and
    the rewrite gives the same line back. *)
Lemma canonical_line_fixed (version today h ws tok : string) :
  Str.forallb Char.is_hash h = true -> 1 <= String.length h <= 6 ->
  Str.forallb Char.is_space ws = true ->
  Str.forallb UpdateChangelog.not_terminator today = true ->
  settled_token version tok ->
  let line := (h ++ ws) ++ "[" ++ tok ++ "] - " ++ today in
  test (UpdateChangelog.versionRx version) line = true /\
  UpdateChangelog.replace_line (UpdateChangelog.versionRx version)
    (UpdateChangelog.version_line today) line = line.
Proof.
  intros Hh Hlen Hws Htoday Htok line.
  destruct (settled_first_way version tok ("]" ++ (" - " ++ today)) Htok
              eq_refl) as [tl Ht].
  pose proof (header_pattern_canonical _ h ws tok (" - " ++ today) tl
                Hh Hlen Hws Htoday Ht) as He.
  change ((h ++ ws) ++ "[" ++ tok ++ "]" ++ " - " ++ today) with line in He.
  unfold UpdateChangelog.versionRx.
  split; [now apply exec_test in He|].
  unfold UpdateChangelog.replace_line. rewrite He.
  unfold UpdateChangelog.version_line. simpl.
  now rewrite (settled_strip version tok Htok).
Qed.

(* ================================================================== *)
(** * The three branches of the update *)
(* ================================================================== *)

Lemma update_found (version today : string) (lines pre : list string)
    (x : string) (post : list string) :
  first_match (test (UpdateChangelog.versionRx version)) lines pre x post ->
  exists c,
    exec (UpdateChangelog.versionRx version) x = Some c /\
    UpdateChangelog.update_lines version today lines
      = ((pre ++ UpdateChangelog.version_line today c :: post)%list, false).
Proof.
  intros Hf. pose proof (first_match_findIndex _ _ _ _ _ Hf) as Hi.
  destruct Hf as (-> & _ & Hx).
  destruct (test_exec _ _ Hx) as [c Hc]. exists c. split; [exact Hc|].
  unfold UpdateChangelog.update_lines. rewrite Hi.
  rewrite line_at_middle, set_nth_middle.
  unfold UpdateChangelog.replace_line. now rewrite Hc.
Qed.

Lemma update_unreleased (version today : string) (lines pre : list string)
    (x : string) (post : list string) :
  no_match (test (UpdateChangelog.versionRx version)) lines ->
  first_match (test UpdateChangelog.unreleasedRx) lines pre x post ->
  exists c,
    exec UpdateChangelog.unreleasedRx x = Some c /\
    UpdateChangelog.update_lines version today lines
      = ((pre ++ UpdateChangelog.unreleased_line version today c :: post)%list,
         false).
Proof.
  intros Hn Hf. pose proof (first_match_findIndex _ _ _ _ _ Hf) as Hi.
  apply no_match_findIndex in Hn.
  destruct Hf as (El & _ & Hx).
  destruct (test_exec _ _ Hx) as [c Hc]. exists c. split; [exact Hc|].
  unfold UpdateChangelog.update_lines. rewrite Hn, Hi. subst lines.
  rewrite line_at_middle, set_nth_middle.
  unfold UpdateChangelog.replace_line. now rewrite Hc.
Qed.

Lemma update_created (version today : string) (lines : list string) :
  no_match (test (UpdateChangelog.versionRx version)) lines ->
  no_match (test UpdateChangelog.unreleasedRx) lines ->
  UpdateChangelog.update_lines version today lines
  = (splice_in (UpdateChangelog.insertIndex lines)
       (UpdateChangelog.newSection version today) lines, true).
Proof.
  intros Hv Hu. apply no_match_findIndex in Hv, Hu.
  unfold UpdateChangelog.update_lines. now rewrite Hv, Hu.
Qed.

Lemma version_token_sound (version s tok r : string) :
  In (tok, r) ((opt (lit_ci "v") +++ lit_ci version) s) ->
  s = tok ++ r /\
  exists vp m,
    tok = vp ++ m /\ eq_ci version m = true /\
    (vp = "" \/ exists c, vp = String c "" /\ Char.eqb_ci "v" c = true).
Proof.
  intros H. apply seq_In in H as (vp & r1 & m & Hv & Hm & ->).
  apply lit_ci_sound in Hm as [E1 Hm].
  apply opt_In in Hv as [Hv|[Ev Es]].
  - apply lit_ci_sound in Hv as [Es Hv]. subst s r1.
    split; [now rewrite append_assoc|].
    exists vp, m. repeat split; try assumption. right.
    destruct vp as [|c [|d vp]]; simpl in Hv; try discriminate.
    + exists c. split; [reflexivity|]. now rewrite andb_true_r in Hv.
    + now rewrite andb_false_r in Hv.
  - subst vp r1 s. split; [reflexivity|].
    exists "", m. repeat split; auto.
Qed.

(** What a match of [versionRx] looks like. *)
Lemma versionRx_sound (version x : string) (c : captures) :
  exec (UpdateChangelog.versionRx version) x = Some c ->
  exists h ws vp m,
    x = g1 c ++ g2 c ++ g3 c ++ g4 c ++ g5 c /\
    g1 c = h ++ ws /\
    Str.forallb Char.is_hash h = true /\ 1 <= String.length h <= 6 /\
    Str.forallb Char.is_space ws = true /\
    (g2 c = "" \/ g2 c = "[") /\
    g3 c = vp ++ m /\ eq_ci version m = true /\
    (vp = "" \/ exists ch, vp = String ch "" /\ Char.eqb_ci "v" ch = true) /\
    (g4 c = "" \/ g4 c = "]") /\
    Str.forallb UpdateChangelog.not_terminator (g5 c) = true.
Proof.
  intros H. apply exec_In in H as [r H].
  assert (Htok : forall s m r',
             In (m, r') ((opt (lit_ci "v") +++ lit_ci version) s) ->
             s = m ++ r').
  { intros s m r' Hin. now apply version_token_sound in Hin. }
  destruct (header_pattern_sound
              (opt (lit_ci "v") +++ lit_ci version) x c r Htok H)
    as (h & ws & r2 & r3 & _ & Hx & H1 & Hh & Hlen & Hws & H2 & H3 & H4 & H5).
  apply version_token_sound in H3 as (_ & vp & m & E3 & Hm & Hvp).
  exists h, ws, vp, m.
  split; [exact Hx|]. split; [exact H1|]. split; [exact Hh|].
  split; [exact Hlen|]. split; [exact Hws|]. split; [exact H2|].
  split; [exact E3|]. split; [exact Hm|]. split; [exact Hvp|].
  split; [exact H4 | exact H5].
Qed.

(** What a match of the Unreleased pattern looks like. *)
Lemma unreleasedRx_sound (x : string) (c : captures) :
  exec UpdateChangelog.unreleasedRx x = Some c ->
  exists h ws,
    x = g1 c ++ g2 c ++ g3 c ++ g4 c ++ g5 c /\
    g1 c = h ++ ws /\
    Str.forallb Char.is_hash h = true /\ 1 <= String.length h <= 6 /\
    Str.forallb Char.is_space ws = true /\
    (g2 c = "" \/ g2 c = "[") /\
    eq_ci "Unreleased" (g3 c) = true /\
    (g4 c = "" \/ g4 c = "]") /\
    Str.forallb UpdateChangelog.not_terminator (g5 c) = true.
Proof.
  intros H. apply exec_In in H as [r H].
  assert (Htok : forall s m r',
             In (m, r') (lit_ci "Unreleased" s) -> s = m ++ r').
  { intros s m r' Hin. now apply lit_ci_sound in Hin. }
  destruct (header_pattern_sound (lit_ci "Unreleased") x c r Htok H)
    as (h & ws & r2 & r3 & _ & Hx & H1 & Hh & Hlen & Hws & H2 & H3 & H4 & H5).
  apply lit_ci_sound in H3 as [_ H3].
  exists h, ws.
  split; [exact Hx|]. split; [exact H1|]. split; [exact Hh|].
  split; [exact Hlen|]. split; [exact Hws|]. split; [exact H2|].
  split; [exact H3|]. split; [exact H4 | exact H5].
Qed.

(** A version header of update-changelog.ts is one of get-changelog.ts. *)
Lemma versionRx_hdrRx (version x : string) :
  test (UpdateChangelog.versionRx version) x = true ->
  test (GetChangelog.hdrRx version) x = true.
Proof.
  intros H. apply test_In in H as (c & r & H).
  unfold UpdateChangelog.versionRx, UpdateChangelog.header_pattern in H.
  apply bind_In in H as (prefix & r1 & Hp & H).
  apply bind_In in H as (lb & r2 & Hlb & H).
  apply bind_In in H as (tok & r3 & Ht & H).
  apply bind_In in H as (rb & r4 & Hrb & _).
  apply seq_In in Hp as (h & r0 & ws & Hh & Hws & ->).
  apply seq_In in Ht as (vp & r2' & m & Hv & Hm & ->).
  unfold GetChangelog.hdrRx.
  apply (In_test _ _ (h ++ ws ++ lb ++ vp ++ m ++ rb ++ "") r4).
  apply seq_In. exists h, r0, (ws ++ lb ++ vp ++ m ++ rb ++ "").
  split; [exact Hh|]. split; [|reflexivity].
  apply seq_In. exists ws, r1, (lb ++ vp ++ m ++ rb ++ "").
  split; [exact Hws|]. split; [|reflexivity].
  apply seq_In. exists lb, r2, (vp ++ m ++ rb ++ "").
  split; [exact Hlb|]. split; [|reflexivity].
  apply seq_In. exists vp, r2', (m ++ rb ++ "").
  split; [exact Hv|]. split; [|reflexivity].
  apply seq_In. exists m, r3, (rb ++ "").
  split; [exact Hm|]. split; [|reflexivity].
  apply seq_In. exists rb, r4, "".
  split; [exact Hrb|]. split; [|reflexivity].
  apply opt_In. now right.
Qed.

(* ================================================================== *)
(** * Facts about Canonicalize *)
(* ================================================================== *)




(* ================================================================== *)
(** * A version header that only begins with the version *)
(* ================================================================== *)



(* ================================================================== *)
(** * The v prefix of the version argument *)
(* ================================================================== *)

Lemma strip_v_bare (version : string) :
  Str.startsWith "v" version = false -> Str.strip_v version = version.
Proof.
  destruct version as [|c s]; simpl; [reflexivity|].
  destruct (Ascii.eqb_spec c "v") as [->|]; [|reflexivity].
  simpl. destruct s; discriminate.
Qed.

(** C8, as the claim states it, fails: with the argument V1.0.0 neither
    script finds the heading [## [1.0.0]] that the argument 1.0.0 finds. *)
Lemma C8_upper_case_prefix_counterexample :
  GetChangelog.content (Str.join LF ["## [1.0.0]"; "- a"]) "V1.0.0"
    = "No changelog entry found for version V1.0.0 and no 'Unreleased' section present."
  /\ GetChangelog.content (Str.join LF ["## [1.0.0]"; "- a"]) "1.0.0"
    = Str.join LF ["## [1.0.0]"; "- a"]
  /\ UpdateChangelog.written (Str.join LF ["## [1.0.0]"; "- a"]) "V1.0.0"
       "2025-01-01"
    <> UpdateChangelog.written (Str.join LF ["## [1.0.0]"; "- a"]) "1.0.0"
         "2025-01-01"
  /\ UpdateChangelog.written (Str.join LF ["## [1.0.0]"; "- a"]) "1.0.0"
       "2025-01-01"
    = Str.join LF ["## [1.0.0] - 2025-01-01"; "- a"].
Proof.
  split; [reflexivity|]. split; [reflexivity|].
  split; [|reflexivity]. vm_compute. discriminate.
Qed.

(* ================================================================== *)
(** * Rewriting a header that exists *)
(* ================================================================== *)

Lemma plain_version_parts (v : string) :
  plain_version v = true ->
  v <> "" /\ plain_text v = true /\ starts_v v = false /\
  starts_hash v = false.
Proof.
  unfold plain_version. intros H.
  apply andb_true_iff in H as [H H4]. apply andb_true_iff in H as [H H3].
  apply andb_true_iff in H as [H1 H2].
  apply negb_true_iff in H1, H3, H4. apply String.eqb_neq in H1.
  now repeat split.
Qed.

Lemma plain_text_no_dollar (s : string) :
  plain_text s = true ->
  Str.forallb (fun c => negb (Ascii.eqb c "$")) s = true.
Proof.
  apply forallb_weaken. intros c H. unfold plain_char in H.
  now apply andb_true_iff in H as [H _].
Qed.

Lemma plain_text_no_terminator (s : string) :
  plain_text s = true ->
  Str.forallb UpdateChangelog.not_terminator s = true.
Proof.
  apply forallb_weaken. intros c H. unfold plain_char in H.
  now apply andb_true_iff in H as [_ H].
Qed.

Lemma getSubstitution_plain (c : captures) (s : string) :
  Str.forallb (fun ch => negb (Ascii.eqb ch "$")) s = true ->
  getSubstitution c s = s.
Proof.
  induction s as [|a s IH]; simpl; [reflexivity|].
  intros H. apply andb_true_iff in H as [Ha H].
  apply negb_true_iff in Ha. now rewrite Ha, (IH H).
Qed.

Lemma unreleased_line_plain (version today : string) (c : captures) :
  plain_text version = true -> plain_text today = true ->
  UpdateChangelog.unreleased_line version today c
  = g1 c ++ "[" ++ version ++ "] - " ++ today.
Proof.
  intros Hv Ht. unfold UpdateChangelog.unreleased_line.
  change ("$1[" ++ version ++ "] - " ++ today)
    with (String "$" (String "1" ("[" ++ version ++ "] - " ++ today))).
  assert (Hp : getSubstitution c ("[" ++ version ++ "] - " ++ today)
               = "[" ++ version ++ "] - " ++ today).
  { apply getSubstitution_plain.
    apply plain_text_no_dollar in Hv, Ht.
    change ("[" ++ version ++ "] - " ++ today)
      with (String "[" (version ++ "] - " ++ today)).
    simpl. rewrite forallb_append, Hv. simpl. exact Ht. }
  change (getSubstitution c
            (String "$" (String "1" ("[" ++ version ++ "] - " ++ today))))
    with (g1 c ++ getSubstitution c ("[" ++ version ++ "] - " ++ today)).
  now rewrite Hp.
Qed.

Lemma leading_hashes_none_append (a b : string) :
  (a <> "" /\ starts_hash a = false) \/ (a = "" /\ leading_hashes b = 0) ->
  leading_hashes (a ++ b) = 0.
Proof.
  intros [[Ha H]|[-> H]]; [|exact H].
  destruct a as [|c a]; [now elim Ha|]. simpl in *. now rewrite H.
Qed.




Lemma eq_ci_strip (version m : string) :
  eq_ci version m = true -> starts_v version = false -> Str.strip_v m = m.
Proof.
  intros He Hv. rewrite <- (eq_ci_starts_v _ _ He) in Hv.
  destruct m as [|c m]; simpl in *; [reflexivity|].
  destruct (Ascii.eqb_spec c "v") as [->|]; [discriminate | reflexivity].
Qed.




(* ================================================================== *)
(** * Creating a section *)
(* ================================================================== *)

Lemma skip_blank_spec (i : nat) (rest : list string) :
  exists j,
    UpdateChangelog.skip_blank i rest = i + j /\
    j <= List.length rest /\
    (forall n, n < j -> Str.trim (List.nth n rest "") = "") /\
    (j < List.length rest -> Str.trim (List.nth j rest "") <> "").
Proof.
  revert i. induction rest as [|l rest IH]; intros i; simpl.
  - exists 0. repeat split; try lia.
  - destruct (String.eqb_spec (Str.trim l) "") as [E|N].
    + destruct (IH (S i)) as (j & Hj & Hle & Hin & Hstop).
      exists (S j). repeat split; try lia.
      * intros [|n] Hn; [exact E | apply Hin; lia].
      * intros Hlt. apply Hstop. lia.
    + exists 0. repeat split; try lia. intros _. exact N.
Qed.

Lemma insertIndex_spec (lines : list string) :
  let k := UpdateChangelog.insertIndex lines in
  k <= List.length lines /\
  ((no_match (test UpdateChangelog.titleRx) lines /\ k = 0) \/
   (exists pre title post,
      first_match (test UpdateChangelog.titleRx) lines pre title post /\
      List.length pre < k /\
      (forall i, List.length pre < i < k -> Str.trim (line_at lines i) = "") /\
      (k < List.length lines -> Str.trim (line_at lines k) <> ""))).
Proof.
  unfold UpdateChangelog.insertIndex.
  destruct (findIndex (test UpdateChangelog.titleRx) lines) as [t|] eqn:E.
  - destruct (findIndex_first _ _ _ E) as (pre & title & post & Hf & <-).
    pose proof Hf as (Hl & _ & _).
    destruct (skip_blank_spec (S (List.length pre)) post)
      as (j & Hj & Hle & Hin & Hstop).
    assert (Hk : UpdateChangelog.skip_blank (S (List.length pre))
                   (List.skipn (S (List.length pre)) lines)
                 = S (List.length pre) + j).
    { rewrite Hl, skipn_after. exact Hj. }
    rewrite Hk. cbv zeta. split.
    + rewrite Hl, length_app. simpl. lia.
    + right. exists pre, title, post. split; [exact Hf|].
      split; [lia|]. rewrite Hl. split.
      * intros i Hi.
        replace i with (S (List.length pre) + (i - S (List.length pre)))
          by lia.
        rewrite line_at_after. apply Hin. lia.
      * intros Hlt. rewrite length_app in Hlt. simpl in Hlt.
        rewrite line_at_after. apply Hstop. lia.
  - cbv zeta. split; [lia|]. left. split; [|reflexivity].
    now apply findIndex_none.
Qed.






(* ================================================================== *)
(** * Splitting what was joined *)
(* ================================================================== *)

Lemma split_lines_single (l : string) :
  no_lf l = true -> Str.split_lines l = [l].
Proof.
  unfold no_lf. induction l as [|c l IH]; simpl; [reflexivity|].
  intros H. apply andb_true_iff in H as [Hc H].
  apply negb_true_iff in Hc. rewrite Hc, (IH H).
  destruct l as [|c' l]; [reflexivity|].
  simpl in H. apply andb_true_iff in H as [Hc' _].
  apply negb_true_iff in Hc'. now rewrite Hc', andb_false_r.
Qed.

Lemma split_lines_append (l s : string) :
  stable_line l = true ->
  Str.split_lines (l ++ LF ++ s) = l :: Str.split_lines s.
Proof.
  unfold stable_line, no_lf. induction l as [|c l IH]; intros H.
  - reflexivity.
  - apply andb_true_iff in H as [H Hcr]. simpl in H.
    apply andb_true_iff in H as [Hc H]. apply negb_true_iff in Hc.
    assert (Hl : Str.forallb (fun c => negb (Ascii.eqb c "010")) l
                 && negb (Str.endsWith_char "013" l) = true).
    { rewrite H. simpl. destruct l; [reflexivity | exact Hcr]. }
    specialize (IH Hl).
    change (Str.split_lines (String c l ++ LF ++ s))
      with (if Ascii.eqb c "010" then "" :: Str.split_lines (l ++ LF ++ s)
            else
              let keep :=
                match Str.split_lines (l ++ LF ++ s) with
                | l0 :: ls => String c l0 :: ls
                | [] => [String c ""]
                end in
              match l ++ LF ++ s with
              | String c' s'' =>
                  if Ascii.eqb c "013" && Ascii.eqb c' "010"
                  then "" :: Str.split_lines s''
                  else keep
              | EmptyString => keep
              end).
    rewrite Hc, IH. cbv zeta.
    destruct l as [|c' l].
    + simpl in Hcr. apply negb_true_iff in Hcr. simpl. now rewrite Hcr.
    + simpl in H. apply andb_true_iff in H as [Hc' _].
      apply negb_true_iff in Hc'. simpl. now rewrite Hc', andb_false_r.
Qed.

Lemma split_lines_join (L : list string) :
  L <> [] -> List.forallb stable_line L = true ->
  Str.split_lines (Str.join LF L) = L.
Proof.
  induction L as [|l L IH]; intros Hne H; [now elim Hne|].
  simpl in H. apply andb_true_iff in H as [Hl H].
  destruct L as [|l2 L].
  - simpl. apply split_lines_single. unfold stable_line in Hl.
    now apply andb_true_iff in Hl as [Hl _].
  - change (Str.join LF (l :: l2 :: L))
      with (l ++ LF ++ Str.join LF (l2 :: L)).
    rewrite (split_lines_append l _ Hl). f_equal. apply IH; [discriminate|].
    exact H.
Qed.

Lemma split_lines_shape (n : nat) (s : string) :
  String.length s <= n ->
  Str.split_lines s <> [] /\ List.forallb no_lf (Str.split_lines s) = true.
Proof.
  revert s. induction n as [|n IH]; intros s Hn.
  - destruct s; simpl in Hn; [|lia]. simpl. split; [discriminate|reflexivity].
  - destruct s as [|c s]; [simpl; split; [discriminate|reflexivity]|].
    simpl in Hn. destruct (IH s) as [Hne Hs]; [lia|].
    change (Str.split_lines (String c s))
      with (if Ascii.eqb c "010" then "" :: Str.split_lines s
            else
              let keep :=
                match Str.split_lines s with
                | l0 :: ls => String c l0 :: ls
                | [] => [String c ""]
                end in
              match s with
              | String c' s'' =>
                  if Ascii.eqb c "013" && Ascii.eqb c' "010"
                  then "" :: Str.split_lines s''
                  else keep
              | EmptyString => keep
              end).
    destruct (Ascii.eqb c "010") eqn:Ec.
    + split; [discriminate|]. simpl. exact Hs.
    + cbv zeta.
      assert (Hkeep : match Str.split_lines s with
                      | l0 :: ls => String c l0 :: ls
                      | [] => [String c ""]
                      end <> [] /\
                      List.forallb no_lf
                        match Str.split_lines s with
                        | l0 :: ls => String c l0 :: ls
                        | [] => [String c ""]
                        end = true).
      { destruct (Str.split_lines s) as [|l0 ls]; [now elim Hne|].
        split; [discriminate|]. simpl in *. unfold no_lf at 1. simpl.
        now rewrite Ec. }
      destruct s as [|c' s'']; [exact Hkeep|].
      destruct (Ascii.eqb c "013" && Ascii.eqb c' "010"); [|exact Hkeep].
      destruct (IH s'') as [_ Hs'']; [simpl in Hn; lia|].
      split; [discriminate|]. simpl. exact Hs''.
Qed.

Lemma split_lines_stable (content : string) :
  no_trailing_cr (Str.split_lines content) = true ->
  List.forallb stable_line (Str.split_lines content) = true.
Proof.
  destruct (split_lines_shape (String.length content) content (le_n _))
    as [_ H].
  unfold no_trailing_cr. revert H.
  induction (Str.split_lines content) as [|l L IH]; simpl; [auto|].
  intros H1 H2. apply andb_true_iff in H1 as [Hl H1].
  apply andb_true_iff in H2 as [Hc H2].
  unfold stable_line at 1. now rewrite Hl, Hc, (IH H1 H2).
Qed.

(* ================================================================== *)
(** * The lines that the update writes *)
(* ================================================================== *)

Lemma endsWith_char_append (c : ascii) (a b : string) :
  b <> "" -> Str.endsWith_char c (a ++ b) = Str.endsWith_char c b.
Proof.
  intros Hb. induction a as [|x a IH]; [reflexivity|].
  simpl. rewrite IH. destruct (a ++ b) eqn:E; [|reflexivity].
  destruct a; simpl in E; [now elim Hb | discriminate].
Qed.

Lemma plain_text_no_cr_end (s : string) :
  plain_text s = true -> Str.endsWith_char "013" s = false.
Proof.
  induction s as [|c s IH]; simpl; [reflexivity|].
  intros H. apply andb_true_iff in H as [Hc H]. rewrite (IH H).
  destruct s; [|reflexivity].
  unfold plain_char in Hc. apply andb_true_iff in Hc as [_ Hc].
  apply negb_true_iff in Hc. unfold Char.is_line_terminator in Hc.
  apply orb_false_iff in Hc as [_ Hc].
  destruct (Ascii.eqb_spec c "013") as [->|]; [discriminate | reflexivity].
Qed.

Lemma plain_text_no_lf (s : string) : plain_text s = true -> no_lf s = true.
Proof.
  apply forallb_weaken. intros c H. unfold plain_char in H.
  apply andb_true_iff in H as [_ H]. apply negb_true_iff in H.
  unfold Char.is_line_terminator in H. apply orb_false_iff in H as [H _].
  destruct (Ascii.eqb_spec c "010") as [->|]; [discriminate | reflexivity].
Qed.

Lemma no_lf_append (a b : string) : no_lf (a ++ b) = no_lf a && no_lf b.
Proof. apply forallb_append. Qed.

Lemma no_lf_strip_v (s : string) : no_lf s = true -> no_lf (Str.strip_v s) = true.
Proof.
  destruct s as [|c s]; simpl; [auto|].
  destruct (Ascii.eqb c "v"); [|auto].
  unfold no_lf. simpl. intros H. now apply andb_true_iff in H as [_ H].
Qed.

Lemma dash_date_no_cr_end (today : string) :
  plain_text today = true ->
  Str.endsWith_char "013" ("] - " ++ today) = false.
Proof.
  intros H. destruct today as [|c t]; [reflexivity|].
  change (Str.endsWith_char "013" ("] - " ++ String c t))
    with (Str.endsWith_char "013" (String c t)).
  now apply plain_text_no_cr_end.
Qed.

Lemma stable_canonical (a tok today : string) :
  no_lf a = true -> no_lf tok = true -> plain_text today = true ->
  stable_line (a ++ "[" ++ tok ++ "] - " ++ today) = true.
Proof.
  intros Ha Htok Ht. unfold stable_line.
  assert (He : Str.endsWith_char "013" (a ++ "[" ++ tok ++ "] - " ++ today)
               = false).
  { replace (a ++ "[" ++ tok ++ "] - " ++ today)
      with ((a ++ "[" ++ tok) ++ "] - " ++ today)
      by (now rewrite !append_assoc).
    rewrite endsWith_char_append by discriminate.
    now apply dash_date_no_cr_end. }
  rewrite He, !no_lf_append, Ha, Htok, (plain_text_no_lf today Ht).
  reflexivity.
Qed.

Lemma stable_no_lf (l : string) : stable_line l = true -> no_lf l = true.
Proof. unfold stable_line. intros H. now apply andb_true_iff in H as [H _]. Qed.

Lemma forallb_middle {A : Type} (p : A -> bool) (pre : list A) (x : A)
    (post : list A) :
  List.forallb p (pre ++ x :: post)
  = List.forallb p pre && (p x && List.forallb p post).
Proof. now rewrite forallb_app. Qed.

Lemma forallb_firstn_skipn {A : Type} (p : A -> bool) (k : nat) (l : list A) :
  List.forallb p l = true ->
  List.forallb p (List.firstn k l) = true /\
  List.forallb p (List.skipn k l) = true.
Proof.
  intros H. rewrite <- (firstn_skipn k l), forallb_app in H.
  now apply andb_true_iff in H.
Qed.

Lemma settled_of_match (version vp m : string) :
  starts_v version = false -> eq_ci version m = true ->
  (vp = "" \/ exists ch, vp = String ch "" /\ Char.eqb_ci "v" ch = true) ->
  settled_token version (Str.strip_v (vp ++ m)).
Proof.
  intros Hv Hm [->|(ch & -> & Hch)].
  - simpl. rewrite (eq_ci_strip version m Hm Hv). left.
    split; [exact Hm|]. now rewrite (eq_ci_starts_v _ _ Hm).
  - simpl. destruct (Ascii.eqb ch "v") eqn:E.
    + left. split; [exact Hm|]. now rewrite (eq_ci_starts_v _ _ Hm).
    + right. now exists ch, m.
Qed.

(** The lines after one update: they survive [join] and [split_lines], and
    a second update with the same version and date leaves them as they
    are. *)
Lemma update_lines_settled (version today : string) (lines : list string) :
  plain_text version = true -> starts_v version = false ->
  plain_text today = true ->
  lines <> [] -> List.forallb stable_line lines = true ->
  let L1 := fst (UpdateChangelog.update_lines version today lines) in
  L1 <> [] /\ List.forallb stable_line L1 = true /\
  fst (UpdateChangelog.update_lines version today L1) = L1.
Proof.
  intros Hpt Hv Htoday Hne Hst.
  pose proof (plain_text_no_terminator today Htoday) as Hnt.
  assert (Hfix : forall pre x post h ws tok,
             no_match (test (UpdateChangelog.versionRx version)) pre ->
             List.forallb stable_line (pre ++ x :: post) = true ->
             Str.forallb Char.is_hash h = true ->
             1 <= String.length h <= 6 ->
             Str.forallb Char.is_space ws = true ->
             no_lf (h ++ ws) = true -> no_lf tok = true ->
             settled_token version tok ->
             let x' := (h ++ ws) ++ "[" ++ tok ++ "] - " ++ today in
             let L1 := (pre ++ x' :: post)%list in
             L1 <> [] /\ List.forallb stable_line L1 = true /\
             fst (UpdateChangelog.update_lines version today L1) = L1).
  { intros pre x post h ws tok Hpre Hall Hh Hlen Hws Hnl Htok Hset x' L1.
    destruct (canonical_line_fixed version today h ws tok Hh Hlen Hws Hnt Hset)
      as [Ht Hr].
    fold x' in Ht, Hr.
    split; [unfold L1; now destruct pre|]. split.
    - unfold L1. rewrite forallb_middle in *.
      apply andb_true_iff in Hall as [H1 H2].
      apply andb_true_iff in H2 as [_ H2]. rewrite H1, H2.
      unfold x'. now rewrite (stable_canonical (h ++ ws) tok today Hnl Htok Htoday).
    - assert (Hf : first_match (test (UpdateChangelog.versionRx version))
                     L1 pre x' post) by now repeat split.
      destruct (update_found version today L1 pre x' post Hf) as (c & Hc & Hu).
      rewrite Hu. simpl. unfold UpdateChangelog.replace_line in Hr.
      rewrite Hc in Hr. now rewrite Hr. }
  destruct (findIndex (test (UpdateChangelog.versionRx version)) lines)
    as [i|] eqn:E1.
  - destruct (findIndex_first _ _ _ E1) as (pre & x & post & Hf & _).
    destruct (update_found version today lines pre x post Hf) as (c & Hc & Hu).
    destruct Hf as (-> & Hpre & Hx).
    destruct (versionRx_sound version x c Hc)
      as (h & ws & vp & m & Ex & H1 & Hhs & Hlen & Hws & H2 & H3 & Hm & Hvp
          & H4 & H5).
    assert (Hx_lf : no_lf x = true).
    { rewrite forallb_middle in Hst. apply andb_true_iff in Hst as [_ Hst].
      apply andb_true_iff in Hst as [Hst _]. now apply stable_no_lf. }
    rewrite Ex, !no_lf_append in Hx_lf.
    apply andb_true_iff in Hx_lf as [Hg1 Hx_lf].
    apply andb_true_iff in Hx_lf as [_ Hx_lf].
    apply andb_true_iff in Hx_lf as [Hg3 _].
    rewrite Hu. cbn [fst]. unfold UpdateChangelog.version_line.
    rewrite H1 in *. rewrite H3.
    apply (Hfix pre x post h ws); try assumption.
    + apply no_lf_strip_v. now rewrite <- H3.
    + now apply settled_of_match.
  - apply findIndex_none in E1.
    destruct (findIndex (test UpdateChangelog.unreleasedRx) lines)
      as [i|] eqn:E2.
    + destruct (findIndex_first _ _ _ E2) as (pre & x & post & Hf & _).
      destruct (update_unreleased version today lines pre x post E1 Hf)
        as (c & Hc & Hu).
      destruct Hf as (-> & Hpre & Hx).
      destruct (unreleasedRx_sound x c Hc)
        as (h & ws & Ex & H1 & Hhs & Hlen & Hws & H2 & H3 & H4 & H5).
      assert (Hx_lf : no_lf x = true).
      { rewrite forallb_middle in Hst. apply andb_true_iff in Hst as [_ Hst].
        apply andb_true_iff in Hst as [Hst _]. now apply stable_no_lf. }
      rewrite Ex, !no_lf_append in Hx_lf.
      apply andb_true_iff in Hx_lf as [Hg1 _].
      rewrite Hu. cbn [fst].
      rewrite (unreleased_line_plain version today c Hpt Htoday).
      rewrite H1 in *.
      apply (Hfix pre x post h ws); try assumption.
      * unfold no_match in *. rewrite forallb_app in E1.
        now apply andb_true_iff in E1 as [E1 _].
      * now apply plain_text_no_lf.
      * left. split; [apply eq_ci_refl | exact Hv].
    + apply findIndex_none in E2.
      rewrite (update_created version today lines E1 E2). cbn [fst].
      set (k := UpdateChangelog.insertIndex lines).
      destruct (forallb_firstn_skipn _ k lines Hst) as [Hs1 Hs2].
      destruct (forallb_firstn_skipn _ k lines E1) as [Hn1 _].
      unfold splice_in, UpdateChangelog.newSection, UpdateChangelog.newHeader.
      assert (Eh : "## [" ++ version ++ "] - " ++ today
                   = ("##" ++ " ") ++ "[" ++ version ++ "] - " ++ today)
        by reflexivity.
      rewrite Eh.
      set (hd := ("##" ++ " ") ++ "[" ++ version ++ "] - " ++ today).
      replace (List.firstn k lines
               ++ [""; hd; ""; "### Added"; ""; "- Initial release"; ""]
               ++ List.skipn k lines)%list
        with ((List.firstn k lines ++ [""])
              ++ hd :: ([""; "### Added"; ""; "- Initial release"; ""]
                        ++ List.skipn k lines))%list
        by (now rewrite <- app_assoc).
      subst hd.
      apply (Hfix (List.firstn k lines ++ [""])%list ""
               ([""; "### Added"; ""; "- Initial release"; ""]
                ++ List.skipn k lines)%list "##" " " version);
        try reflexivity.
      * unfold no_match in *. rewrite forallb_app, Hn1. reflexivity.
      * rewrite forallb_middle, forallb_app, Hs1. simpl. exact Hs2.
      * simpl. lia.
      * now apply plain_text_no_lf.
      * left. split; [apply eq_ci_refl | exact Hv].
Qed.

(* ================================================================== *)
(** * Running the update twice *)
(* ================================================================== *)

(** C6, as the claim states it, fails.  In a document where a line ends
    with CR CR LF the first update writes CR LF there and the second one
    writes LF, so the second update changes the text.  And for the version
    V1.0 the header [## v1.0] is rewritten to [## [1.0] - today], which is
    no header of V1.0 any more, so the second update creates a section. *)
Lemma C6_idempotence_counterexample :
  let doc := "# Log" ++ CR ++ CR ++ LF ++ "## v2.0.0" in
  let once := UpdateChangelog.written doc "2.0.0" "2025-01-01" in
  let once' := UpdateChangelog.written "## v1.0" "V1.0" "2025-01-01" in
  once = "# Log" ++ CR ++ LF ++ "## [2.0.0] - 2025-01-01" /\
  UpdateChangelog.written once "2.0.0" "2025-01-01"
    = "# Log" ++ LF ++ "## [2.0.0] - 2025-01-01" /\
  UpdateChangelog.written once "2.0.0" "2025-01-01" <> once /\
  once' = "## [1.0] - 2025-01-01" /\
  UpdateChangelog.written once' "V1.0" "2025-01-01"
    = Str.join LF [""; "## [V1.0] - 2025-01-01"; ""; "### Added"; "";
                   "- Initial release"; ""; "## [1.0] - 2025-01-01"] /\
  UpdateChangelog.written once' "V1.0" "2025-01-01" <> once'.
Proof.
  split; [reflexivity|]. split; [reflexivity|].
  split; [vm_compute; discriminate|].
  split; [reflexivity|]. split; [reflexivity|].
  vm_compute. discriminate.
Qed.

(** C6 (amended). A header that reads [## v2.0.0] becomes
    [## [2.0.0] - today] under the update for 2.0.0.  For a version that is
    plain and does not begin with v or V (after the one lower-case v of the
    argument is removed), a plain date, and a document none of whose lines
    ends with a carriage return, updating the output of the update again
    with the same version and date gives the same text. *)
Theorem C6_normalized_and_idempotent (content versionArg today : string) :
  (forall pre post,
     Str.split_lines content = (pre ++ "## v2.0.0" :: post)%list ->
     no_match (test (UpdateChangelog.versionRx "2.0.0")) pre ->
     UpdateChangelog.written content "2.0.0" today
     = Str.join LF (pre ++ ("## [2.0.0] - " ++ today) :: post)) /\
  (plain_text (Str.strip_v versionArg) = true ->
   starts_v (Str.strip_v versionArg) = false ->
   plain_text today = true ->
   no_trailing_cr (Str.split_lines content) = true ->
   let once := UpdateChangelog.written content versionArg today in
   UpdateChangelog.written once versionArg today = once).
Proof.
  split.
  - intros pre post Hl Hpre.
    assert (Hf : first_match (test (UpdateChangelog.versionRx "2.0.0"))
                   (Str.split_lines content) pre "## v2.0.0" post)
      by now repeat split.
    destruct (update_found "2.0.0" today _ _ _ _ Hf) as (c & Hc & Hu).
    unfold UpdateChangelog.written. simpl Str.strip_v. rewrite Hu.
    vm_compute in Hc. injection Hc as <-. reflexivity.
  - intros Hplain Hv Htoday Hcr once.
    destruct (split_lines_shape (String.length content) content (le_n _))
      as [Hne _].
    pose proof (split_lines_stable content Hcr) as Hst.
    destruct (update_lines_settled (Str.strip_v versionArg) today
                (Str.split_lines content) Hplain Hv Htoday Hne Hst)
      as (Hne1 & Hst1 & Hfix).
    unfold once, UpdateChangelog.written.
    rewrite (split_lines_join _ Hne1 Hst1). now rewrite Hfix.
Qed.

Lemma C6_normalized_and_idempotent_witness :
  UpdateChangelog.written
    (Str.join LF ["# Changelog"; ""; "## v2.0.0"; ""; "- New major release"])
    "2.0.0" "2025-01-01"
  = Str.join LF ["# Changelog"; ""; "## [2.0.0] - 2025-01-01"; "";
                 "- New major release"] /\
  UpdateChangelog.written
    (UpdateChangelog.written
       (Str.join LF ["# Changelog"; ""; "## v2.0.0"; ""; "- New major release"])
       "v2.0.0" "2025-01-01") "v2.0.0" "2025-01-01"
  = UpdateChangelog.written
      (Str.join LF ["# Changelog"; ""; "## v2.0.0"; ""; "- New major release"])
      "v2.0.0" "2025-01-01".
Proof.
  destruct (C6_normalized_and_idempotent
              (Str.join LF ["# Changelog"; ""; "## v2.0.0"; "";
                            "- New major release"]) "v2.0.0" "2025-01-01")
    as [H1 H2].
  split.
  - apply (H1 ["# Changelog"; ""] [""; "- New major release"]); reflexivity.
  - apply H2; reflexivity.
Defined.

(* ================================================================== *)
(** * The cases of the repository's tests *)
(* ================================================================== *)

(** get-changelog: stops at next same-level heading. *)
Example test_stops_at_same_level :
  GetChangelog.content
    (Str.join LF
       ["# Changelog"; ""; "## [1.0.0] - 2024-01-01"; ""; "### Added";
        "- Feature A"; ""; "### Changed"; "- Change B"; "";
        "## [0.9.0] - 2023-12-01"; ""; "### Added"; "- Old feature"; ""])
    "1.0.0"
  = Str.join LF
      ["## [1.0.0] - 2024-01-01"; ""; "### Added"; "- Feature A"; "";
       "### Changed"; "- Change B"].
Proof. reflexivity. Qed.

(** get-changelog: handles different heading levels. *)
Example test_other_heading_level :
  GetChangelog.content
    (Str.join LF
       ["# Changelog"; ""; "### 1.0.0"; ""; "#### New Features";
        "- Feature 1"; "- Feature 2"; ""; "### 0.9.0"; ""; "- Old stuff"; ""])
    "1.0.0"
  = Str.join LF
      ["### 1.0.0"; ""; "#### New Features"; "- Feature 1"; "- Feature 2"].
Proof. reflexivity. Qed.

(** get-changelog: strips link references. *)
Example test_strips_link_references :
  GetChangelog.content
    (Str.join LF
       ["# Changelog"; ""; "## [1.0.0] - 2024-01-01"; ""; "### Added";
        "- Feature A"; "";
        "[1.0.0]: https://github.com/org/repo/releases/tag/v1.0.0"; "";
        "## [0.9.0] - 2023-12-01"; ""; "### Added"; "- Old feature"; ""])
    "1.0.0"
  = Str.join LF ["## [1.0.0] - 2024-01-01"; ""; "### Added"; "- Feature A"].
Proof. reflexivity. Qed.

(** get-changelog: case insensitive version matching. *)
Example test_extract_case_insensitive :
  GetChangelog.content
    (Str.join LF
       ["# Changelog"; ""; "## [V1.0.0] - 2024-01-01"; ""; "- Release notes";
        ""])
    "1.0.0"
  = Str.join LF ["## [V1.0.0] - 2024-01-01"; ""; "- Release notes"].
Proof. reflexivity. Qed.

(** get-changelog: the Unreleased section stands in for a version that has
    no header. *)
Example test_unreleased_fallback :
  GetChangelog.content
    (Str.join LF ["# Changelog"; ""; "## [Unreleased]"; ""; "- pending"; ""])
    "9.9.9"
  = Str.join LF ["## [Unreleased]"; ""; "- pending"].
Proof. reflexivity. Qed.

(** update-changelog: converts Unreleased to version. *)
Example test_unreleased_to_version :
  UpdateChangelog.written
    (Str.join LF
       ["# Changelog"; ""; "## [Unreleased]"; ""; "### Added"; "- thing"; "";
        "## [1.0.0] - 2024-01-01"; ""; "- old"; ""])
    "1.1.0" "2025-01-01"
  = Str.join LF
      ["# Changelog"; ""; "## [1.1.0] - 2025-01-01"; ""; "### Added";
       "- thing"; ""; "## [1.0.0] - 2024-01-01"; ""; "- old"; ""]
  /\ UpdateChangelog.created
       (Str.join LF
          ["# Changelog"; ""; "## [Unreleased]"; ""; "### Added"; "- thing";
           ""; "## [1.0.0] - 2024-01-01"; ""; "- old"; ""])
       "1.1.0" "2025-01-01" = false.
Proof. split; reflexivity. Qed.

(** update-changelog: replaces existing date. *)
Example test_replaces_date :
  UpdateChangelog.written
    (Str.join LF
       ["# Changelog"; ""; "## [1.0.0] - 2020-01-01"; ""; "### Added";
        "- Old date"; ""])
    "1.0.0" "2025-01-01"
  = Str.join LF
      ["# Changelog"; ""; "## [1.0.0] - 2025-01-01"; ""; "### Added";
       "- Old date"; ""].
Proof. reflexivity. Qed.

(** update-changelog: handles multiple Unreleased variants. *)
Example test_unreleased_upper_case :
  UpdateChangelog.written
    (Str.join LF ["# Changelog"; ""; "## [UNRELEASED]"; ""; "### Added";
                  "- New stuff"; ""])
    "1.0.0" "2025-01-01"
  = Str.join LF ["# Changelog"; ""; "## [1.0.0] - 2025-01-01"; "";
                 "### Added"; "- New stuff"; ""].
Proof. reflexivity. Qed.

(** update-changelog: creates header after main title. *)
Example test_creates_after_title :
  UpdateChangelog.written
    (Str.join LF
       ["# My Project Changelog"; ""; "This is a description."; "";
        "## [0.1.0] - 2023-01-01"; ""; "- Initial version"; ""])
    "1.0.0" "2025-01-01"
  = Str.join LF
      ["# My Project Changelog"; ""; ""; "## [1.0.0] - 2025-01-01"; "";
       "### Added"; ""; "- Initial release"; ""; "This is a description.";
       ""; "## [0.1.0] - 2023-01-01"; ""; "- Initial version"; ""].
Proof. reflexivity. Qed.

(** release workflow: patch clears prerelease; preserves prerelease info. *)
Example test_release_versions :
  Release.nextVersion "1.0.0-beta.1" "patch" = Returned "1.0.1" /\
  Release.nextVersion "1.0.0-beta.1" "1.0.0-rc.1" = Returned "1.0.0-rc.1" /\
  Release.nextVersion "1.0.0" "minor" = Returned "1.1.0" /\
  Release.nextVersion "1.0.0" "major" = Returned "2.0.0" /\
  Release.nextVersion "1.0.0" "not-a-version"
    = ExitError "Invalid version: not-a-version".
Proof. repeat split. Qed.


(* ================================================================== *)
(** * What the update leaves alone *)
(* ================================================================== *)

Lemma set_nth_length {A : Type} (i : nat) (x : A) (l : list A) :
  List.length (set_nth i x l) = List.length l.
Proof.
  revert i. induction l as [|y l IH]; intros [|i]; simpl; auto.
Qed.

Lemma set_nth_other {A : Type} (i j : nat) (x : A) (l : list A) :
  j <> i -> List.nth_error (set_nth i x l) j = List.nth_error l j.
Proof.
  revert i j. induction l as [|y l IH]; intros [|i] [|j] H; simpl; auto;
    try (now elim H).
Qed.

Lemma splice_in_length {A : Type} (i : nat) (items l : list A) :
  List.length (splice_in i items l) = List.length l + List.length items.
Proof.
  unfold splice_in.
  pose proof (firstn_skipn i l) as E.
  apply (f_equal (@List.length A)) in E.
  rewrite length_app in E. rewrite !length_app. lia.
Qed.

Lemma findIndex_lt {A : Type} (p : A -> bool) (l : list A) (i : nat) :
  findIndex p l = Some i -> i < List.length l.
Proof.
  intros H. destruct (findIndex_first p l i H) as (pre & x & post & Hf & <-).
  destruct Hf as (-> & _). rewrite length_app. simpl. lia.
Qed.

Lemma findIndex_exists {A : Type} (p : A -> bool) (pre : list A) (x : A)
    (post : list A) :
  p x = true ->
  exists j, findIndex p (pre ++ x :: post) = Some j /\ j <= List.length pre.
Proof.
  intros Hx. induction pre as [|y pre IH]; simpl.
  - rewrite Hx. exists 0. split; [reflexivity | lia].
  - destruct (p y); [exists 0; split; [reflexivity | lia]|].
    destruct IH as (j & -> & Hj). exists (S j). split; [reflexivity | lia].
Qed.

Lemma findIndex_ext {A : Type} (p q : A -> bool) (l : list A) :
  (forall x, In x l -> p x = q x) -> findIndex p l = findIndex q l.
Proof.
  induction l as [|x l IH]; intros H; simpl; [reflexivity|].
  rewrite (H x (or_introl eq_refl)).
  rewrite IH; [reflexivity|]. intros y Hy. apply H. now right.
Qed.

(** X1. The update never removes a line.  When it rewrites a header, the
    document keeps its number of lines and every line but the one at the
    header index stays as it was; when it creates a section, the seven lines
    of the section are put between two parts of the document, which stay as
    they were. *)
Theorem update_keeps_lines (version today : string) (lines : list string) :
  let r := UpdateChangelog.update_lines version today lines in
  (snd r = false ->
     List.length (fst r) = List.length lines /\
     exists i, i < List.length lines /\
       forall j, j <> i ->
         List.nth_error (fst r) j = List.nth_error lines j) /\
  (snd r = true ->
     List.length (fst r) = List.length lines + 7 /\
     exists k, k <= List.length lines /\
       fst r = (List.firstn k lines
                ++ UpdateChangelog.newSection version today
                ++ List.skipn k lines)%list).
Proof.
  intros r. subst r. unfold UpdateChangelog.update_lines.
  destruct (findIndex (test (UpdateChangelog.versionRx version)) lines)
    as [i|] eqn:E1.
  - cbn [fst snd]. split; [intros _ | discriminate].
    split; [apply set_nth_length|].
    exists i. split; [exact (findIndex_lt _ _ _ E1)|].
    intros j Hj. now apply set_nth_other.
  - destruct (findIndex (test UpdateChangelog.unreleasedRx) lines)
      as [i|] eqn:E2.
    + cbn [fst snd]. split; [intros _ | discriminate].
      split; [apply set_nth_length|].
      exists i. split; [exact (findIndex_lt _ _ _ E2)|].
      intros j Hj. now apply set_nth_other.
    + cbn [fst snd]. split; [discriminate | intros _].
      split; [now rewrite splice_in_length|].
      exists (UpdateChangelog.insertIndex lines).
      split; [|reflexivity].
      now destruct (insertIndex_spec lines) as [Hk _].
Qed.

(* ================================================================== *)
(** * The header that the update leaves behind *)
(* ================================================================== *)

(** After the update some line is a version header of the version. *)
Lemma update_lines_has_header (version today : string) (lines : list string) :
  plain_text version = true -> starts_v version = false ->
  plain_text today = true ->
  exists pre x post,
    fst (UpdateChangelog.update_lines version today lines)
    = (pre ++ x :: post)%list /\
    test (UpdateChangelog.versionRx version) x = true.
Proof.
  intros Hpt Hv Htoday.
  pose proof (plain_text_no_terminator today Htoday) as Hnt.
  destruct (findIndex (test (UpdateChangelog.versionRx version)) lines)
    as [i|] eqn:E1.
  - destruct (findIndex_first _ _ _ E1) as (pre & x & post & Hf & _).
    destruct (update_found version today lines pre x post Hf) as (c & Hc & Hu).
    destruct (versionRx_sound version x c Hc)
      as (h & ws & vp & m & Ex & H1 & Hhs & Hlen & Hws & H2 & H3 & Hm & Hvp
          & H4 & H5).
    exists pre, (UpdateChangelog.version_line today c), post.
    rewrite Hu. split; [reflexivity|].
    unfold UpdateChangelog.version_line. rewrite H1, H3.
    apply (canonical_line_fixed version today h ws); try assumption.
    now apply settled_of_match.
  - apply findIndex_none in E1.
    destruct (findIndex (test UpdateChangelog.unreleasedRx) lines)
      as [i|] eqn:E2.
    + destruct (findIndex_first _ _ _ E2) as (pre & x & post & Hf & _).
      destruct (update_unreleased version today lines pre x post E1 Hf)
        as (c & Hc & Hu).
      destruct (unreleasedRx_sound x c Hc)
        as (h & ws & Ex & H1 & Hhs & Hlen & Hws & H2 & H3 & H4 & H5).
      exists pre, (UpdateChangelog.unreleased_line version today c), post.
      rewrite Hu. split; [reflexivity|].
      rewrite (unreleased_line_plain version today c Hpt Htoday), H1.
      apply (canonical_line_fixed version today h ws); try assumption.
      left. split; [apply eq_ci_refl | exact Hv].
    + apply findIndex_none in E2.
      rewrite (update_created version today lines E1 E2). cbn [fst].
      set (k := UpdateChangelog.insertIndex lines).
      exists (List.firstn k lines ++ [""])%list,
        (UpdateChangelog.newHeader version today),
        ([""; "### Added"; ""; "- Initial release"; ""]
         ++ List.skipn k lines)%list.
      split.
      * unfold splice_in, UpdateChangelog.newSection.
        now rewrite <- app_assoc.
      * unfold UpdateChangelog.newHeader.
        change ("## [" ++ version ++ "] - " ++ today)
          with (("##" ++ " ") ++ "[" ++ version ++ "] - " ++ today).
        apply (canonical_line_fixed version today "##" " ");
          try assumption; try reflexivity.
        -- simpl. lia.
        -- left. split; [apply eq_ci_refl | exact Hv].
Qed.

(** What get-changelog.ts splits is what update-changelog.ts joined. *)
Lemma written_lines (content versionArg today : string) :
  plain_text (Str.strip_v versionArg) = true ->
  starts_v (Str.strip_v versionArg) = false ->
  plain_text today = true ->
  no_trailing_cr (Str.split_lines content) = true ->
  Str.split_lines (UpdateChangelog.written content versionArg today)
  = fst (UpdateChangelog.update_lines (Str.strip_v versionArg) today
           (Str.split_lines content)).
Proof.
  intros Hplain Hv Htoday Hcr.
  destruct (split_lines_shape (String.length content) content (le_n _))
    as [Hne _].
  pose proof (split_lines_stable content Hcr) as Hst.
  destruct (update_lines_settled (Str.strip_v versionArg) today
              (Str.split_lines content) Hplain Hv Htoday Hne Hst)
    as (Hne1 & Hst1 & _).
  unfold UpdateChangelog.written.
  now rewrite (split_lines_join _ Hne1 Hst1).
Qed.

Lemma hdr_found_after_update (version today : string) (lines : list string) :
  plain_text version = true -> starts_v version = false ->
  plain_text today = true ->
  exists j,
    findIndex (test (GetChangelog.hdrRx version))
      (fst (UpdateChangelog.update_lines version today lines)) = Some j.
Proof.
  intros Hplain Hv Htoday.
  destruct (update_lines_has_header version today lines Hplain Hv Htoday)
    as (pre & x & post & HL & Hx).
  apply versionRx_hdrRx in Hx.
  destruct (findIndex_exists (test (GetChangelog.hdrRx version)) pre x post Hx)
    as (j & Hj & _).
  exists j. now rewrite HL.
Qed.

(** X2. After update-changelog.ts has run for a version, get-changelog.ts
    run for the same argument finds a header of that version: it neither
    falls back to an Unreleased header nor reports that no entry was found.
    This holds for a version that is plain and does not begin with v or V
    (after the one lower-case v of the argument is removed), a plain date,
    and a document none of whose lines ends with a carriage return. *)
Theorem update_then_extract (content versionArg today : string) :
  plain_text (Str.strip_v versionArg) = true ->
  starts_v (Str.strip_v versionArg) = false ->
  plain_text today = true ->
  no_trailing_cr (Str.split_lines content) = true ->
  let version := Str.strip_v versionArg in
  let out := UpdateChangelog.written content versionArg today in
  exists start,
    findIndex (test (GetChangelog.hdrRx version)) (Str.split_lines out)
      = Some start /\
    test (GetChangelog.hdrRx version) (line_at (Str.split_lines out) start)
      = true /\
    GetChangelog.content out versionArg
      = GetChangelog.section_text (Str.split_lines out) start.
Proof.
  intros Hplain Hv Htoday Hcr version out.
  pose proof (written_lines content versionArg today Hplain Hv Htoday Hcr)
    as Hout.
  fold version out in Hout.
  destruct (hdr_found_after_update version today (Str.split_lines content)
              Hplain Hv Htoday) as (j & Hj).
  rewrite <- Hout in Hj.
  exists j. split; [exact Hj|].
  destruct (findIndex_first _ _ _ Hj) as (pre' & x' & post' & Hf & Hlen).
  destruct Hf as (El & _ & Hx').
  split.
  - rewrite El, <- Hlen, line_at_middle. exact Hx'.
  - unfold GetChangelog.content, GetChangelog.find_start. fold version.
    now rewrite Hj.
Qed.

Lemma update_then_extract_witness :
  exists start,
    findIndex (test (GetChangelog.hdrRx "1.1.0"))
      (Str.split_lines
         (UpdateChangelog.written
            (Str.join LF ["# Changelog"; ""; "## [Unreleased]"; ""; "- new"])
            "v1.1.0" "2025-01-01"))
      = Some start /\
    test (GetChangelog.hdrRx "1.1.0")
      (line_at
         (Str.split_lines
            (UpdateChangelog.written
               (Str.join LF
                  ["# Changelog"; ""; "## [Unreleased]"; ""; "- new"])
               "v1.1.0" "2025-01-01")) start) = true /\
    GetChangelog.content
      (UpdateChangelog.written
         (Str.join LF ["# Changelog"; ""; "## [Unreleased]"; ""; "- new"])
         "v1.1.0" "2025-01-01") "v1.1.0"
    = GetChangelog.section_text
        (Str.split_lines
           (UpdateChangelog.written
              (Str.join LF
                 ["# Changelog"; ""; "## [Unreleased]"; ""; "- new"])
              "v1.1.0" "2025-01-01")) start.
Proof.
  apply (update_then_extract
           (Str.join LF ["# Changelog"; ""; "## [Unreleased]"; ""; "- new"])
           "v1.1.0" "2025-01-01"); reflexivity.
Defined.

(* ================================================================== *)
(** * What extraction prints *)
(* ================================================================== *)

Lemma starts_hash_leading (s : string) :
  1 <= leading_hashes s -> exists r, s = String "#" r.
Proof.
  destruct s as [|c s]; simpl; [lia|].
  unfold Char.is_hash. destruct (Ascii.eqb_spec c "#") as [->|]; [|lia].
  intros _. now exists s.
Qed.

Lemma join_cons_append (sep x : string) (l : list string) :
  exists tail, Str.join sep (x :: l) = x ++ tail.
Proof.
  destruct l as [|y l]; simpl.
  - exists "". now rewrite append_nil_r.
  - eexists. reflexivity.
Qed.

Lemma trimEnd_hash (s : string) :
  exists t, Str.trimEnd (String "#" s) = String "#" t.
Proof.
  simpl. destruct (Str.trimEnd s); eexists; reflexivity.
Qed.

Lemma linkRefRx_hash (s : string) : GetChangelog.linkRefRx (String "#" s) = [].
Proof. reflexivity. Qed.

(** X3. What get-changelog.ts prints begins with [#] exactly when it found
    a header (of the version, or else an Unreleased one); when it found
    none, it prints the message that names the version, which begins with
    another character.  So a caller can tell the two apart by the first
    character. *)
Theorem content_starts_with_hash (md versionArg : string) :
  let version := Str.strip_v versionArg in
  let lines := Str.split_lines md in
  (GetChangelog.find_start version lines = None ->
     GetChangelog.content md versionArg = GetChangelog.not_found version /\
     starts_hash (GetChangelog.content md versionArg) = false) /\
  (forall start, GetChangelog.find_start version lines = Some start ->
     starts_hash (line_at lines start) = true /\
     starts_hash (GetChangelog.content md versionArg) = true).
Proof.
  intros version lines. unfold GetChangelog.content. fold version lines.
  split.
  - intros ->. split; reflexivity.
  - intros start Hs. rewrite Hs.
    destruct (find_start_first version lines start Hs)
      as (pre & x & post & El & Hlen & Hh & _).
    destruct (starts_hash_leading x Hh) as [x' Ex].
    split.
    + rewrite El, <- Hlen, line_at_middle, Ex. reflexivity.
    + unfold GetChangelog.section_text.
      destruct (section_shape pre x post) as (k & _ & He & Hsl & _).
      rewrite El, <- Hlen, He, Hsl.
      destruct (join_cons_append LF x (List.firstn k post)) as [tail ->].
      rewrite Ex. unfold Str.trim.
      change (Str.trimStart (String "#" x' ++ tail))
        with (String "#" (x' ++ tail)).
      destruct (trimEnd_hash (x' ++ tail)) as [t ->].
      cbn [replace_first]. rewrite linkRefRx_hash. reflexivity.
Qed.

(* ================================================================== *)
(** * The two scripts look for the same headers *)
(* ================================================================== *)

Lemma star_all_In (p : ascii -> bool) (m : string) :
  Str.forallb p m = true -> In (m, "") (star p m).
Proof.
  intros H. destruct (star_head_all p m H) as [tl ->]. now left.
Qed.

Lemma hdrRx_versionRx (version x : string) :
  Str.forallb UpdateChangelog.not_terminator x = true ->
  test (GetChangelog.hdrRx version) x = true ->
  test (UpdateChangelog.versionRx version) x = true.
Proof.
  intros Hnt H. apply test_In in H as (m0 & r & H).
  unfold GetChangelog.hdrRx in H.
  apply seq_In in H as (h & r0 & m1 & Hh & H & ->).
  apply seq_In in H as (ws & r1 & m2 & Hws & H & ->).
  apply seq_In in H as (lb & r2 & m3 & Hlb & H & ->).
  apply seq_In in H as (vp & r2' & m4 & Hv & H & ->).
  apply seq_In in H as (m & r3 & m5 & Hm & H & ->).
  apply seq_In in H as (rb & r4 & dt & Hrb & _ & ->).
  assert (Hr4 : Str.forallb UpdateChangelog.not_terminator r4 = true).
  { destruct (rep_sound _ _ _ _ _ _ Hh) as (E0 & _).
    destruct (star_sound _ _ _ _ Hws) as (E1 & _).
    assert (E2 : r1 = lb ++ r2).
    { apply opt_In in Hlb as [Hlb | [-> ->]]; [|reflexivity].
      now destruct (lit_sound _ _ _ _ Hlb) as [-> ->]. }
    assert (E2' : r2 = vp ++ r2').
    { apply opt_In in Hv as [Hv | [-> ->]]; [|reflexivity].
      now destruct (lit_ci_sound _ _ _ _ Hv) as [-> _]. }
    destruct (lit_ci_sound _ _ _ _ Hm) as (E3 & _).
    assert (E4 : r3 = rb ++ r4).
    { apply opt_In in Hrb as [Hrb | [-> ->]]; [|reflexivity].
      now destruct (lit_sound _ _ _ _ Hrb) as [-> ->]. }
    rewrite E0, E1, E2, E2', E3, E4, !forallb_append in Hnt.
    repeat (apply andb_true_iff in Hnt as [_ Hnt]). exact Hnt. }
  unfold UpdateChangelog.versionRx, UpdateChangelog.header_pattern.
  apply (In_test _ _ (mkCaptures x (h ++ ws) lb (vp ++ m) rb r4) "").
  apply bind_In. exists (h ++ ws), r1. split.
  { apply seq_In. exists h, r0, ws. now repeat split. }
  apply bind_In. exists lb, r2. split; [exact Hlb|].
  apply bind_In. exists (vp ++ m), r3. split.
  { apply seq_In. exists vp, r2', m. now repeat split. }
  apply bind_In. exists rb, r4. split; [exact Hrb|].
  apply bind_In. exists r4, "". split; [now apply star_all_In|].
  apply bind_In. exists tt, "". split; [now left | now left].
Qed.

Lemma update_unreleasedRx_get (x : string) :
  test UpdateChangelog.unreleasedRx x = true ->
  test GetChangelog.unreleasedRx x = true.
Proof.
  intros H. apply test_In in H as (c & r & H).
  unfold UpdateChangelog.unreleasedRx, UpdateChangelog.header_pattern in H.
  apply bind_In in H as (prefix & r1 & Hp & H).
  apply bind_In in H as (lb & r2 & Hlb & H).
  apply bind_In in H as (tok & r3 & Ht & H).
  apply bind_In in H as (rb & r4 & Hrb & _).
  apply seq_In in Hp as (h & r0 & ws & Hh & Hws & ->).
  unfold GetChangelog.unreleasedRx.
  apply (In_test _ _ (h ++ ws ++ lb ++ tok ++ rb) r4).
  apply seq_In. exists h, r0, (ws ++ lb ++ tok ++ rb).
  split; [exact Hh|]. split; [|reflexivity].
  apply seq_In. exists ws, r1, (lb ++ tok ++ rb).
  split; [exact Hws|]. split; [|reflexivity].
  apply seq_In. exists lb, r2, (tok ++ rb).
  split; [exact Hlb|]. split; [|reflexivity].
  apply seq_In. exists tok, r3, rb.
  split; [exact Ht|]. split; [exact Hrb | reflexivity].
Qed.

Lemma get_unreleasedRx_update (x : string) :
  Str.forallb UpdateChangelog.not_terminator x = true ->
  test GetChangelog.unreleasedRx x = true ->
  test UpdateChangelog.unreleasedRx x = true.
Proof.
  intros Hnt H. apply test_In in H as (m0 & r & H).
  unfold GetChangelog.unreleasedRx in H.
  apply seq_In in H as (h & r0 & m1 & Hh & H & ->).
  apply seq_In in H as (ws & r1 & m2 & Hws & H & ->).
  apply seq_In in H as (lb & r2 & m3 & Hlb & H & ->).
  apply seq_In in H as (m & r3 & rb & Hm & Hrb & ->).
  assert (Hr4 : Str.forallb UpdateChangelog.not_terminator r = true).
  { destruct (rep_sound _ _ _ _ _ _ Hh) as (E0 & _).
    destruct (star_sound _ _ _ _ Hws) as (E1 & _).
    assert (E2 : r1 = lb ++ r2).
    { apply opt_In in Hlb as [Hlb | [-> ->]]; [|reflexivity].
      now destruct (lit_sound _ _ _ _ Hlb) as [-> ->]. }
    destruct (lit_ci_sound _ _ _ _ Hm) as (E3 & _).
    assert (E4 : r3 = rb ++ r).
    { apply opt_In in Hrb as [Hrb | [-> ->]]; [|reflexivity].
      now destruct (lit_sound _ _ _ _ Hrb) as [-> ->]. }
    rewrite E0, E1, E2, E3, E4, !forallb_append in Hnt.
    repeat (apply andb_true_iff in Hnt as [_ Hnt]). exact Hnt. }
  unfold UpdateChangelog.unreleasedRx, UpdateChangelog.header_pattern.
  apply (In_test _ _ (mkCaptures x (h ++ ws) lb m rb r) "").
  apply bind_In. exists (h ++ ws), r1. split.
  { apply seq_In. exists h, r0, ws. now repeat split. }
  apply bind_In. exists lb, r2. split; [exact Hlb|].
  apply bind_In. exists m, r3. split; [exact Hm|].
  apply bind_In. exists rb, r. split; [exact Hrb|].
  apply bind_In. exists r, "". split; [now apply star_all_In|].
  apply bind_In. exists tt, "". split; [now left | now left].
Qed.

Lemma test_eq_of_iff {A B : Type} (m : Rx.t A) (n : Rx.t B) (x : string) :
  (test m x = true -> test n x = true) ->
  (test n x = true -> test m x = true) ->
  test m x = test n x.
Proof.
  intros H1 H2. destruct (test m x), (test n x); auto;
    try (symmetry; now apply H1); try (now apply H2).
Qed.

(** X4. update-changelog.ts and get-changelog.ts look for the same header.
    A line that the update takes for a header of the version, or for an
    Unreleased header, is one for the extraction as well.  In a document
    none of whose lines holds a line terminator, that is a character that
    the dot of the update's patterns refuses (a carriage return; U+2028
    and U+2029 lie outside the text of the model), both scripts select the
    same line with their version pattern and the same line with their
    Unreleased pattern. *)
Theorem scripts_select_same_header (version : string) (lines : list string) :
  (forall x, test (UpdateChangelog.versionRx version) x = true ->
     test (GetChangelog.hdrRx version) x = true) /\
  (forall x, test UpdateChangelog.unreleasedRx x = true ->
     test GetChangelog.unreleasedRx x = true) /\
  (List.forallb (Str.forallb UpdateChangelog.not_terminator) lines = true ->
     findIndex (test (UpdateChangelog.versionRx version)) lines
       = findIndex (test (GetChangelog.hdrRx version)) lines /\
     findIndex (test UpdateChangelog.unreleasedRx) lines
       = findIndex (test GetChangelog.unreleasedRx) lines).
Proof.
  split; [exact (versionRx_hdrRx version)|].
  split; [exact update_unreleasedRx_get|].
  intros Hall. rewrite forallb_forall in Hall. split.
  - apply findIndex_ext. intros x Hx. apply test_eq_of_iff.
    + apply versionRx_hdrRx.
    + apply hdrRx_versionRx. now apply Hall.
  - apply findIndex_ext. intros x Hx. apply test_eq_of_iff.
    + apply update_unreleasedRx_get.
    + apply get_unreleasedRx_update. now apply Hall.
Qed.

(* ================================================================== *)
(** * Joining what was split *)
(* ================================================================== *)

Lemma join_cons_char (c : ascii) (l : string) (ls : list string) :
  Str.join LF (String c l :: ls) = String c (Str.join LF (l :: ls)).
Proof. destruct ls; reflexivity. Qed.

Lemma split_lines_nonempty (s : string) : Str.split_lines s <> [].
Proof.
  now destruct (split_lines_shape (String.length s) s (le_n _)) as [H _].
Qed.

(** X5. Splitting a text without carriage returns into lines, as both
    changelog scripts do on reading, and joining the lines with LF, as they
    do on writing, gives the text back. *)
Theorem join_split_lines (s : string) :
  Str.forallb (fun c => negb (Ascii.eqb c "013")) s = true ->
  Str.join LF (Str.split_lines s) = s.
Proof.
  induction s as [|c s IH]; intros H; [reflexivity|].
  cbn [Str.forallb] in H. apply andb_true_iff in H as [Hc H].
  specialize (IH H). apply negb_true_iff in Hc.
  cbn [Str.split_lines].
  pose proof (split_lines_nonempty s) as Hne.
  destruct (Ascii.eqb c "010") eqn:Elf.
  - apply Ascii.eqb_eq in Elf. subst c.
    destruct (Str.split_lines s) as [|l ls] eqn:E; [now elim Hne|].
    change (Str.join LF ("" :: l :: ls))
      with (String "010" (Str.join LF (l :: ls))).
    now rewrite IH.
  - rewrite Hc.
    assert (Hk : Str.join LF
                   match Str.split_lines s with
                   | l :: ls => String c l :: ls
                   | [] => [String c ""]
                   end = String c s).
    { destruct (Str.split_lines s) as [|l ls] eqn:E; [now elim Hne|].
      now rewrite join_cons_char, IH. }
    destruct s as [|c' s'']; exact Hk.
Qed.

Lemma join_split_lines_witness :
  Str.join LF (Str.split_lines (Str.join LF ["# Changelog"; ""; "- a"; ""]))
  = Str.join LF ["# Changelog"; ""; "- a"; ""].
Proof.
  apply (join_split_lines (Str.join LF ["# Changelog"; ""; "- a"; ""])).
  reflexivity.
Defined.

(* ================================================================== *)
(** * The text of the next version *)
(* ================================================================== *)

Section VersionText.
Import Semver.

Lemma string_of_uint_digits (d : Decimal.uint) :
  Str.forallb Char.is_digit (NilEmpty.string_of_uint d) = true.
Proof.
  induction d as [|d IH|d IH|d IH|d IH|d IH|d IH|d IH|d IH|d IH|d IH];
    [reflexivity | ..];
    cbn [NilEmpty.string_of_uint Str.forallb]; rewrite IH; reflexivity.
Qed.

Lemma formatNumber_digits (n : N) :
  exists c r,
    formatNumber n = String c r /\ Char.is_digit c = true /\
    Str.forallb Char.is_digit r = true.
Proof.
  unfold formatNumber, NilZero.string_of_uint.
  destruct (N.to_uint n) as [|d|d|d|d|d|d|d|d|d|d];
    cbn [NilEmpty.string_of_uint]; do 2 eexists;
    (split; [reflexivity|]; split; [reflexivity|]);
    try reflexivity; apply string_of_uint_digits.
Qed.

Lemma digit_version_char (c : ascii) :
  Char.is_digit c = true -> is_version_char c = true.
Proof. unfold is_version_char, is_ident_char. now intros ->. Qed.

Lemma ident_version_char (c : ascii) :
  is_ident_char c = true -> is_version_char c = true.
Proof. unfold is_version_char. now intros ->. Qed.

Lemma formatNumber_chars (n : N) :
  Str.forallb is_version_char (formatNumber n) = true.
Proof.
  destruct (formatNumber_digits n) as (c & r & -> & Hc & Hr).
  cbn [Str.forallb]. rewrite (digit_version_char c Hc).
  exact (forallb_weaken _ _ r digit_version_char Hr).
Qed.

Lemma identifier_chars (id : string) :
  is_identifier id = true -> Str.forallb is_version_char id = true.
Proof.
  destruct id as [|c id]; [discriminate|]. unfold is_identifier.
  apply forallb_weaken, ident_version_char.
Qed.

Lemma join_dot_chars (ids : list string) :
  List.forallb is_identifier ids = true ->
  Str.forallb is_version_char (Str.join "." ids) = true.
Proof.
  induction ids as [|a ids IH]; intros H; [reflexivity|].
  cbn [List.forallb] in H. apply andb_true_iff in H as [Ha H].
  specialize (IH H). apply identifier_chars in Ha.
  destruct ids as [|b ids]; [exact Ha|].
  change (Str.join "." (a :: b :: ids))
    with (a ++ "." ++ Str.join "." (b :: ids)).
  rewrite !forallb_append, Ha, IH. reflexivity.
Qed.

Lemma parse_identifiers_ok (s : string) (ids : list string) :
  parse_identifiers s = Some ids -> List.forallb is_identifier ids = true.
Proof.
  unfold parse_identifiers.
  destruct (List.forallb is_identifier (Str.split_char "." s)) eqn:E;
    [|discriminate].
  now intros [= <-].
Qed.

Lemma parse_idents (s : string) (v : SemVer) :
  parse s = Some v ->
  List.forallb is_identifier (prerelease v) = true /\
  List.forallb is_identifier (build v) = true.
Proof.
  unfold parse.
  destruct (Str.cut "+" s) as [front buildText].
  destruct (Str.cut "-" front) as [core preText].
  destruct (List.map parse_number (Str.split_char "." core))
    as [|[ma|] [|[mi|] [|[pa|] [|x l]]]]; try discriminate.
  assert (Hp : forall p,
             match preText with
             | None => Some []
             | Some t => parse_identifiers t
             end = Some p -> List.forallb is_identifier p = true).
  { destruct preText as [t|]; [apply parse_identifiers_ok|].
    now intros p [= <-]. }
  assert (Hb : forall b,
             match buildText with
             | None => Some []
             | Some t => parse_identifiers t
             end = Some b -> List.forallb is_identifier b = true).
  { destruct buildText as [t|]; [apply parse_identifiers_ok|].
    now intros b [= <-]. }
  destruct (match preText with None => Some [] | Some t => parse_identifiers t end)
    as [p|]; [|discriminate].
  destruct (match buildText with None => Some [] | Some t => parse_identifiers t end)
    as [b|]; [|discriminate].
  intros [= <-]. cbn [prerelease build]. split; auto.
Qed.

Lemma next_idents (current versionArg : string) (v : SemVer) :
  Release.next current versionArg = Returned v ->
  List.forallb is_identifier (prerelease v) = true /\
  List.forallb is_identifier (build v) = true.
Proof.
  unfold Release.next.
  destruct (parse current) as [c|] eqn:Ec; [|discriminate].
  destruct (parse_idents current c Ec) as [_ Hb].
  destruct (List.existsb (String.eqb versionArg) ["major"; "minor"; "patch"]).
  - intros [= <-]. split; [reflexivity|].
    destruct (String.eqb versionArg "major");
      [|destruct (String.eqb versionArg "minor")]; exact Hb.
  - destruct (parse versionArg) as [n|] eqn:En; [|discriminate].
    intros [= <-]. exact (parse_idents versionArg n En).
Qed.

Lemma format_chars (v : SemVer) :
  List.forallb is_identifier (prerelease v) = true ->
  List.forallb is_identifier (build v) = true ->
  Str.forallb is_version_char (format v) = true /\
  exists c r, format v = String c r /\ Char.is_digit c = true.
Proof.
  intros Hp Hb. unfold format. split.
  - rewrite !forallb_append, !formatNumber_chars.
    apply join_dot_chars in Hp, Hb.
    destruct (prerelease v) as [|p ps], (build v) as [|b bs];
      rewrite ?forallb_append, ?Hp, ?Hb; reflexivity.
  - destruct (formatNumber_digits (major v)) as (c & r & -> & Hc & _).
    do 2 eexists. split; [reflexivity | exact Hc].
Qed.

End VersionText.

Lemma version_char_plain (c : ascii) :
  is_version_char c = true -> plain_char c = true.
Proof.
  destruct c as [[] [] [] [] [] [] [] []]; vm_compute; intros H;
    try discriminate H; reflexivity.
Qed.

Lemma digit_not_v_hash (c : ascii) :
  Char.is_digit c = true ->
  Char.eqb_ci "v" c = false /\ Char.is_hash c = false /\
  Ascii.eqb c "v" = false.
Proof.
  destruct c as [[] [] [] [] [] [] [] []]; vm_compute; intros H;
    try discriminate H; repeat split.
Qed.

(** The next version that the release script computes is a non-empty text
    over the digits, the letters, [-], [.] and [+] that begins with a
    digit. *)
Lemma nextVersion_shape (current versionArg s : string) :
  Release.nextVersion current versionArg = Returned s ->
  Str.forallb is_version_char s = true /\
  exists c r, s = String c r /\ Char.is_digit c = true.
Proof.
  unfold Release.nextVersion.
  destruct (Release.next current versionArg) as [v| |] eqn:E;
    try discriminate.
  intros [= <-]. destruct (next_idents _ _ _ E) as [Hp Hb].
  now apply format_chars.
Qed.

Lemma nextVersion_plain (current versionArg s : string) :
  Release.nextVersion current versionArg = Returned s ->
  plain_version s = true /\ Str.strip_v s = s.
Proof.
  intros H. destruct (nextVersion_shape _ _ _ H) as (Hc & c & r & -> & Hd).
  destruct (digit_not_v_hash c Hd) as (Hv & Hh & Hv').
  split.
  - unfold plain_version, plain_text.
    rewrite (forallb_weaken _ _ _ version_char_plain Hc).
    cbn [starts_v starts_hash]. now rewrite Hv, Hh.
  - cbn [Str.strip_v]. now rewrite Hv'.
Qed.

(** X6. The version text that the release script hands to the other steps
    is never empty, begins with a digit, and is made of digits, letters,
    [-], [.] and [+] only.  So it contains no [$] that a replacement
    template would expand and no line break, it does not begin with v, V or
    [#], and the removal of a leading v by the changelog scripts leaves it
    as it is. *)
Theorem nextVersion_is_plain (current versionArg s : string) :
  Release.nextVersion current versionArg = Returned s ->
  (exists c r, s = String c r /\ Char.is_digit c = true) /\
  Str.forallb is_version_char s = true /\
  no_dollar s = true /\
  plain_version s = true /\
  Str.strip_v s = s.
Proof.
  intros H. destruct (nextVersion_shape _ _ _ H) as (Hc & Hd).
  destruct (nextVersion_plain _ _ _ H) as (Hp & Hs).
  split; [exact Hd|]. split; [exact Hc|]. split; [|now split].
  apply plain_version_parts in Hp as (_ & Hp & _).
  now apply plain_text_no_dollar.
Qed.

Lemma nextVersion_is_plain_witness :
  (exists c r, "1.3.0+build.5" = String c r /\ Char.is_digit c = true) /\
  Str.forallb is_version_char "1.3.0+build.5" = true /\
  no_dollar "1.3.0+build.5" = true /\
  plain_version "1.3.0+build.5" = true /\
  Str.strip_v "1.3.0+build.5" = "1.3.0+build.5".
Proof.
  apply (nextVersion_is_plain "1.2.3-rc.1+build.5" "minor" "1.3.0+build.5").
  reflexivity.
Defined.

(** X7. A keyword bump gives a version that is strictly greater than the
    current one in the order by major, minor and patch, in tools/release.ts
    and in src/main.ts alike. *)
Theorem keyword_bump_increases (current k : string) (v : Semver.SemVer) :
  Semver.parse current = Some v ->
  k = "major" \/ k = "minor" \/ k = "patch" ->
  exists n,
    Release.next current k = Returned n /\
    MainScript.next current k = Returned n /\
    core_lt v n.
Proof.
  intros Hp Hk. rewrite main_next_release_next. unfold Release.next.
  rewrite Hp.
  destruct Hk as [-> | [-> | ->]]; simpl; eexists;
    (split; [reflexivity|]; split; [reflexivity|]);
    unfold core_lt; simpl; lia.
Qed.

Lemma keyword_bump_increases_witness :
  exists n,
    Release.next "1.9.9" "minor" = Returned n /\
    MainScript.next "1.9.9" "minor" = Returned n /\
    core_lt (Semver.mkSemVer 1 9 9 [] []) n.
Proof.
  apply (keyword_bump_increases "1.9.9" "minor"
           (Semver.mkSemVer 1 9 9 [] [])).
  - reflexivity.
  - right. left. reflexivity.
Defined.

(* ================================================================== *)
(** * Backtracking into a run *)
(* ================================================================== *)

Lemma seq_unfold (a b : Rx.t string) (s : string) :
  (a +++ b) s
  = List.flat_map
      (fun ar => bind b (fun y => ret (fst ar ++ y)) (snd ar)) (a s).
Proof. reflexivity. Qed.

Lemma seq_cons_match (b : Rx.t string) (c : ascii)
    (l : list (string * string)) :
  List.flat_map (fun ar => bind b (fun y => ret (fst ar ++ y)) (snd ar))
    (List.map (cons_match c) l)
  = List.map (cons_match c)
      (List.flat_map
         (fun ar => bind b (fun y => ret (fst ar ++ y)) (snd ar)) l).
Proof.
  induction l as [|[x r1] l IH]; [reflexivity|].
  cbn [List.map List.flat_map]. rewrite map_app, IH. f_equal.
  unfold bind, cons_match. cbn [fst snd].
  induction (b r1) as [|[y r] l' IH']; [reflexivity|].
  cbn [List.flat_map]. rewrite map_app, IH'. reflexivity.
Qed.

Lemma plus_sound (p : ascii -> bool) (s m r : string) :
  In (m, r) (plus p s) ->
  s = m ++ r /\ Str.forallb p m = true /\ m <> "".
Proof.
  unfold plus. intros H.
  apply seq_In in H as (x & r1 & y & Hx & Hy & ->).
  apply chr_In in Hx as (c & Hc & -> & ->).
  apply star_sound in Hy as (-> & Hy).
  split; [reflexivity|]. split; [|discriminate].
  cbn [append Str.forallb]. now rewrite Hc, Hy.
Qed.

Lemma plus_head (p : ascii -> bool) (m r : string) :
  m <> "" -> Str.forallb p m = true -> stops p r ->
  exists tl, plus p (m ++ r) = (m, r) :: tl.
Proof.
  intros Hne Hm Hr. destruct m as [|c m]; [now elim Hne|].
  cbn [Str.forallb] in Hm. apply andb_true_iff in Hm as [Hc Hm].
  destruct (star_head_run p m r Hm Hr) as [tl Hs].
  unfold plus.
  apply (seq_head (chr p) (star p) (String c m ++ r) (String c "")
           (m ++ r) m r [] tl); [|exact Hs].
  cbn [append chr]. now rewrite Hc.
Qed.

Lemma stops_nil (p : ascii -> bool) : stops p "".
Proof. exact I. Qed.

(** After a run of the class, a [/] that the class contains, and a text
    without [/], the greedy star followed by [/] ends at that [/]. *)
Lemma star_slash_none (p : ascii -> bool) (b : string) :
  no_slash b = true -> (star p +++ lit "/") b = [].
Proof.
  intros Hb. destruct ((star p +++ lit "/") b) as [|[m r] l] eqn:E;
    [reflexivity|].
  assert (H : In (m, r) ((star p +++ lit "/") b)) by (rewrite E; now left).
  apply seq_In in H as (x & r1 & y & Hx & Hy & ->).
  apply star_sound in Hx as (-> & _).
  apply lit_sound in Hy as (-> & _).
  unfold no_slash in Hb. rewrite forallb_append in Hb.
  apply andb_true_iff in Hb as [_ Hb]. discriminate Hb.
Qed.

Lemma star_slash_head (p : ascii -> bool) (a b : string) :
  p "/"%char = true -> Str.forallb p a = true -> no_slash b = true ->
  exists tl, (star p +++ lit "/") (a ++ "/" ++ b) = (a ++ "/", b) :: tl.
Proof.
  intros Hp Ha Hb. induction a as [|c a IH].
  - rewrite seq_unfold. cbn [append star]. rewrite Hp.
    rewrite flat_map_app, seq_cons_match, <- seq_unfold.
    rewrite (star_slash_none p b Hb). cbn. eexists. reflexivity.
  - cbn [Str.forallb] in Ha. apply andb_true_iff in Ha as [Hc Ha].
    destruct (IH Ha) as [tl Htl]. cbn [append] in Htl.
    rewrite seq_unfold. cbn [append star]. rewrite Hc.
    rewrite flat_map_app, seq_cons_match, <- seq_unfold.
    rewrite Htl. cbn. eexists. reflexivity.
Qed.

(* ================================================================== *)
(** * The tool name of get-meta.ts *)
(* ================================================================== *)

Lemma clean_char_name (c : ascii) :
  GetMeta.is_name_char (GetMeta.clean_char c) = true.
Proof.
  unfold GetMeta.clean_char.
  destruct (GetMeta.is_name_char c) eqn:E; [exact E | reflexivity].
Qed.

Lemma map_clean_name (s : string) :
  Str.forallb GetMeta.is_name_char (map_chars GetMeta.clean_char s) = true.
Proof.
  induction s as [|c s IH]; [reflexivity|].
  cbn [map_chars Str.forallb]. now rewrite clean_char_name, IH.
Qed.

Lemma map_clean_fixed (s : string) :
  Str.forallb GetMeta.is_name_char s = true ->
  map_chars GetMeta.clean_char s = s.
Proof.
  induction s as [|c s IH]; intros H; [reflexivity|].
  cbn [Str.forallb] in H. apply andb_true_iff in H as [Hc H].
  cbn [map_chars]. unfold GetMeta.clean_char at 1. now rewrite Hc, IH.
Qed.

Lemma map_chars_length (f : ascii -> ascii) (s : string) :
  String.length (map_chars f s) = String.length s.
Proof. induction s as [|c s IH]; simpl; auto. Qed.

Lemma length_append (a b : string) :
  String.length (a ++ b) = String.length a + String.length b.
Proof. induction a as [|c a IH]; simpl; auto. Qed.

Lemma scopeRx_not_at (c : ascii) (r : string) :
  Ascii.eqb "@" c = false -> GetMeta.scopeRx (String c r) = [].
Proof.
  intros H. unfold GetMeta.scopeRx. rewrite seq_unfold.
  cbn [lit]. now rewrite H.
Qed.

Lemma scopeRx_sound (s m r : string) :
  In (m, r) (GetMeta.scopeRx s) -> s = m ++ r.
Proof.
  unfold GetMeta.scopeRx. intros H.
  apply seq_In in H as (x & r1 & y & Hx & H & ->).
  apply seq_In in H as (z & r2 & w & Hz & Hw & ->).
  apply lit_sound in Hx as (-> & ->).
  apply star_sound in Hz as (-> & _).
  apply lit_sound in Hw as (-> & ->).
  now rewrite !append_assoc.
Qed.

Lemma strip_scope_suffix (s : string) :
  exists m, s = m ++ GetMeta.strip_scope s.
Proof.
  unfold GetMeta.strip_scope.
  destruct (GetMeta.scopeRx s) as [|[m r] l] eqn:E; [now exists ""|].
  exists m. apply scopeRx_sound. rewrite E. now left.
Qed.

Lemma strip_scope_name (s : string) :
  Str.forallb GetMeta.is_name_char s = true -> GetMeta.strip_scope s = s.
Proof.
  intros H. unfold GetMeta.strip_scope.
  destruct s as [|c s]; [reflexivity|].
  cbn [Str.forallb] in H. apply andb_true_iff in H as [Hc _].
  rewrite scopeRx_not_at; [reflexivity|].
  destruct (Ascii.eqb_spec "@" c) as [<-|]; [discriminate Hc | reflexivity].
Qed.

(** X9. The tool name that get-meta.ts derives is made of the characters
    a-z, A-Z, 0-9, [.], [_] and [-] only, whatever the name in deno.json
    is; it is never longer than that name; and deriving a name from a
    derived name changes nothing. *)
Theorem tool_name_is_clean (rawName : string) :
  Str.forallb GetMeta.is_name_char (GetMeta.name rawName) = true /\
  String.length (GetMeta.name rawName) <= String.length rawName /\
  GetMeta.name (GetMeta.name rawName) = GetMeta.name rawName.
Proof.
  unfold GetMeta.name. split; [apply map_clean_name|]. split.
  - rewrite map_chars_length.
    destruct (strip_scope_suffix rawName) as [m E].
    rewrite E at 2. rewrite length_append. lia.
  - rewrite (strip_scope_name _ (map_clean_name _)).
    apply map_clean_fixed, map_clean_name.
Qed.

Lemma strip_scope_scoped (a b : string) :
  Str.forallb UpdateChangelog.not_terminator a = true ->
  no_slash b = true ->
  GetMeta.strip_scope ("@" ++ a ++ "/" ++ b) = b.
Proof.
  intros Ha Hb. unfold GetMeta.strip_scope, GetMeta.scopeRx.
  destruct (star_slash_head UpdateChangelog.not_terminator a b
              eq_refl Ha Hb) as [tl Htl].
  destruct (seq_head (lit "@")
              (star UpdateChangelog.not_terminator +++ lit "/")
              ("@" ++ a ++ "/" ++ b) "@" (a ++ "/" ++ b) (a ++ "/") b
              [] tl (lit_head "@" (a ++ "/" ++ b)) Htl) as [tl' ->].
  reflexivity.
Qed.

(** X10. For a name [@a/b] where [a] has no line break and [b] has no
    [/], get-meta.ts removes everything up to and including the last [/]
    ([a] may itself contain [/]) and derives the tool name from [b] alone,
    each character outside a-z, A-Z, 0-9, [.], [_], [-] replaced by [-]. *)
Theorem tool_name_of_scoped (a b : string) :
  Str.forallb UpdateChangelog.not_terminator a = true ->
  no_slash b = true ->
  GetMeta.name ("@" ++ a ++ "/" ++ b) = map_chars GetMeta.clean_char b /\
  (Str.forallb GetMeta.is_name_char b = true ->
   GetMeta.name ("@" ++ a ++ "/" ++ b) = b).
Proof.
  intros Ha Hb. unfold GetMeta.name.
  rewrite (strip_scope_scoped a b Ha Hb). split; [reflexivity|].
  apply map_clean_fixed.
Qed.

Lemma tool_name_of_scoped_witness :
  GetMeta.name ("@" ++ "fry69/tools" ++ "/" ++ "release init")
  = map_chars GetMeta.clean_char "release init" /\
  (Str.forallb GetMeta.is_name_char "release init" = true ->
   GetMeta.name ("@" ++ "fry69/tools" ++ "/" ++ "release init")
   = "release init").
Proof.
  apply (tool_name_of_scoped "fry69/tools" "release init"); reflexivity.
Defined.

(* ================================================================== *)
(** * The scope and the package name of release.ts *)
(* ================================================================== *)

Lemma scopeGroup_sound (s sc r : string) :
  In (sc, r) (ProjectMeta.scopeGroup s) ->
  s = "@" ++ sc ++ "/" ++ r /\ sc <> "" /\ no_slash sc = true.
Proof.
  unfold ProjectMeta.scopeGroup. intros H.
  apply bind_In in H as (x & r1 & Hx & H).
  apply bind_In in H as (y & r2 & Hy & H).
  apply bind_In in H as (z & r3 & Hz & H).
  apply ret_In in H as (-> & ->).
  apply lit_sound in Hx as (-> & ->).
  apply plus_sound in Hy as (-> & Hp & Hne).
  apply lit_sound in Hz as (-> & ->).
  split; [reflexivity | now split].
Qed.

Lemma package_sound (A : Type) (a : A) (s : string)
    (res : A * string) (r : string) :
  In (res, r)
    ((pkg <- plus UpdateChangelog.not_terminator ;;
      _ <- eos ;;
      ret (a, pkg)) s) ->
  res = (a, s) /\ s <> "" /\
  Str.forallb UpdateChangelog.not_terminator s = true.
Proof.
  intros H.
  apply bind_In in H as (pkg & r1 & Hp & H).
  apply bind_In in H as (u & r2 & Hu & H).
  apply ret_In in H as (-> & ->).
  apply eos_In in Hu as (-> & ->).
  apply plus_sound in Hp as (-> & Hp & Hne).
  rewrite append_nil_r. now repeat split.
Qed.

Lemma nameRx_sound (s : string) (o : option string) (pkg r : string) :
  In ((o, pkg), r) (ProjectMeta.nameRx s) ->
  pkg <> "" /\
  Str.forallb UpdateChangelog.not_terminator pkg = true /\
  ((o = None /\ s = pkg) \/
   (exists sc, o = Some sc /\ s = "@" ++ sc ++ "/" ++ pkg /\ sc <> "" /\
               no_slash sc = true)).
Proof.
  unfold ProjectMeta.nameRx. intros H. apply in_app_or in H as [H|H].
  - apply bind_In in H as (sc & r1 & Hs & H).
    apply package_sound in H as (E & Hne & Hp).
    injection E as -> ->.
    apply scopeGroup_sound in Hs as (-> & Hsc & Hns).
    split; [exact Hne|]. split; [exact Hp|]. right.
    exists sc. now repeat split.
  - apply package_sound in H as (E & Hne & Hp).
    injection E as -> ->. split; [exact Hne|]. split; [exact Hp|]. now left.
Qed.

Lemma or_else_nonempty (a b : string) : a <> "" -> or_else a b = a.
Proof. destruct a; [intros H; now elim H | reflexivity]. Qed.

(** X11. The scope and the package name that release.ts derives from the
    name in deno.json always give the name back: the name is the package
    name when the scope is empty, and [@scope/packageName] otherwise.  The
    scope contains no [/].  This holds for every name, also for one that
    the pattern does not match. *)
Theorem project_name_parts (fullName : string) :
  let scope := ProjectMeta.scope fullName in
  let packageName := ProjectMeta.packageName fullName in
  fullName = match scope with
             | EmptyString => packageName
             | _ => "@" ++ scope ++ "/" ++ packageName
             end /\
  no_slash scope = true /\
  (packageName = "" -> fullName = "").
Proof.
  unfold ProjectMeta.scope, ProjectMeta.packageName, exec.
  destruct (ProjectMeta.nameRx fullName) as [|[[o pkg] r] l] eqn:E; cbn zeta.
  - now repeat split.
  - assert (H : In ((o, pkg), r) (ProjectMeta.nameRx fullName))
      by (rewrite E; now left).
    apply nameRx_sound in H as (Hne & _ & [[-> ->] | (sc & -> & -> & Hsc & Hns)]).
    + rewrite (or_else_nonempty pkg pkg Hne). repeat split.
      intros ->. now elim Hne.
    + rewrite (or_else_nonempty sc "" Hsc).
      rewrite (or_else_nonempty pkg _ Hne).
      split; [|split; [exact Hns|]].
      * destruct sc; [now elim Hsc | reflexivity].
      * intros ->. now elim Hne.
Qed.

Lemma not_slash_stops (pkg : string) :
  stops ProjectMeta.not_slash ("/" ++ pkg).
Proof. reflexivity. Qed.

Lemma nameRx_scoped (sc pkg : string) :
  sc <> "" -> no_slash sc = true ->
  pkg <> "" -> Str.forallb UpdateChangelog.not_terminator pkg = true ->
  exists tl,
    ProjectMeta.nameRx ("@" ++ sc ++ "/" ++ pkg) = ((Some sc, pkg), "") :: tl.
Proof.
  intros Hsc Hns Hpkg Hnt.
  destruct (plus_head ProjectMeta.not_slash sc ("/" ++ pkg) Hsc Hns
              (not_slash_stops pkg)) as [tl1 H1].
  destruct (plus_head UpdateChangelog.not_terminator pkg "" Hpkg Hnt
              (stops_nil _)) as [tl2 H2].
  rewrite append_nil_r in H2.
  assert (Hg : exists tl, ProjectMeta.scopeGroup ("@" ++ sc ++ "/" ++ pkg)
                          = (sc, pkg) :: tl).
  { unfold ProjectMeta.scopeGroup.
    destruct (bind_head (lit "/") (fun _ => ret sc) ("/" ++ pkg) "/" pkg []
                sc pkg [] (lit_head "/" pkg) eq_refl) as [t3 E3].
    destruct (bind_head (plus ProjectMeta.not_slash)
                (fun sc0 => _ <- lit "/" ;; ret sc0)
                (sc ++ "/" ++ pkg) sc ("/" ++ pkg) tl1 sc pkg t3 H1 E3)
      as [t2 E2].
    exact (bind_head (lit "@")
             (fun _ => sc0 <- plus ProjectMeta.not_slash ;;
                       _ <- lit "/" ;; ret sc0)
             ("@" ++ sc ++ "/" ++ pkg) "@" (sc ++ "/" ++ pkg) []
             sc pkg t2 (lit_head "@" (sc ++ "/" ++ pkg)) E2). }
  destruct Hg as [tlg Hg].
  assert (Hp : exists tl,
             (p <- plus UpdateChangelog.not_terminator ;;
              _ <- eos ;;
              ret (Some sc, p)) pkg = ((Some sc, pkg), "") :: tl).
  { exact (bind_head (plus UpdateChangelog.not_terminator)
             (fun p => _ <- eos ;; ret (Some sc, p))
             pkg pkg "" tl2 (Some sc, pkg) "" [] H2 eq_refl). }
  destruct Hp as [tlp Hp].
  unfold ProjectMeta.nameRx.
  destruct (bind_head ProjectMeta.scopeGroup
              (fun sc0 => p <- plus UpdateChangelog.not_terminator ;;
                          _ <- eos ;;
                          ret (Some sc0, p))
              ("@" ++ sc ++ "/" ++ pkg) sc pkg tlg (Some sc, pkg) "" tlp
              Hg Hp) as [tl ->].
  eexists. reflexivity.
Qed.

Lemma name_char_plain (c : ascii) :
  GetMeta.is_name_char c = true ->
  ProjectMeta.not_slash c = true /\ UpdateChangelog.not_terminator c = true.
Proof.
  destruct c as [[] [] [] [] [] [] [] []]; vm_compute; intros H;
    try discriminate H; split; reflexivity.
Qed.

(** X12. For a name [@scope/package] with a non-empty scope without [/]
    and a non-empty package part without line break, release.ts takes the
    scope up to the first [/] and the rest as the package name (which may
    contain further [/]).  When moreover the scope has no line break and
    the package part is made of a-z, A-Z, 0-9, [.], [_], [-] only,
    get-meta.ts derives the same package name. *)
Theorem scoped_name_split (sc pkg : string) :
  sc <> "" -> no_slash sc = true ->
  pkg <> "" -> Str.forallb UpdateChangelog.not_terminator pkg = true ->
  let fullName := "@" ++ sc ++ "/" ++ pkg in
  ProjectMeta.scope fullName = sc /\
  ProjectMeta.packageName fullName = pkg /\
  (Str.forallb UpdateChangelog.not_terminator sc = true ->
   Str.forallb GetMeta.is_name_char pkg = true ->
   GetMeta.name fullName = ProjectMeta.packageName fullName).
Proof.
  intros Hsc Hns Hpkg Hnt fullName.
  destruct (nameRx_scoped sc pkg Hsc Hns Hpkg Hnt) as [tl E].
  assert (Hs : ProjectMeta.scope fullName = sc).
  { unfold ProjectMeta.scope, exec, fullName. rewrite E.
    now apply or_else_nonempty. }
  assert (Hp : ProjectMeta.packageName fullName = pkg).
  { unfold ProjectMeta.packageName, exec, fullName. rewrite E.
    now apply or_else_nonempty. }
  split; [exact Hs|]. split; [exact Hp|].
  intros Hsn Hname. rewrite Hp. unfold GetMeta.name, fullName.
  rewrite (strip_scope_scoped sc pkg Hsn).
  - now apply map_clean_fixed.
  - unfold no_slash. apply (forallb_weaken GetMeta.is_name_char); [|exact Hname].
    intros c Hc. now destruct (name_char_plain c Hc).
Qed.

Lemma scoped_name_split_witness :
  ProjectMeta.scope ("@" ++ "fry69" ++ "/" ++ "release-init") = "fry69" /\
  ProjectMeta.packageName ("@" ++ "fry69" ++ "/" ++ "release-init")
    = "release-init" /\
  (Str.forallb UpdateChangelog.not_terminator "fry69" = true ->
   Str.forallb GetMeta.is_name_char "release-init" = true ->
   GetMeta.name ("@" ++ "fry69" ++ "/" ++ "release-init")
   = ProjectMeta.packageName ("@" ++ "fry69" ++ "/" ++ "release-init")).
Proof.
  apply (scoped_name_split "fry69" "release-init");
    try discriminate; reflexivity.
Defined.

(* ================================================================== *)
(** * The version files *)
(* ================================================================== *)

Lemma find_match_sound (m : Rx.t string) (s b x a : string) :
  find_match m s = Some (b, x, a) ->
  exists s' tl, s = b ++ s' /\ m s' = (x, a) :: tl.
Proof.
  revert b. induction s as [|c s IH]; intros b; cbn [find_match].
  - destruct (m "") as [|[x0 r0] l] eqn:E; [discriminate|].
    intros [= <- <- <-]. exists "", l. split; [reflexivity | exact E].
  - destruct (m (String c s)) as [|[x0 r0] l] eqn:E.
    + destruct (find_match m s) as [[[b0 x1] a0]|] eqn:F; [|discriminate].
      intros [= <- <- <-]. destruct (IH b0 eq_refl) as (s' & tl & -> & H).
      exists s', tl. split; [reflexivity | exact H].
    + intros [= <- <- <-]. exists (String c s), l.
      split; [reflexivity | exact E].
Qed.

Lemma find_match_leftmost (m : Rx.t string) (s b x a : string) :
  find_match m s = Some (b, x, a) ->
  forall b' s', s = b' ++ s' -> m s' <> [] ->
    String.length b <= String.length b'.
Proof.
  revert b. induction s as [|c s IH]; intros b; cbn [find_match].
  - destruct (m "") as [|[x0 r0] l]; [discriminate|].
    intros [= <- <- <-] b' s' _ _. simpl. lia.
  - destruct (m (String c s)) as [|[x0 r0] l] eqn:E.
    + destruct (find_match m s) as [[[b0 x1] a0]|] eqn:F; [|discriminate].
      intros [= <- <- <-] b' s' Hs Hm.
      destruct b' as [|c' b'].
      * cbn [append] in Hs. subst s'. now elim Hm.
      * cbn [append] in Hs. injection Hs as -> ->.
        specialize (IH b0 eq_refl b' s' eq_refl Hm). simpl. lia.
    + intros [= <- <- <-] b' s' _ _. simpl. lia.
Qed.

Lemma find_match_here (m : Rx.t string) (s x a : string)
    (tl : list (string * string)) :
  m s = (x, a) :: tl -> find_match m s = Some ("", x, a).
Proof. intros H. destruct s; cbn [find_match]; now rewrite H. Qed.

Lemma find_match_skip (m : Rx.t string) (first : ascii -> bool)
    (pre s b x a : string) :
  (forall c r, first c = false -> m (String c r) = []) ->
  Str.forallb (fun c => negb (first c)) pre = true ->
  find_match m s = Some (b, x, a) ->
  find_match m (pre ++ s) = Some (pre ++ b, x, a).
Proof.
  intros Hm Hpre Hf. induction pre as [|c pre IH]; [exact Hf|].
  cbn [Str.forallb] in Hpre. apply andb_true_iff in Hpre as [Hc Hpre].
  apply negb_true_iff in Hc.
  cbn [append find_match]. rewrite (Hm c _ Hc), (IH Hpre). reflexivity.
Qed.

Lemma expand0_plain (before matched after template : string) :
  no_dollar template = true ->
  expand0 before matched after template = template.
Proof.
  induction template as [|c t IH]; intros H; [reflexivity|].
  unfold no_dollar in H. cbn [Str.forallb] in H.
  apply andb_true_iff in H as [Hc H]. apply negb_true_iff in Hc.
  cbn [expand0]. rewrite Hc. now rewrite (IH H).
Qed.

Lemma no_dollar_append (a b : string) :
  no_dollar (a ++ b) = no_dollar a && no_dollar b.
Proof. apply forallb_append. Qed.

Lemma quotedRx_first (c : ascii) (r : string) :
  Ascii.eqb c "034" = false -> VersionFiles.quotedRx (String c r) = [].
Proof.
  intros H. unfold VersionFiles.quotedRx, DQ. rewrite seq_unfold.
  cbn [lit]. rewrite Ascii.eqb_sym, H. reflexivity.
Qed.

Lemma quotedRx_head (old rest : string) :
  old <> "" -> Str.forallb VersionFiles.not_quote old = true ->
  exists tl,
    VersionFiles.quotedRx (DQ ++ old ++ DQ ++ rest)
    = (DQ ++ old ++ DQ, rest) :: tl.
Proof.
  intros Hne Hq.
  assert (Hs : stops VersionFiles.not_quote (DQ ++ rest)) by reflexivity.
  destruct (plus_head VersionFiles.not_quote old (DQ ++ rest) Hne Hq Hs)
    as [tl1 H1].
  destruct (seq_head (plus VersionFiles.not_quote) (lit DQ)
              (old ++ DQ ++ rest) old (DQ ++ rest) DQ rest tl1 []
              H1 (lit_head DQ rest)) as [tl2 H2].
  exact (seq_head (lit DQ) (plus VersionFiles.not_quote +++ lit DQ)
           (DQ ++ old ++ DQ ++ rest) DQ (old ++ DQ ++ rest) (old ++ DQ) rest
           [] tl2 (lit_head DQ (old ++ DQ ++ rest)) H2).
Qed.

Lemma quotedRx_sound (s m r : string) :
  In (m, r) (VersionFiles.quotedRx s) ->
  exists old,
    m = DQ ++ old ++ DQ /\ old <> "" /\
    Str.forallb VersionFiles.not_quote old = true /\ s = m ++ r.
Proof.
  unfold VersionFiles.quotedRx. intros H.
  apply seq_In in H as (x & r1 & y & Hx & H & ->).
  apply seq_In in H as (old & r2 & z & Ho & Hz & ->).
  apply lit_sound in Hx as (-> & ->).
  apply plus_sound in Ho as (-> & Hq & Hne).
  apply lit_sound in Hz as (-> & ->).
  exists old. split; [reflexivity|]. split; [exact Hne|].
  split; [exact Hq|]. now rewrite !append_assoc.
Qed.

(** Replacing the first quoted text of a declaration. *)
Lemma bump_const_effect (kw old nextVersion tail : string) :
  Str.forallb VersionFiles.not_quote kw = true ->
  old <> "" -> Str.forallb VersionFiles.not_quote old = true ->
  no_dollar nextVersion = true ->
  VersionFiles.bump_const nextVersion (kw ++ DQ ++ old ++ DQ ++ tail)
  = kw ++ DQ ++ nextVersion ++ DQ ++ tail.
Proof.
  intros Hkw Hne Hq Hd.
  unfold VersionFiles.bump_const, replace_template.
  destruct (quotedRx_head old tail Hne Hq) as [tl Hh].
  rewrite (find_match_skip VersionFiles.quotedRx
             (fun c => Ascii.eqb c "034") kw
             (DQ ++ old ++ DQ ++ tail) "" (DQ ++ old ++ DQ) tail).
  - rewrite expand0_plain.
    + now rewrite append_nil_r, !append_assoc.
    + rewrite !no_dollar_append, Hd. reflexivity.
  - intros c r Hc. now apply quotedRx_first.
  - exact Hkw.
  - exact (find_match_here _ _ _ _ _ Hh).
Qed.

Lemma find_match_complete (m : Rx.t string) (b s' : string) :
  m s' <> [] -> find_match m (b ++ s') <> None.
Proof.
  intros Hm. induction b as [|c b IH].
  - cbn [append]. destruct s' as [|c s']; cbn [find_match];
      destruct (m _) as [|[x r] l]; try discriminate; now elim Hm.
  - cbn [append find_match].
    destruct (m (String c (b ++ s'))) as [|[x r] l]; [|discriminate].
    destruct (find_match m (b ++ s')) as [[[b0 x0] a0]|];
      [discriminate | exact IH].
Qed.

Lemma versionConstRx_sound (s x a : string) :
  In (x, a) (VersionFiles.versionConstRx s) ->
  exists kw old,
    x = kw ++ DQ ++ old ++ DQ ++ ";" /\
    (kw = "const VERSION = " \/ kw = "export const VERSION = ") /\
    old <> "" /\ Str.forallb VersionFiles.not_quote old = true /\
    s = x ++ a.
Proof.
  unfold VersionFiles.versionConstRx. intros H.
  apply seq_In in H as (ex & r1 & y & Hex & H & ->).
  apply seq_In in H as (k & r2 & z & Hk & H & ->).
  apply seq_In in H as (q & r3 & w & Hq & Hw & ->).
  apply lit_sound in Hk as (Er1 & ->).
  apply quotedRx_sound in Hq as (old & -> & Hne & Hnq & Er2).
  apply lit_sound in Hw as (Er3 & ->).
  assert (Es : s = ex ++ r1 /\ (ex = "" \/ ex = "export ")).
  { apply opt_In in Hex as [Hex | [-> ->]]; [|split; [reflexivity | now left]].
    apply lit_sound in Hex as (-> & ->). split; [reflexivity | now right]. }
  destruct Es as [Es Hex'].
  exists (ex ++ "const VERSION = "), old.
  split; [now rewrite !append_assoc|].
  split; [destruct Hex' as [-> | ->]; [now left | now right]|].
  split; [exact Hne|]. split; [exact Hnq|].
  rewrite Es, Er1, Er2, Er3. now rewrite !append_assoc.
Qed.

Lemma versionConstRx_some (old after : string) :
  old <> "" -> Str.forallb VersionFiles.not_quote old = true ->
  VersionFiles.versionConstRx
    ("const VERSION = " ++ DQ ++ old ++ DQ ++ ";" ++ after) <> [].
Proof.
  intros Hne Hq.
  destruct (quotedRx_head old (";" ++ after) Hne Hq) as [tl1 H1].
  destruct (seq_head VersionFiles.quotedRx (lit ";")
              (DQ ++ old ++ DQ ++ ";" ++ after) (DQ ++ old ++ DQ)
              (";" ++ after) ";" after tl1 [] H1 (lit_head ";" after))
    as [tl2 H2].
  destruct (seq_head (lit "const VERSION = ")
              (VersionFiles.quotedRx +++ lit ";")
              ("const VERSION = " ++ DQ ++ old ++ DQ ++ ";" ++ after)
              "const VERSION = " (DQ ++ old ++ DQ ++ ";" ++ after)
              ((DQ ++ old ++ DQ) ++ ";") after [] tl2
              (lit_head "const VERSION = " _) H2) as [tl3 H3].
  destruct (seq_head (opt (lit "export "))
              (lit "const VERSION = " +++ VersionFiles.quotedRx +++ lit ";")
              ("const VERSION = " ++ DQ ++ old ++ DQ ++ ";" ++ after)
              "" ("const VERSION = " ++ DQ ++ old ++ DQ ++ ";" ++ after)
              ("const VERSION = " ++ (DQ ++ old ++ DQ) ++ ";") after [] tl3
              eq_refl H3) as [tl4 H4].
  unfold VersionFiles.versionConstRx. rewrite H4. discriminate.
Qed.

Lemma kw_no_quote (kw : string) :
  kw = "const VERSION = " \/ kw = "export const VERSION = " ->
  Str.forallb VersionFiles.not_quote kw = true.
Proof. intros [-> | ->]; reflexivity. Qed.

Lemma exportConstRx_sound (s x a : string) :
  In (x, a) (MainFiles.exportConstRx s) ->
  exists old,
    x = "export const VERSION = " ++ DQ ++ old ++ DQ ++ ";" /\
    old <> "" /\ Str.forallb VersionFiles.not_quote old = true /\
    s = x ++ a.
Proof.
  unfold MainFiles.exportConstRx. intros H.
  apply seq_In in H as (k & r2 & z & Hk & H & ->).
  apply seq_In in H as (q & r3 & w & Hq & Hw & ->).
  apply lit_sound in Hk as (Er1 & ->).
  apply quotedRx_sound in Hq as (old & -> & Hne & Hnq & Er2).
  apply lit_sound in Hw as (Er3 & ->).
  exists old.
  split; [now rewrite !append_assoc|].
  split; [exact Hne|]. split; [exact Hnq|].
  rewrite Er1, Er2, Er3. now rewrite !append_assoc.
Qed.

Lemma exportConstRx_some (old after : string) :
  old <> "" -> Str.forallb VersionFiles.not_quote old = true ->
  MainFiles.exportConstRx
    ("export const VERSION = " ++ DQ ++ old ++ DQ ++ ";" ++ after) <> [].
Proof.
  intros Hne Hq.
  destruct (quotedRx_head old (";" ++ after) Hne Hq) as [tl1 H1].
  destruct (seq_head VersionFiles.quotedRx (lit ";")
              (DQ ++ old ++ DQ ++ ";" ++ after) (DQ ++ old ++ DQ)
              (";" ++ after) ";" after tl1 [] H1 (lit_head ";" after))
    as [tl2 H2].
  destruct (seq_head (lit "export const VERSION = ")
              (VersionFiles.quotedRx +++ lit ";")
              ("export const VERSION = " ++ DQ ++ old ++ DQ ++ ";" ++ after)
              "export const VERSION = " (DQ ++ old ++ DQ ++ ";" ++ after)
              ((DQ ++ old ++ DQ) ++ ";") after [] tl2
              (lit_head "export const VERSION = " _) H2) as [tl3 H3].
  unfold MainFiles.exportConstRx. rewrite H3. discriminate.
Qed.

Lemma append_cancel_l (a x y : string) : a ++ x = a ++ y -> x = y.
Proof.
  induction a as [|c a IH]; cbn [append]; intros H; [exact H|].
  injection H as H. now apply IH.
Qed.

Lemma append_cancel_r (a b t : string) : a ++ t = b ++ t -> a = b.
Proof.
  revert b. induction a as [|c a IH]; intros [|d b] H; cbn [append] in H.
  - reflexivity.
  - exfalso. apply (f_equal String.length) in H.
    cbn [String.length] in H. rewrite length_append in H. lia.
  - exfalso. apply (f_equal String.length) in H.
    cbn [String.length] in H. rewrite length_append in H. lia.
  - injection H as -> H. now rewrite (IH b H).
Qed.

Lemma versionConstRx_some_kw (kw old after : string) :
  kw = "const VERSION = " \/ kw = "export const VERSION = " ->
  old <> "" -> Str.forallb VersionFiles.not_quote old = true ->
  VersionFiles.versionConstRx (kw ++ DQ ++ old ++ DQ ++ ";" ++ after) <> [].
Proof.
  intros [-> | ->] Hne Hq; [now apply versionConstRx_some|].
  destruct (quotedRx_head old (";" ++ after) Hne Hq) as [tl1 H1].
  destruct (seq_head VersionFiles.quotedRx (lit ";")
              (DQ ++ old ++ DQ ++ ";" ++ after) (DQ ++ old ++ DQ)
              (";" ++ after) ";" after tl1 [] H1 (lit_head ";" after))
    as [tl2 H2].
  destruct (seq_head (lit "const VERSION = ")
              (VersionFiles.quotedRx +++ lit ";")
              ("const VERSION = " ++ DQ ++ old ++ DQ ++ ";" ++ after)
              "const VERSION = " (DQ ++ old ++ DQ ++ ";" ++ after)
              ((DQ ++ old ++ DQ) ++ ";") after [] tl2
              (lit_head "const VERSION = " _) H2) as [tl3 H3].
  destruct (opt_head_some (lit "export ")
              ("export " ++ "const VERSION = " ++ DQ ++ old ++ DQ ++ ";"
               ++ after)
              ("export ", "const VERSION = " ++ DQ ++ old ++ DQ ++ ";"
                          ++ after) []
              (lit_head "export " _)) as [tl0 H0].
  destruct (seq_head (opt (lit "export "))
              (lit "const VERSION = " +++ VersionFiles.quotedRx +++ lit ";")
              ("export " ++ "const VERSION = " ++ DQ ++ old ++ DQ ++ ";"
               ++ after)
              "export " ("const VERSION = " ++ DQ ++ old ++ DQ ++ ";" ++ after)
              ("const VERSION = " ++ (DQ ++ old ++ DQ) ++ ";") after tl0 tl3
              H0 H3) as [tl4 H4].
  unfold VersionFiles.versionConstRx.
  change ("export const VERSION = " ++ DQ ++ old ++ DQ ++ ";" ++ after)
    with ("export " ++ "const VERSION = " ++ DQ ++ old ++ DQ ++ ";" ++ after).
  rewrite H4. discriminate.
Qed.

(** X13. The step that updates the VERSION constant (tools/release.ts on
    the entry point, src/main.ts on src/version.ts), for a next version
    without [$].  When the step succeeds, the file had a declaration
    [const VERSION = Q...Q;] (with [export ] before it in src/main.ts, with
    or without it in tools/release.ts); the one replaced is the first of
    the file, no declaration starts before it; the written text differs
    from the old one in the quoted value of that declaration alone, which
    becomes the next version; and the old value was another one.  The step
    leaves through [exitError] only when the file has no such declaration
    or when its first declaration holds the next version already; it never
    throws. *)
Theorem version_constant_update (entryPoint content nextVersion : string) :
  no_dollar nextVersion = true ->
  match VersionFiles.update_entry entryPoint content nextVersion with
  | Returned updated =>
      exists before kw old after,
        first_declaration content before kw old after /\
        updated = before ++ kw ++ DQ ++ nextVersion ++ DQ ++ ";" ++ after /\
        old <> nextVersion
  | ExitError msg =>
      msg = "Failed to update VERSION constant in " ++ entryPoint /\
      ((forall before old after,
          old <> "" -> Str.forallb VersionFiles.not_quote old = true ->
          content <> before ++ "const VERSION = " ++ DQ ++ old ++ DQ ++ ";"
                       ++ after) \/
       (exists before kw after,
          first_declaration content before kw nextVersion after))
  | Thrown _ => False
  end /\
  match MainFiles.update_version_file content nextVersion with
  | Returned updated =>
      exists before old after,
        first_export content before old after /\
        updated = before ++ "export const VERSION = " ++ DQ ++ nextVersion
                  ++ DQ ++ ";" ++ after /\
        old <> nextVersion
  | ExitError msg =>
      msg = "Failed to update VERSION constant in src/version.ts" /\
      ((forall before old after,
          old <> "" -> Str.forallb VersionFiles.not_quote old = true ->
          content <> before ++ "export const VERSION = " ++ DQ ++ old ++ DQ
                       ++ ";" ++ after) \/
       (exists before after,
          first_export content before nextVersion after))
  | Thrown _ => False
  end.
Proof.
  intros Hd. split.
  - unfold VersionFiles.update_entry, replace_fn.
    destruct (find_match VersionFiles.versionConstRx content)
      as [[[b x] a]|] eqn:F.
    + destruct (find_match_sound _ _ _ _ _ F) as (s' & tl & Ec & Hm).
      assert (Hin : In (x, a) (VersionFiles.versionConstRx s'))
        by (rewrite Hm; now left).
      destruct (versionConstRx_sound _ _ _ Hin)
        as (kw & old & Ex & Hkw & Hne & Hq & Es).
      rewrite Ex.
      rewrite (bump_const_effect kw old nextVersion ";" (kw_no_quote kw Hkw)
                 Hne Hq Hd).
      assert (Econtent : content = b ++ kw ++ DQ ++ old ++ DQ ++ ";" ++ a).
      { rewrite Ec, Es, Ex. now rewrite !append_assoc. }
      assert (Hfirst : first_declaration content b kw old a).
      { split; [exact Econtent|]. split; [exact Hkw|].
        split; [exact Hne|]. split; [exact Hq|].
        intros b' kw' old' a' E' Hkw' Hne' Hq'.
        apply (find_match_leftmost _ _ _ _ _ F b' _ E').
        now apply versionConstRx_some_kw. }
      assert (Eupd : b ++ (kw ++ DQ ++ nextVersion ++ DQ ++ ";") ++ a
                     = b ++ kw ++ DQ ++ nextVersion ++ DQ ++ ";" ++ a)
        by now rewrite !append_assoc.
      rewrite Eupd.
      destruct (String.eqb content
                  (b ++ kw ++ DQ ++ nextVersion ++ DQ ++ ";" ++ a)) eqn:Eq.
      * split; [reflexivity|]. right. apply String.eqb_eq in Eq.
        exists b, kw, a.
        assert (Eo : old = nextVersion).
        { rewrite Econtent in Eq.
          apply append_cancel_l in Eq. apply append_cancel_l in Eq.
          apply append_cancel_l in Eq.
          now apply append_cancel_r in Eq. }
        now rewrite <- Eo.
      * exists b, kw, old, a. split; [exact Hfirst|].
        split; [reflexivity|].
        intros ->. apply String.eqb_neq in Eq. now elim Eq.
    + rewrite String.eqb_refl. split; [reflexivity|]. left.
      intros before old after Hne Hq ->.
      now apply (find_match_complete VersionFiles.versionConstRx before _
                   (versionConstRx_some old after Hne Hq)).
  - unfold MainFiles.update_version_file, replace_template.
    destruct (find_match MainFiles.exportConstRx content)
      as [[[b x] a]|] eqn:F.
    + destruct (find_match_sound _ _ _ _ _ F) as (s' & tl & Ec & Hm).
      assert (Hin : In (x, a) (MainFiles.exportConstRx s'))
        by (rewrite Hm; now left).
      destruct (exportConstRx_sound _ _ _ Hin) as (old & Ex & Hne & Hq & Es).
      rewrite expand0_plain
        by (rewrite !no_dollar_append, Hd; reflexivity).
      assert (Econtent : content = b ++ "export const VERSION = " ++ DQ
                                   ++ old ++ DQ ++ ";" ++ a).
      { rewrite Ec, Es, Ex. now rewrite !append_assoc. }
      assert (Hfirst : first_export content b old a).
      { split; [exact Econtent|]. split; [exact Hne|]. split; [exact Hq|].
        intros b' old' a' E' Hne' Hq'.
        apply (find_match_leftmost _ _ _ _ _ F b' _ E').
        now apply exportConstRx_some. }
      assert (Eupd : b ++ ("export const VERSION = " ++ DQ ++ nextVersion
                           ++ DQ ++ ";") ++ a
                     = b ++ "export const VERSION = " ++ DQ ++ nextVersion
                       ++ DQ ++ ";" ++ a)
        by now rewrite !append_assoc.
      rewrite Eupd.
      destruct (String.eqb content
                  (b ++ "export const VERSION = " ++ DQ ++ nextVersion
                   ++ DQ ++ ";" ++ a)) eqn:Eq.
      * split; [reflexivity|]. right. apply String.eqb_eq in Eq.
        exists b, a.
        assert (Eo : old = nextVersion).
        { rewrite Econtent in Eq.
          apply append_cancel_l in Eq. apply append_cancel_l in Eq.
          apply append_cancel_l in Eq.
          now apply append_cancel_r in Eq. }
        now rewrite <- Eo.
      * exists b, old, a. split; [exact Hfirst|].
        split; [reflexivity|].
        intros ->. apply String.eqb_neq in Eq. now elim Eq.
    + rewrite String.eqb_refl. split; [reflexivity|]. left.
      intros before old after Hne Hq ->.
      now apply (find_match_complete MainFiles.exportConstRx before _
                   (exportConstRx_some old after Hne Hq)).
Qed.

Lemma version_constant_update_witness :
  (exists before kw old after,
     first_declaration
       ("// version" ++ LF ++ "export const VERSION = " ++ DQ ++ "1.0.0"
        ++ DQ ++ ";" ++ LF) before kw old after /\
     "// version" ++ LF ++ "export const VERSION = " ++ DQ ++ "1.1.0" ++ DQ
       ++ ";" ++ LF
     = before ++ kw ++ DQ ++ "1.1.0" ++ DQ ++ ";" ++ after /\
     old <> "1.1.0") /\
  (exists before old after,
     first_export
       ("// version" ++ LF ++ "export const VERSION = " ++ DQ ++ "1.0.0"
        ++ DQ ++ ";" ++ LF) before old after /\
     "// version" ++ LF ++ "export const VERSION = " ++ DQ ++ "1.1.0" ++ DQ
       ++ ";" ++ LF
     = before ++ "export const VERSION = " ++ DQ ++ "1.1.0" ++ DQ ++ ";"
       ++ after /\
     old <> "1.1.0").
Proof.
  exact (version_constant_update "./src/main.ts"
           ("// version" ++ LF ++ "export const VERSION = " ++ DQ ++ "1.0.0"
            ++ DQ ++ ";" ++ LF)
           "1.1.0" eq_refl).
Defined.

Lemma jsonVersionRx_sound (s x a : string) :
  In (x, a) (VersionFiles.jsonVersionRx s) ->
  exists ws old,
    x = (DQ ++ "version" ++ DQ ++ ":") ++ ws ++ DQ ++ old ++ DQ /\
    Str.forallb Char.is_space ws = true /\
    old <> "" /\ Str.forallb VersionFiles.not_quote old = true /\
    s = x ++ a.
Proof.
  unfold VersionFiles.jsonVersionRx. intros H.
  apply seq_In in H as (k & r1 & y & Hk & H & ->).
  apply seq_In in H as (ws & r2 & q & Hws & Hq & ->).
  apply lit_sound in Hk as (Er0 & ->).
  apply star_sound in Hws as (Er1 & Hsp).
  apply quotedRx_sound in Hq as (old & -> & Hne & Hnq & Er2).
  exists ws, old. split; [reflexivity|].
  split; [exact Hsp|]. split; [exact Hne|]. split; [exact Hnq|].
  rewrite Er0, Er1, Er2. now rewrite !append_assoc.
Qed.

Lemma jsonVersionRx_some (ws old after : string) :
  Str.forallb Char.is_space ws = true ->
  old <> "" -> Str.forallb VersionFiles.not_quote old = true ->
  VersionFiles.jsonVersionRx
    ((DQ ++ "version" ++ DQ ++ ":") ++ ws ++ DQ ++ old ++ DQ ++ after) <> [].
Proof.
  intros Hws Hne Hq.
  destruct (quotedRx_head old after Hne Hq) as [tl1 H1].
  assert (Hs : stops Char.is_space (DQ ++ old ++ DQ ++ after))
    by reflexivity.
  destruct (star_head_run Char.is_space ws (DQ ++ old ++ DQ ++ after) Hws Hs)
    as [tl2 H2].
  destruct (seq_head (star Char.is_space) VersionFiles.quotedRx
              (ws ++ DQ ++ old ++ DQ ++ after) ws (DQ ++ old ++ DQ ++ after)
              (DQ ++ old ++ DQ) after tl2 tl1 H2 H1) as [tl3 H3].
  destruct (seq_head (lit (DQ ++ "version" ++ DQ ++ ":"))
              (star Char.is_space +++ VersionFiles.quotedRx)
              ((DQ ++ "version" ++ DQ ++ ":") ++ ws ++ DQ ++ old ++ DQ
               ++ after)
              (DQ ++ "version" ++ DQ ++ ":") (ws ++ DQ ++ old ++ DQ ++ after)
              (ws ++ DQ ++ old ++ DQ) after [] tl3
              (lit_head (DQ ++ "version" ++ DQ ++ ":") _) H3) as [tl4 H4].
  unfold VersionFiles.jsonVersionRx. rewrite H4. discriminate.
Qed.

(** X14. The step that updates deno.json, the same in tools/release.ts
    and in src/main.ts, for a next version without [$].  When it succeeds,
    the text had a member [Qversion Q:] with a non-empty quoted value after
    optional whitespace; the first such member of the text, before which
    none starts, is replaced by [Qversion Q: QnextVersionQ] and the text
    around it is kept; and that member read differently before, in its
    whitespace or in its value.  The step leaves through [exitError] only
    when the text has no such member or its first one reads
    [Qversion Q: QnextVersionQ] already; it never throws. *)
Theorem deno_json_update (content nextVersion : string) :
  no_dollar nextVersion = true ->
  match VersionFiles.update_deno_json content nextVersion with
  | Returned updatedJson =>
      exists before ws old after,
        first_member content before ws old after /\
        updatedJson
        = before ++ VersionFiles.json_member nextVersion ++ after /\
        (ws <> " " \/ old <> nextVersion)
  | ExitError msg =>
      msg = "Failed to update version in deno.json" /\
      ((forall before ws old after,
          Str.forallb Char.is_space ws = true ->
          old <> "" -> Str.forallb VersionFiles.not_quote old = true ->
          content <> before ++ (DQ ++ "version" ++ DQ ++ ":") ++ ws
                       ++ DQ ++ old ++ DQ ++ after) \/
       (exists before after,
          first_member content before " " nextVersion after))
  | Thrown _ => False
  end.
Proof.
  intros Hd. unfold VersionFiles.update_deno_json, replace_template.
  destruct (find_match VersionFiles.jsonVersionRx content)
    as [[[b x] a]|] eqn:F.
  - destruct (find_match_sound _ _ _ _ _ F) as (s' & tl & Ec & Hm).
    assert (Hin : In (x, a) (VersionFiles.jsonVersionRx s'))
      by (rewrite Hm; now left).
    destruct (jsonVersionRx_sound _ _ _ Hin)
      as (ws & old & Ex & Hws & Hne & Hq & Es).
    rewrite expand0_plain
      by (unfold VersionFiles.json_member;
          rewrite !no_dollar_append, Hd; reflexivity).
    assert (Econtent : content = b ++ (DQ ++ "version" ++ DQ ++ ":") ++ ws
                                 ++ DQ ++ old ++ DQ ++ a).
    { rewrite Ec, Es, Ex. now rewrite !append_assoc. }
    assert (Hfirst : first_member content b ws old a).
    { split; [exact Econtent|]. split; [exact Hws|].
      split; [exact Hne|]. split; [exact Hq|].
      intros b' ws' old' a' E' Hws' Hne' Hq'.
      apply (find_match_leftmost _ _ _ _ _ F b' _ E').
      now apply jsonVersionRx_some. }
    destruct (String.eqb content
                (b ++ VersionFiles.json_member nextVersion ++ a)) eqn:Eq.
    + split; [reflexivity|]. right. apply String.eqb_eq in Eq.
      exists b, a.
      assert (Em : ws = " " /\ old = nextVersion).
      { rewrite Econtent in Eq. apply append_cancel_l in Eq.
        unfold VersionFiles.json_member in Eq.
        change (DQ ++ "version" ++ DQ ++ ": " ++ DQ ++ nextVersion ++ DQ
                ++ a)
          with ((DQ ++ "version" ++ DQ ++ ":") ++ " " ++ DQ ++ nextVersion
                ++ DQ ++ a) in Eq.
        rewrite !append_assoc in Eq.
        apply (append_cancel_l (DQ ++ "version" ++ DQ ++ ":")) in Eq.
        assert (Ew : ws = " ").
        { pose proof Eq as Eq'. unfold DQ in Eq'.
          destruct ws as [|w [|w' ws]]; cbn [append] in Eq'.
          - discriminate Eq'.
          - injection Eq' as -> _. reflexivity.
          - injection Eq' as _ Eq'. cbn [Str.forallb] in Hws.
            apply andb_true_iff in Hws as [_ Hws].
            apply andb_true_iff in Hws as [Hw' _].
            subst w'. discriminate Hw'. }
        split; [exact Ew|]. subst ws.
        apply (append_cancel_l (" " ++ DQ)) in Eq.
        now apply append_cancel_r in Eq. }
      destruct Em as [<- <-]. exact Hfirst.
    + exists b, ws, old, a. split; [exact Hfirst|].
      split; [reflexivity|].
      destruct (string_dec ws " ") as [-> | Hw]; [|now left].
      destruct (string_dec old nextVersion) as [-> | Ho]; [|now right].
      apply String.eqb_neq in Eq. elim Eq. rewrite Econtent.
      unfold VersionFiles.json_member. now rewrite !append_assoc.
  - rewrite String.eqb_refl. split; [reflexivity|]. left.
    intros before ws old after Hws Hne Hq ->.
    now apply (find_match_complete VersionFiles.jsonVersionRx before _
                 (jsonVersionRx_some ws old after Hws Hne Hq)).
Qed.

Lemma deno_json_update_witness :
  exists before ws old after,
    first_member
      ("{ " ++ DQ ++ "version" ++ DQ ++ ":" ++ DQ ++ "1.0.0" ++ DQ ++ " }")
      before ws old after /\
    "{ " ++ DQ ++ "version" ++ DQ ++ ": " ++ DQ ++ "1.0.0" ++ DQ ++ " }"
    = before ++ VersionFiles.json_member "1.0.0" ++ after /\
    (ws <> " " \/ old <> "1.0.0").
Proof.
  exact (deno_json_update
           ("{ " ++ DQ ++ "version" ++ DQ ++ ":" ++ DQ ++ "1.0.0" ++ DQ
            ++ " }")
           "1.0.0" eq_refl).
Defined.

(* ================================================================== *)
(** * The escaped version, once more *)
(* ================================================================== *)

Lemma escapeForRegex_length (s : string) :
  String.length s <= String.length (escapeForRegex s) <= 2 * String.length s.
Proof.
  induction s as [|c s IH]; [simpl; lia|].
  cbn [escapeForRegex]. destruct (is_escaped_char c); simpl; lia.
Qed.

(** X15. [escapeForRegex], which both changelog scripts apply to the
    version before they build their header pattern, gives a pattern source
    that denotes the version itself, character by character: no character
    of the version is left to act as an operator of the pattern.  Two
    versions with the same escaped text are equal, and escaping at most
    doubles the length. *)
Theorem escape_round_trip (s : string) :
  pattern_literal (escapeForRegex s) = Some s /\
  (forall t, escapeForRegex s = escapeForRegex t -> s = t) /\
  String.length s <= String.length (escapeForRegex s) <= 2 * String.length s.
Proof.
  split; [apply escapeForRegex_literal|]. split; [|apply escapeForRegex_length].
  intros t H.
  pose proof (escapeForRegex_literal s) as Hs.
  rewrite H, escapeForRegex_literal in Hs. now injection Hs.
Qed.

(* ================================================================== *)
(** * The links of a release *)
(* ================================================================== *)

Lemma find_match_skip_suffix (m : Rx.t string)
    (before rest b0 x a : string) :
  (forall b s', before = b ++ s' -> s' <> "" -> m (s' ++ rest) = []) ->
  find_match m rest = Some (b0, x, a) ->
  find_match m (before ++ rest) = Some (before ++ b0, x, a).
Proof.
  intros Hm Hf. induction before as [|c before IH]; [exact Hf|].
  assert (H0 : m (String c before ++ rest) = [])
    by (apply (Hm "" (String c before)); [reflexivity | discriminate]).
  cbn [append] in H0. cbn [append find_match]. rewrite H0.
  rewrite IH; [reflexivity|].
  intros b s' -> Hne. apply (Hm (String c b) s'); [reflexivity | exact Hne].
Qed.

Lemma includes_suffix (sub b s' : string) :
  Str.includes sub (b ++ s') = false -> Str.includes sub s' = false.
Proof.
  intros H. destruct (Str.includes sub s') eqn:E; [|reflexivity].
  now rewrite (includes_append_r sub b s' E) in H.
Qed.

(** The text [url = ] does not overlap itself: before an occurrence, a
    match can only begin inside the text that precedes it. *)
Lemma url_literal_clear (s' rest : string) :
  s' <> "" -> Str.includes "url = " s' = false ->
  lit "url = " (s' ++ "url = " ++ rest) = [].
Proof.
  intros Hne Hinc.
  destruct (lit "url = " (s' ++ "url = " ++ rest)) as [|[m r] l] eqn:E;
    [reflexivity|].
  exfalso.
  assert (H : In (m, r) (lit "url = " (s' ++ "url = " ++ rest)))
    by (rewrite E; now left).
  apply lit_sound in H as (H & _). clear E.
  destruct s' as [|c1 [|c2 [|c3 [|c4 [|c5 [|c6 s6]]]]]];
    cbn [append] in H; try (now elim Hne); try discriminate H.
  injection H as -> -> -> -> -> -> _.
  change (Str.includes "url = " ("url = " ++ s6) = false) in Hinc.
  now rewrite includes_append_l in Hinc.
Qed.

Lemma urlRx_clear (s' rest : string) :
  s' <> "" -> Str.includes "url = " s' = false ->
  Links.urlRx (s' ++ "url = " ++ rest) = [].
Proof.
  intros Hne Hinc. unfold Links.urlRx, bind.
  now rewrite (url_literal_clear s' rest Hne Hinc).
Qed.

Lemma urlRx_head (url after : string) :
  url <> "" -> Str.forallb UpdateChangelog.not_terminator url = true ->
  stops UpdateChangelog.not_terminator after ->
  exists tl, Links.urlRx ("url = " ++ url ++ after) = (url, after) :: tl.
Proof.
  intros Hne Hnt Hs.
  destruct (plus_head UpdateChangelog.not_terminator url after Hne Hnt Hs)
    as [tl1 H1].
  destruct (bind_head (plus UpdateChangelog.not_terminator)
              (fun u => ret u) (url ++ after) url after tl1 url after []
              H1 eq_refl) as [tl2 H2].
  exact (bind_head (lit "url = ")
           (fun _ => u <- plus UpdateChangelog.not_terminator ;; ret u)
           ("url = " ++ url ++ after) "url = " (url ++ after) []
           url after tl2 (lit_head "url = " (url ++ after)) H2).
Qed.

Lemma find_url (before url after : string) :
  Str.includes "url = " before = false ->
  url <> "" -> Str.forallb UpdateChangelog.not_terminator url = true ->
  stops UpdateChangelog.not_terminator after ->
  find_match Links.urlRx (before ++ "url = " ++ url ++ after)
  = Some (before, url, after).
Proof.
  intros Hinc Hne Hnt Hs.
  destruct (urlRx_head url after Hne Hnt Hs) as [tl Hh].
  rewrite (find_match_skip_suffix Links.urlRx before
             ("url = " ++ url ++ after) "" url after).
  - now rewrite append_nil_r.
  - intros b s' -> Hs'. apply urlRx_clear; [exact Hs'|].
    exact (includes_suffix _ _ _ Hinc).
  - exact (find_match_here _ _ _ _ _ Hh).
Qed.

Lemma gitSuffixRx_sound (s m r : string) :
  In (m, r) (Links.gitSuffixRx s) -> s = ".git".
Proof.
  unfold Links.gitSuffixRx. intros H.
  apply bind_In in H as (x & r1 & Hx & H).
  apply bind_In in H as (u & r2 & Hu & _).
  apply lit_sound in Hx as (-> & _).
  apply eos_In in Hu as (-> & _). reflexivity.
Qed.

Lemma strip_git (x : string) :
  replace_template Links.gitSuffixRx "" (x ++ ".git") = x.
Proof.
  unfold replace_template.
  rewrite (find_match_skip_suffix Links.gitSuffixRx x ".git" "" ".git" "").
  - cbn [expand0 append]. now rewrite !append_nil_r.
  - intros b s' _ Hne.
    destruct (Links.gitSuffixRx (s' ++ ".git")) as [|[m r] l] eqn:E;
      [reflexivity|].
    exfalso.
    assert (H : In (m, r) (Links.gitSuffixRx (s' ++ ".git")))
      by (rewrite E; now left).
    apply gitSuffixRx_sound in H.
    apply (f_equal String.length) in H. rewrite length_append in H.
    destruct s'; [now elim Hne | simpl in H; lia].
  - reflexivity.
Qed.

Lemma https_of_ssh_remote (path : string) :
  Links.https_of_ssh ("git@github.com:" ++ path)
  = "https://github.com/" ++ path.
Proof.
  unfold Links.https_of_ssh. now rewrite lit_head.
Qed.

(** X16. The link to the release that release.ts prints.  When the first
    [url = ] of .git/config is followed, up to the end of its line, by the
    remote [git@github.com:PATH.git], the repository address is
    [https://github.com/PATH] and the link is that address followed by
    [/releases/tag/v] and the version; the remote
    [https://github.com/PATH.git] gives the same address and the same
    link. *)
Theorem release_link_of_remote (before path after version : string) :
  Str.includes "url = " before = false ->
  Str.forallb UpdateChangelog.not_terminator path = true ->
  stops UpdateChangelog.not_terminator after ->
  let ssh :=
    before ++ "url = " ++ ("git@github.com:" ++ path ++ ".git") ++ after in
  let https :=
    before ++ "url = " ++ ("https://github.com/" ++ path ++ ".git")
      ++ after in
  Links.repoUrl ssh = Some ("https://github.com/" ++ path) /\
  Links.repoUrl https = Some ("https://github.com/" ++ path) /\
  Links.release_link ssh version
    = Some (("https://github.com/" ++ path) ++ "/releases/tag/v" ++ version) /\
  Links.release_link https version = Links.release_link ssh version.
Proof.
  intros Hinc Hnt Hs ssh https.
  assert (H1 : Links.repoUrl ssh = Some ("https://github.com/" ++ path)).
  { unfold Links.repoUrl, ssh. rewrite find_url; try assumption.
    - replace ("git@github.com:" ++ path ++ ".git")
        with (("git@github.com:" ++ path) ++ ".git")
        by now rewrite append_assoc.
      now rewrite strip_git, https_of_ssh_remote.
    - discriminate.
    - rewrite !forallb_append, Hnt. reflexivity. }
  assert (H2 : Links.repoUrl https = Some ("https://github.com/" ++ path)).
  { unfold Links.repoUrl, https. rewrite find_url; try assumption.
    - replace ("https://github.com/" ++ path ++ ".git")
        with (("https://github.com/" ++ path) ++ ".git")
        by now rewrite append_assoc.
      now rewrite strip_git.
    - discriminate.
    - rewrite !forallb_append, Hnt. reflexivity. }
  split; [exact H1|]. split; [exact H2|].
  unfold Links.release_link. rewrite H1, H2. split; reflexivity.
Qed.

Lemma release_link_of_remote_witness :
  Links.release_link
    ("[remote " ++ DQ ++ "origin" ++ DQ ++ "]" ++ LF ++ "  url = "
     ++ ("git@github.com:" ++ "fry69/release-init" ++ ".git") ++ LF
     ++ "  fetch = +refs/heads/*:refs/remotes/origin/*" ++ LF) "1.2.0"
  = Some "https://github.com/fry69/release-init/releases/tag/v1.2.0".
Proof.
  exact (proj1 (proj2 (proj2
    (release_link_of_remote
       ("[remote " ++ DQ ++ "origin" ++ DQ ++ "]" ++ LF ++ "  ")
       "fry69/release-init"
       (LF ++ "  fetch = +refs/heads/*:refs/remotes/origin/*" ++ LF)
       "1.2.0" eq_refl eq_refl eq_refl)))).
Defined.

(* ================================================================== *)
(** * The installer *)
(* ================================================================== *)

Section InstallFacts.

Variable join : string -> string -> string.
Variable stat : string -> bool.
Variable copyFile : string -> string -> string -> bool.




End InstallFacts.




(* ================================================================== *)
(** * Further cases of the repository's tests *)
(* ================================================================== *)

(** get-meta: valid config with string exports; sanitizes special
    characters in name; handles name without scope; supports name from
    publish.name field. *)
Example test_tool_names :
  GetMeta.name "@myorg/mytool" = "mytool" /\
  GetMeta.name "@org/my tool!@#" = "my-tool---" /\
  GetMeta.name "unscoped-tool" = "unscoped-tool" /\
  GetMeta.name "@scope/published-name" = "published-name".
Proof. repeat split. Qed.

(** release workflow: patch version bump updates all files. *)
Example test_patch_updates_files :
  VersionFiles.update_entry "./src/main.ts"
    ("export const VERSION = " ++ DQ ++ "1.2.3" ++ DQ ++ ";" ++ LF ++ LF
     ++ "console.log(" ++ DQ ++ "App v" ++ DQ ++ " + VERSION);" ++ LF)
    "1.2.4"
  = Returned
      ("export const VERSION = " ++ DQ ++ "1.2.4" ++ DQ ++ ";" ++ LF ++ LF
       ++ "console.log(" ++ DQ ++ "App v" ++ DQ ++ " + VERSION);" ++ LF) /\
  VersionFiles.update_deno_json
    ("{" ++ LF ++ "  " ++ DQ ++ "name" ++ DQ ++ ": " ++ DQ ++ "@test/app"
     ++ DQ ++ "," ++ LF ++ "  " ++ DQ ++ "version" ++ DQ ++ ": " ++ DQ
     ++ "1.2.3" ++ DQ ++ LF ++ "}")
    "1.2.4"
  = Returned
      ("{" ++ LF ++ "  " ++ DQ ++ "name" ++ DQ ++ ": " ++ DQ ++ "@test/app"
       ++ DQ ++ "," ++ LF ++ "  " ++ DQ ++ "version" ++ DQ ++ ": " ++ DQ
       ++ "1.2.4" ++ DQ ++ LF ++ "}").
Proof. split; reflexivity. Qed.

(* ================================================================== *)
(** * The leftmost match *)
(* ================================================================== *)

Lemma replace_first_find_match (m : Rx.t string) (by_ s : string) :
  replace_first m by_ s
  = match find_match m s with
    | Some (b, _, a) => b ++ by_ ++ a
    | None => s
    end.
Proof.
  induction s as [|c s IH]; cbn [replace_first find_match].
  - destruct (m "") as [|[x r] l]; reflexivity.
  - destruct (m (String c s)) as [|[x r] l]; [|reflexivity].
    rewrite IH. destruct (find_match m s) as [[[b x] a]|]; reflexivity.
Qed.

Lemma star_In_complete (p : ascii -> bool) (m r : string) :
  Str.forallb p m = true -> In (m, r) (star p (m ++ r)).
Proof.
  induction m as [|c m IH]; intros H.
  - cbn [append]. destruct r as [|c r]; cbn [star]; [now left|].
    destruct (p c); [apply in_or_app; right|]; now left.
  - cbn [Str.forallb] in H. apply andb_true_iff in H as [Hc H].
    cbn [append star]. rewrite Hc. apply in_or_app. left.
    apply cons_match_In. exists m. split; [reflexivity | now apply IH].
Qed.

Lemma plus_In_complete (p : ascii -> bool) (m r : string) :
  m <> "" -> Str.forallb p m = true -> In (m, r) (plus p (m ++ r)).
Proof.
  intros Hne H. destruct m as [|c m]; [now elim Hne|].
  cbn [Str.forallb] in H. apply andb_true_iff in H as [Hc H].
  unfold plus. apply seq_In. exists (String c ""), (m ++ r), m.
  split; [|split; [now apply star_In_complete | reflexivity]].
  apply chr_In. exists c. now repeat split.
Qed.

Lemma lit_In (l r : string) : In (l, r) (lit l (l ++ r)).
Proof. rewrite lit_head. now left. Qed.

(* ================================================================== *)
(** * The cut of link references *)
(* ================================================================== *)

Lemma linkRefRx_sound (s m r : string) :
  In (m, r) (GetChangelog.linkRefRx s) -> link_ref_tail s /\ r = "".
Proof.
  unfold GetChangelog.linkRefRx. intros H.
  apply bind_In in H as (m0 & r0 & H & H').
  apply bind_In in H' as (u & r1 & Hu & Hr).
  apply ret_In in Hr as (_ & Hr).
  apply eos_In in Hu as (E0 & Er1). subst r0 r1 r.
  apply seq_In in H as (x1 & q1 & y1 & H1 & H & ->).
  apply seq_In in H as (ds & q2 & y2 & H2 & H & ->).
  apply seq_In in H as (x3 & q3 & y3 & H3 & H & ->).
  apply seq_In in H as (ws & q4 & y4 & H4 & H & ->).
  apply seq_In in H as (x5 & q5 & y5 & H5 & H & ->).
  apply seq_In in H as (sch & q6 & y6 & H6 & H & ->).
  apply seq_In in H as (x7 & q7 & rest & H7 & H8 & ->).
  apply lit_sound in H1 as (E1 & ->).
  apply plus_sound in H2 as (E2 & Hds & Hdne).
  apply lit_sound in H3 as (E3 & ->).
  apply plus_sound in H4 as (E4 & Hws & Hwne).
  apply lit_sound in H5 as (E5 & ->).
  apply lit_sound in H7 as (E7 & ->).
  apply plus_sound in H8 as (E8 & _ & Hrne).
  rewrite append_nil_r in E8.
  assert (E6 : q5 = sch ++ q6 /\ (sch = "" \/ sch = "s")).
  { apply opt_In in H6 as [H6 | [-> ->]]; [|split; [reflexivity | now left]].
    apply lit_sound in H6 as (-> & ->). split; [reflexivity | now right]. }
  destruct E6 as [E6 Hsch].
  split; [|reflexivity].
  exists ds, ws, sch, rest.
  split; [|now repeat split].
  rewrite E1, E2, E3, E4, E5, E6, E7, E8. reflexivity.
Qed.

Lemma linkRefRx_complete (s : string) :
  link_ref_tail s -> GetChangelog.linkRefRx s <> [].
Proof.
  intros (ds & ws & sch & rest & -> & Hdne & Hds & Hwne & Hws & Hsch & Hrne).
  set (whole := (LF ++ LF ++ "[") ++ ds ++ "]:" ++ ws ++ "http" ++ sch
                ++ "://" ++ rest).
  assert (H : In (whole, "") (GetChangelog.linkRefRx whole)).
  { unfold GetChangelog.linkRefRx. apply bind_In. exists whole, "".
    split; [|apply bind_In; exists tt, ""; split; now left].
    unfold whole.
    apply seq_In. do 3 eexists. split; [apply lit_In|].
    split; [|reflexivity].
    apply seq_In. do 3 eexists.
    split; [apply (plus_In_complete _ ds); assumption|].
    split; [|reflexivity].
    apply seq_In. do 3 eexists. split; [apply (lit_In "]:")|].
    split; [|reflexivity].
    apply seq_In. do 3 eexists.
    split; [apply (plus_In_complete _ ws); assumption|].
    split; [|reflexivity].
    apply seq_In. do 3 eexists. split; [apply (lit_In "http")|].
    split; [|reflexivity].
    apply seq_In. exists sch, ("://" ++ rest), ("://" ++ rest).
    split.
    { apply opt_In. destruct Hsch as [-> | ->];
        [now right | left; apply (lit_In "s")]. }
    split; [|reflexivity].
    apply seq_In. exists "://", rest, rest.
    split; [apply (lit_In "://")|]. split; [|reflexivity].
    rewrite <- (append_nil_r rest) at 2.
    apply plus_In_complete; [exact Hrne|].
    clear. induction rest as [|c rest IH]; [reflexivity | exact IH]. }
  intros E. rewrite E in H. destruct H.
Qed.

(** What [content.replace] with the pattern of link references does. *)
Lemma replace_first_linkRef (t : string) :
  cut_at_link_ref t (replace_first GetChangelog.linkRefRx "" t).
Proof.
  rewrite replace_first_find_match.
  destruct (find_match GetChangelog.linkRefRx t) as [[[b x] a]|] eqn:F.
  - right. destruct (find_match_sound _ _ _ _ _ F) as (s' & tl & Et & Hm).
    assert (Hin : In (x, a) (GetChangelog.linkRefRx s'))
      by (rewrite Hm; now left).
    apply linkRefRx_sound in Hin as [Htail ->].
    cbn [append]. rewrite append_nil_r.
    exists s'. split; [exact Et|]. split; [exact Htail|].
    intros p' s'' Es Ht.
    apply (find_match_leftmost _ _ _ _ _ F p' s'' Es).
    now apply linkRefRx_complete.
  - left. split; [reflexivity|].
    intros p s -> Ht.
    now apply (find_match_complete GetChangelog.linkRefRx p s
                 (linkRefRx_complete s Ht)).
Qed.

(* ================================================================== *)
(** * The headings of the end scan *)
(* ================================================================== *)

Lemma hashes_length (n : nat) : String.length (hashes n) = n.
Proof. induction n; simpl; auto. Qed.

Lemma hashes_all (n : nat) : Str.forallb Char.is_hash (hashes n) = true.
Proof. induction n; simpl; auto. Qed.

Lemma all_hash_hashes (h : string) :
  Str.forallb Char.is_hash h = true -> h = hashes (String.length h).
Proof.
  induction h as [|c h IH]; intros H; [reflexivity|].
  cbn [Str.forallb] in H. apply andb_true_iff in H as [Hc H].
  unfold Char.is_hash in Hc. apply Ascii.eqb_eq in Hc. subst c.
  cbn [String.length hashes]. now rewrite <- IH.
Qed.

Lemma heading_level_iff (line : string) (n : nat) :
  heading_level line = Some n <-> heading_line n line.
Proof.
  split.
  - unfold heading_level. intros H.
    destruct (exec GetChangelog.headingRx line) as [h|] eqn:E;
      [|discriminate].
    injection H as <-.
    apply exec_In in E as (r & E). unfold GetChangelog.headingRx in E.
    apply bind_In in E as (h0 & r1 & Hh & E).
    apply bind_In in E as (ws & r2 & Hws & E).
    apply bind_In in E as (c & r3 & Hc & E).
    apply ret_In in E as (-> & ->).
    apply rep_sound in Hh as (El & Hh & Hlen).
    apply plus_sound in Hws as (E1 & Hws & Hne).
    apply chr_In in Hc as (ch & Hch & -> & E2).
    split; [exact Hlen|].
    exists ws, ch, r3. split; [|split; [exact Hne|split; [exact Hws|]]].
    + rewrite El, E1, E2. now rewrite <- (all_hash_hashes h0 Hh).
    + now apply negb_true_iff in Hch.
  - intros (Hn & ws & c & rest & -> & Hne & Hws & Hc).
    assert (Hstop : stops Char.is_hash (ws ++ String c rest)).
    { destruct ws as [|w ws]; [now elim Hne|].
      cbn [Str.forallb] in Hws. apply andb_true_iff in Hws as [Hw _].
      exact (space_not_hash w Hw). }
    destruct (rep_head_run Char.is_hash 1 6 (hashes n) (ws ++ String c rest)
                (hashes_all n)) as [tl1 H1]; [now rewrite hashes_length
                                             | exact Hstop |].
    destruct (plus_head Char.is_space ws (String c rest) Hne Hws Hc)
      as [tl2 H2].
    assert (H3 : chr (fun c0 => negb (Char.is_space c0)) (String c rest)
                 = [(String c "", rest)]).
    { cbn [chr]. now rewrite Hc. }
    destruct (bind_head (chr (fun c0 => negb (Char.is_space c0)))
                (fun _ => ret (hashes n)) (String c rest) (String c "") rest
                [] (hashes n) rest [] H3 eq_refl) as [t3 E3].
    destruct (bind_head (plus Char.is_space)
                (fun _ => _ <- chr (fun c0 => negb (Char.is_space c0)) ;;
                          ret (hashes n))
                (ws ++ String c rest) ws (String c rest) tl2
                (hashes n) rest t3 H2 E3) as [t2 E2].
    destruct (bind_head (rep Char.is_hash 1 6)
                (fun h => _ <- plus Char.is_space ;;
                          _ <- chr (fun c0 => negb (Char.is_space c0)) ;;
                          ret h)
                (hashes n ++ ws ++ String c rest) (hashes n)
                (ws ++ String c rest) tl1 (hashes n) rest t2 H1 E2)
      as [t1 E1].
    unfold heading_level, exec, GetChangelog.headingRx. rewrite E1.
    cbn [option_map]. now rewrite hashes_length.
Qed.

(** The text of a section in terms of its lines and of the cut. *)
Lemma section_text_spec (pre : list string) (x : string)
    (post : list string) :
  1 <= leading_hashes x ->
  exists body,
    section_body x post body /\
    cut_at_link_ref (Str.trim (Str.join LF (x :: body)))
      (GetChangelog.section_text (pre ++ x :: post) (List.length pre)).
Proof.
  intros Hx.
  destruct (section_shape pre x post) as (k & Hk & He & Hs & Hin & Hstop).
  pose proof (startLevel_leading x Hx) as HL.
  exists (List.firstn k post). split.
  - exists k. split; [exact Hk|]. split; [reflexivity|]. split.
    + intros j n Hj Hn. pose proof Hn as [Hr _].
      apply heading_level_iff in Hn. apply (Hin j n Hj) in Hn. lia.
    + intros Hlt. destruct (Hstop Hlt) as (n & Hn & Hle).
      exists n. split; [now apply heading_level_iff | lia].
  - unfold GetChangelog.section_text. rewrite He, Hs.
    apply replace_first_linkRef.
Qed.

(* ================================================================== *)
(** * What extraction returns *)
(* ================================================================== *)

Lemma script_runs (md versionArg : string) :
  versionArg <> "" ->
  GetChangelog.script md versionArg
  = Returned (GetChangelog.content md versionArg).
Proof.
  intros H. unfold GetChangelog.script.
  apply String.eqb_neq in H. now rewrite H.
Qed.

(** C2, as the claim states it, fails: for the empty version argument
    extraction returns no text; the script writes its usage line to stderr
    and leaves with status 1. *)
Lemma C2_empty_argument_counterexample :
  GetChangelog.script (Str.join LF ["## [Unreleased]"; "- a"]) ""
  = ExitError "Usage: deno run -A tools/get-changelog.ts <version>".
Proof. reflexivity. Qed.

(** C2 (amended). For every document and every version argument that is
    not empty, extraction returns a text.  The text is the section that
    starts at the first line with the version header; when no line has
    one, the section that starts at the first line with an Unreleased
    header; when no line has either, the not-found message, which contains
    the requested version.  The section is the start line and the lines
    after it up to the first heading line with at most as many [#], joined
    with LF, trimmed, and cut at the first link reference after an empty
    line. *)
Theorem C2_extraction_cases (md versionArg : string) :
  versionArg <> "" ->
  let version := Str.strip_v versionArg in
  let lines := Str.split_lines md in
  exists text,
    GetChangelog.script md versionArg = Returned text /\
    ((exists pre x post body,
        first_match (test (GetChangelog.hdrRx version)) lines pre x post /\
        section_body x post body /\
        cut_at_link_ref (Str.trim (Str.join LF (x :: body))) text) \/
     (no_match (test (GetChangelog.hdrRx version)) lines /\
      exists pre x post body,
        first_match (test GetChangelog.unreleasedRx) lines pre x post /\
        section_body x post body /\
        cut_at_link_ref (Str.trim (Str.join LF (x :: body))) text) \/
     (no_match (test (GetChangelog.hdrRx version)) lines /\
      no_match (test GetChangelog.unreleasedRx) lines /\
      text = "No changelog entry found for version " ++ version
               ++ " and no 'Unreleased' section present." /\
      Str.includes version text = true)).
Proof.
  intros Hne version lines.
  exists (GetChangelog.content md versionArg).
  split; [now apply script_runs|].
  unfold GetChangelog.content. fold version. fold lines.
  unfold GetChangelog.find_start.
  destruct (findIndex (test (GetChangelog.hdrRx version)) lines) as [i|] eqn:E.
  - left. destruct (findIndex_first _ _ _ E) as (pre & x & post & Hf & <-).
    pose proof Hf as (Hl & _ & Hx).
    destruct (section_text_spec pre x post (hdrRx_leading _ _ Hx))
      as (body & Hb & Hc).
    exists pre, x, post, body.
    split; [exact Hf|]. split; [exact Hb|]. rewrite Hl. exact Hc.
  - right. apply findIndex_none in E.
    destruct (findIndex (test GetChangelog.unreleasedRx) lines) as [i|] eqn:U.
    + left. split; [exact E|].
      destruct (findIndex_first _ _ _ U) as (pre & x & post & Hf & <-).
      pose proof Hf as (Hl & _ & Hx).
      destruct (section_text_spec pre x post (unreleasedRx_leading _ Hx))
        as (body & Hb & Hc).
      exists pre, x, post, body.
      split; [exact Hf|]. split; [exact Hb|]. rewrite Hl. exact Hc.
    + right. apply findIndex_none in U. repeat split; try assumption.
      unfold GetChangelog.not_found. apply includes_middle.
Qed.

Lemma C2_extraction_cases_witness :
  exists text,
    GetChangelog.script
      (Str.join LF ["# Changelog"; ""; "## [Unreleased]"; ""; "- pending"; ""])
      "9.9.9" = Returned text /\
    text = Str.join LF ["## [Unreleased]"; ""; "- pending"].
Proof.
  destruct (C2_extraction_cases
              (Str.join LF
                 ["# Changelog"; ""; "## [Unreleased]"; ""; "- pending"; ""])
              "9.9.9" ltac:(discriminate)) as (text & Ht & _).
  exists text. split; [exact Ht|].
  vm_compute in Ht. now injection Ht as <-.
Defined.

(** C3, as the claim states it, fails in both of its consequences.  A
    nested subheading inside the section is lost when a link reference
    stands before it, after an empty line: the text is cut there.  And a
    following version section at the same level is not excluded when its
    header has no whitespace after the [#]: the line is the version header
    of 1.9.0 for the header search, with two leading [#], but no heading
    for the end scan. *)
Lemma C3_section_text_counterexample :
  GetChangelog.script
    (Str.join LF
       ["## [2.0.0]"; ""; "[1]: https://example.com/one"; ""; "### Added";
        "- a"; "## [1.9.0]"; "- b"]) "2.0.0"
  = Returned "## [2.0.0]" /\
  GetChangelog.section_end
    ["## [2.0.0]"; ""; "[1]: https://example.com/one"; ""; "### Added";
     "- a"; "## [1.9.0]"; "- b"] 0 = 6 /\
  GetChangelog.script
    (Str.join LF ["## [2.0.0]"; "- new"; "##[1.9.0]"; "- old"]) "2.0.0"
  = Returned (Str.join LF ["## [2.0.0]"; "- new"; "##[1.9.0]"; "- old"]) /\
  leading_hashes "##[1.9.0]" = 2 /\
  GetChangelog.script
    (Str.join LF ["## [2.0.0]"; "- new"; "##[1.9.0]"; "- old"]) "1.9.0"
  = Returned (Str.join LF ["##[1.9.0]"; "- old"]).
Proof. repeat split. Qed.

(** C3 (amended). When a start line is found, the lines of the section run
    from the start line up to, and without, the first later heading line
    with at most as many [#] as the start line has at its head, or up to
    the end of the document.  A heading line is one to six [#], then
    whitespace, then a character that is not whitespace; a line without
    whitespace after its [#], such as [##[1.9.0]], never ends a section.
    Heading lines between the two are deeper, so they belong to the lines
    of the section; the line at the end index is a heading line at the same
    level or above, so what follows it stays outside.  The text returned is
    these lines joined with LF and trimmed, cut at the first empty line
    that is followed by a link reference ([[], digits and dots, []:],
    whitespace, an http or https address), so that everything from there
    on, nested subheadings included, is dropped; without such a line it is
    the joined and trimmed lines themselves. *)
Theorem C3_section_bounds (md versionArg : string) (start : nat) :
  versionArg <> "" ->
  let lines := Str.split_lines md in
  GetChangelog.find_start (Str.strip_v versionArg) lines = Some start ->
  let level := leading_hashes (line_at lines start) in
  exists end_ body text,
    GetChangelog.script md versionArg = Returned text /\
    start < end_ <= List.length lines /\
    slice start end_ lines = line_at lines start :: body /\
    List.length body = end_ - S start /\
    1 <= level /\
    (forall i n, start < i < end_ ->
       heading_line n (line_at lines i) -> level < n) /\
    (end_ < List.length lines ->
       exists n, heading_line n (line_at lines end_) /\ n <= level) /\
    cut_at_link_ref (Str.trim (Str.join LF (slice start end_ lines))) text.
Proof.
  intros Hne lines Hstart level.
  destruct (find_start_first _ _ _ Hstart)
    as (pre & x & post & Hl & Hlen & Hx & _).
  rewrite (script_runs md versionArg Hne).
  unfold GetChangelog.content. fold lines. rewrite Hstart.
  unfold GetChangelog.section_text. subst level. rewrite Hl. subst start.
  rewrite line_at_middle.
  destruct (section_shape pre x post) as (k & Hk & He & Hs & Hin & Hstop).
  pose proof (startLevel_leading x Hx) as HL.
  exists (S (List.length pre) + k), (List.firstn k post).
  eexists. split; [reflexivity|].
  rewrite He, Hs.
  split; [|split; [|split; [|split; [|split; [|split]]]]].
  - rewrite length_app. simpl. lia.
  - reflexivity.
  - rewrite firstn_length_le by lia. lia.
  - exact Hx.
  - intros i n Hi Hn. pose proof Hn as [Hr _].
    apply heading_level_iff in Hn.
    replace i with (S (List.length pre) + (i - S (List.length pre))) in Hn
      by lia.
    rewrite line_at_after in Hn. apply Hin in Hn; lia.
  - intros Hlt. rewrite length_app in Hlt. simpl in Hlt.
    destruct Hstop as (n & Hn & Hle); [lia|].
    exists n. rewrite line_at_after.
    split; [now apply heading_level_iff | lia].
  - apply replace_first_linkRef.
Qed.

Lemma C3_section_bounds_witness :
  exists end_ body text,
    GetChangelog.script
      (Str.join LF
         ["# Log"; "## [2.0.0]"; "### Added"; "- a"; "## [1.9.0]"; "- b"])
      "2.0.0" = Returned text /\
    slice 1 end_ ["# Log"; "## [2.0.0]"; "### Added"; "- a"; "## [1.9.0]"; "- b"]
      = "## [2.0.0]" :: body /\
    end_ = 4 /\ body = ["### Added"; "- a"] /\
    text = Str.join LF ["## [2.0.0]"; "### Added"; "- a"].
Proof.
  destruct (C3_section_bounds
              (Str.join LF
                 ["# Log"; "## [2.0.0]"; "### Added"; "- a"; "## [1.9.0]";
                  "- b"]) "2.0.0" 1 ltac:(discriminate) eq_refl)
    as (end_ & body & text & Ht & Hb & Hs & Hlen & _ & Hin & Hstop & _).
  exists end_, body, text.
  assert (He : end_ = 4).
  { destruct (Nat.lt_ge_cases end_ 4) as [Hlt|Hge].
    - exfalso.
      assert (Hcase : end_ = 2 \/ end_ = 3) by (cbv in Hb; lia).
      destruct Hcase as [-> | ->].
      + destruct Hstop as (n & Hn & Hle); [cbv; lia|].
        apply heading_level_iff in Hn.
        cbv in Hn. injection Hn as <-. cbv in Hle. lia.
      + destruct Hstop as (n & Hn & Hle); [cbv; lia|].
        apply heading_level_iff in Hn. cbv in Hn. discriminate.
    - destruct (Nat.eq_dec end_ 4) as [E|N]; [exact E|exfalso].
      assert (H4 : heading_line 2
                     (line_at
                        (Str.split_lines
                           (Str.join LF
                              ["# Log"; "## [2.0.0]"; "### Added"; "- a";
                               "## [1.9.0]"; "- b"])) 4))
        by (apply heading_level_iff; reflexivity).
      assert (Hlt : 1 < 4 < end_) by lia.
      specialize (Hin 4 2 Hlt H4). cbv in Hin. lia. }
  subst end_. split; [exact Ht|]. split; [exact Hs|].
  split; [reflexivity|]. split.
  - cbv in Hs. now injection Hs as <-.
  - vm_compute in Ht. now injection Ht as <-.
Defined.

(* ================================================================== *)
(** * The v prefix, for a version that is not empty *)
(* ================================================================== *)

(** The bare version must not be empty: without a version both scripts
    print their usage line and leave, while the argument v runs with the
    empty version. *)
Example empty_version_argument :
  GetChangelog.script (Str.join LF ["## [1.0.0]"; "- a"]) ""
    = ExitError GetChangelog.usage /\
  GetChangelog.script (Str.join LF ["## [1.0.0]"; "- a"]) "v"
    = Returned (Str.join LF ["## [1.0.0]"; "- a"]) /\
  UpdateChangelog.script (Str.join LF ["## [1.0.0]"; "- a"]) "" "2025-01-01"
    = ExitError UpdateChangelog.usage /\
  UpdateChangelog.script (Str.join LF ["## [1.0.0]"; "- a"]) "v" "2025-01-01"
    = Returned (Str.join LF ["## [] - 2025-01-01"; "- a"], false).
Proof. repeat split. Qed.

(** C8 (amended). Both scripts remove one leading lower-case v from the
    version argument and nothing else: for a version that is not empty and
    does not itself begin with a lower-case v, both scripts run, and the
    argument with a v in front behaves as the bare version in extraction
    and in the update, while an upper-case V in front stays part of the
    version that is looked for. *)
Theorem C8_lower_case_prefix (md version today : string) :
  version <> "" ->
  Str.startsWith "v" version = false ->
  GetChangelog.script md ("v" ++ version) = GetChangelog.script md version /\
  GetChangelog.script md version
    = Returned (GetChangelog.content md version) /\
  UpdateChangelog.script md ("v" ++ version) today
    = UpdateChangelog.script md version today /\
  UpdateChangelog.script md version today
    = Returned (UpdateChangelog.written md version today,
                UpdateChangelog.created md version today) /\
  Str.strip_v ("V" ++ version) = "V" ++ version.
Proof.
  intros Hne H. apply strip_v_bare in H.
  apply String.eqb_neq in Hne.
  unfold GetChangelog.script, UpdateChangelog.script.
  rewrite Hne. cbn [append String.eqb].
  unfold GetChangelog.content, UpdateChangelog.written,
    UpdateChangelog.created.
  simpl Str.strip_v. rewrite H. repeat split.
Qed.

Lemma C8_lower_case_prefix_witness :
  GetChangelog.script (Str.join LF ["## [1.0.0]"; "- a"]) "v1.0.0"
    = GetChangelog.script (Str.join LF ["## [1.0.0]"; "- a"]) "1.0.0".
Proof.
  apply (C8_lower_case_prefix (Str.join LF ["## [1.0.0]"; "- a"]) "1.0.0"
           "2025-01-01").
  - discriminate.
  - reflexivity.
Defined.

(* ================================================================== *)
(** * The changelog steps of a release *)
(* ================================================================== *)

Lemma not_lf_cr_char (c : ascii) :
  Ascii.eqb c "010" = false -> Ascii.eqb c "013" = false ->
  UpdateChangelog.not_terminator c = true.
Proof.
  destruct c as [[] [] [] [] [] [] [] []]; vm_compute; intros H1 H2;
    try discriminate; reflexivity.
Qed.

Lemma cons_line_chars (p : ascii -> bool) (c : ascii) (ls : list string) :
  p c = true -> List.forallb (Str.forallb p) ls = true ->
  List.forallb (Str.forallb p)
    match ls with
    | l :: ls' => String c l :: ls'
    | [] => [String c ""]
    end = true.
Proof.
  intros Hc H. destruct ls as [|l ls]; cbn [List.forallb Str.forallb] in *.
  - now rewrite Hc.
  - apply andb_true_iff in H as [Hl H]. now rewrite Hc, Hl, H.
Qed.

(** The lines of a text without carriage return hold no line terminator. *)
Lemma split_lines_no_cr (s : string) :
  Str.forallb (fun c => negb (Ascii.eqb c "013")) s = true ->
  List.forallb (Str.forallb UpdateChangelog.not_terminator)
    (Str.split_lines s) = true.
Proof.
  induction s as [|c s IH]; intros H; [reflexivity|].
  cbn [Str.forallb] in H. apply andb_true_iff in H as [Hc H].
  specialize (IH H). apply negb_true_iff in Hc.
  cbn [Str.split_lines].
  destruct (Ascii.eqb c "010") eqn:Elf; [exact IH|].
  rewrite Hc.
  pose proof (cons_line_chars UpdateChangelog.not_terminator c
                (Str.split_lines s) (not_lf_cr_char c Elf Hc) IH) as Hk.
  destruct s as [|c' s'']; exact Hk.
Qed.

Lemma no_terminator_no_cr_end (l : string) :
  Str.forallb UpdateChangelog.not_terminator l = true ->
  Str.endsWith_char "013" l = false.
Proof.
  induction l as [|c l IH]; intros H; [reflexivity|].
  cbn [Str.forallb] in H. apply andb_true_iff in H as [Hc H].
  destruct l as [|d l].
  - cbn [Str.endsWith_char].
    destruct (Ascii.eqb_spec c "013") as [->|]; [discriminate Hc | reflexivity].
  - change (Str.endsWith_char "013" (String c (String d l)))
      with (Str.endsWith_char "013" (String d l)).
    now apply IH.
Qed.

Lemma no_terminator_no_trailing_cr (lines : list string) :
  List.forallb (Str.forallb UpdateChangelog.not_terminator) lines = true ->
  no_trailing_cr lines = true.
Proof.
  unfold no_trailing_cr. induction lines as [|l lines IH]; intros H;
    [reflexivity|].
  cbn [List.forallb] in *. apply andb_true_iff in H as [Hl H].
  now rewrite (no_terminator_no_cr_end l Hl), IH.
Qed.

Lemma versionRx_nil (version : string) :
  test (UpdateChangelog.versionRx version) "" = false.
Proof. reflexivity. Qed.

(** The line that the update writes is the first version header of the
    lines it leaves. *)
Lemma update_first_header (version today : string) (lines : list string) :
  plain_text version = true -> starts_v version = false ->
  plain_text today = true ->
  exists pre x' post h ws tok,
    fst (UpdateChangelog.update_lines version today lines)
    = (pre ++ x' :: post)%list /\
    x' = (h ++ ws) ++ "[" ++ tok ++ "] - " ++ today /\
    Str.forallb Char.is_hash h = true /\ 1 <= String.length h <= 6 /\
    Str.forallb Char.is_space ws = true /\
    settled_token version tok /\
    test (UpdateChangelog.versionRx version) x' = true /\
    no_match (test (UpdateChangelog.versionRx version)) pre /\
    (forall l, In l pre -> In l lines \/ l = "") /\
    ((snd (UpdateChangelog.update_lines version today lines) = false /\
      exists x, lines = (pre ++ x :: post)%list) \/
     (snd (UpdateChangelog.update_lines version today lines) = true /\
      exists k,
        k <= List.length lines /\
        pre = (List.firstn k lines ++ [""])%list /\
        x' = UpdateChangelog.newHeader version today /\
        post = ([""; "### Added"; ""; "- Initial release"; ""]
                ++ List.skipn k lines)%list)).
Proof.
  intros Hpt Hv Htoday.
  pose proof (plain_text_no_terminator today Htoday) as Hnt.
  destruct (findIndex (test (UpdateChangelog.versionRx version)) lines)
    as [i|] eqn:E1.
  - destruct (findIndex_first _ _ _ E1) as (pre & x & post & Hf & _).
    destruct (update_found version today lines pre x post Hf) as (c & Hc & Hu).
    destruct (versionRx_sound version x c Hc)
      as (h & ws & vp & m & Ex & H1 & Hhs & Hlen & Hws & H2 & H3 & Hm & Hvp
          & H4 & H5).
    destruct Hf as (El & Hpre & Hx).
    pose proof (settled_of_match version vp m Hv Hm Hvp) as Hset.
    exists pre, (UpdateChangelog.version_line today c), post, h, ws,
      (Str.strip_v (vp ++ m)).
    rewrite Hu. cbn [fst snd].
    split; [reflexivity|].
    split; [unfold UpdateChangelog.version_line; now rewrite H1, H3|].
    split; [exact Hhs|]. split; [exact Hlen|]. split; [exact Hws|].
    split; [exact Hset|].
    split.
    { unfold UpdateChangelog.version_line. rewrite H1, H3.
      now apply (canonical_line_fixed version today h ws). }
    split; [exact Hpre|].
    split.
    { intros l Hl. left. rewrite El. apply in_or_app. now left. }
    left. split; [reflexivity|]. now exists x.
  - apply findIndex_none in E1.
    destruct (findIndex (test UpdateChangelog.unreleasedRx) lines)
      as [i|] eqn:E2.
    + destruct (findIndex_first _ _ _ E2) as (pre & x & post & Hf & _).
      destruct (update_unreleased version today lines pre x post E1 Hf)
        as (c & Hc & Hu).
      destruct (unreleasedRx_sound x c Hc)
        as (h & ws & Ex & H1 & Hhs & Hlen & Hws & H2 & H3 & H4 & H5).
      destruct Hf as (El & Hpre & Hx).
      assert (Hset : settled_token version version)
        by (left; split; [apply eq_ci_refl | exact Hv]).
      exists pre, (UpdateChangelog.unreleased_line version today c), post,
        h, ws, version.
      rewrite Hu. cbn [fst snd].
      rewrite (unreleased_line_plain version today c Hpt Htoday), H1.
      split; [reflexivity|]. split; [reflexivity|].
      split; [exact Hhs|]. split; [exact Hlen|]. split; [exact Hws|].
      split; [exact Hset|].
      split; [now apply (canonical_line_fixed version today h ws)|].
      split.
      { unfold no_match in *. rewrite El, forallb_app in E1.
        now apply andb_true_iff in E1 as [E1 _]. }
      split.
      { intros l Hl. left. rewrite El. apply in_or_app. now left. }
      left. split; [reflexivity|]. now exists x.
    + apply findIndex_none in E2.
      rewrite (update_created version today lines E1 E2). cbn [fst snd].
      set (k := UpdateChangelog.insertIndex lines).
      assert (Hk : k <= List.length lines)
        by now destruct (insertIndex_spec lines) as [Hk _].
      assert (Hset : settled_token version version)
        by (left; split; [apply eq_ci_refl | exact Hv]).
      destruct (forallb_firstn_skipn _ k lines E1) as [Hn1 _].
      exists (List.firstn k lines ++ [""])%list,
        (UpdateChangelog.newHeader version today),
        ([""; "### Added"; ""; "- Initial release"; ""]
         ++ List.skipn k lines)%list,
        "##", " ", version.
      split.
      { unfold splice_in, UpdateChangelog.newSection.
        now rewrite <- app_assoc. }
      split; [reflexivity|]. split; [reflexivity|].
      split; [simpl; lia|]. split; [reflexivity|].
      split; [exact Hset|].
      split.
      { unfold UpdateChangelog.newHeader.
        change ("## [" ++ version ++ "] - " ++ today)
          with (("##" ++ " ") ++ "[" ++ version ++ "] - " ++ today).
        apply (canonical_line_fixed version today "##" " ");
          try assumption; try reflexivity. simpl. lia. }
      split.
      { unfold no_match. rewrite forallb_app. unfold no_match in Hn1.
        rewrite Hn1. cbn [List.forallb]. now rewrite versionRx_nil. }
      split.
      { intros l Hl. apply in_app_or in Hl as [Hl | [<- | []]];
          [left | now right].
        rewrite <- (firstn_skipn k lines). apply in_or_app. now left. }
      right. split; [reflexivity|]. exists k. now repeat split.
Qed.

Lemma nth_error_middle_other {A : Type} (pre : list A) (x y : A)
    (post : list A) (j : nat) :
  j <> List.length pre ->
  List.nth_error (pre ++ y :: post) j = List.nth_error (pre ++ x :: post) j.
Proof.
  intros Hj.
  rewrite <- (set_nth_middle pre x y post). now apply set_nth_other.
Qed.

(** X8. The release script runs update-changelog.ts and then
    get-changelog.ts with the next version it computed.  For a plain date
    and a changelog without carriage return (so that no line holds a line
    terminator: of those, U+2028 and U+2029 lie outside the text of the
    model), the extraction that follows the update starts at the very line
    that the update wrote: the header that it rewrote, all other lines
    being as they were, or the header of the section that it created.  That
    line reads [#], whitespace, the version in brackets as the header
    spelled it (or a kept upper-case V before it) and the date of today.
    So the commit message and the tag take the section under the header
    that the update wrote.  Running the update once more would change
    nothing. *)
Theorem release_changelog_steps
    (current versionArg nextVersion content today : string) :
  Release.nextVersion current versionArg = Returned nextVersion ->
  plain_text today = true ->
  Str.forallb (fun c => negb (Ascii.eqb c "013")) content = true ->
  let lines := Str.split_lines content in
  let out := UpdateChangelog.written content nextVersion today in
  let outLines := Str.split_lines out in
  (exists start h ws tok,
     findIndex (test (GetChangelog.hdrRx nextVersion)) outLines
       = Some start /\
     GetChangelog.script out nextVersion
       = Returned (GetChangelog.section_text outLines start) /\
     line_at outLines start = (h ++ ws) ++ "[" ++ tok ++ "] - " ++ today /\
     Str.forallb Char.is_hash h = true /\ 1 <= String.length h <= 6 /\
     Str.forallb Char.is_space ws = true /\
     settled_token nextVersion tok /\
     (UpdateChangelog.created content nextVersion today = false ->
        List.length outLines = List.length lines /\
        forall j, j <> start ->
          List.nth_error outLines j = List.nth_error lines j) /\
     (UpdateChangelog.created content nextVersion today = true ->
        exists k,
          start = S k /\ k <= List.length lines /\
          outLines = (List.firstn k lines
                      ++ UpdateChangelog.newSection nextVersion today
                      ++ List.skipn k lines)%list)) /\
  UpdateChangelog.written out nextVersion today = out.
Proof.
  intros Hn Htoday Hcr lines out outLines.
  destruct (nextVersion_plain _ _ _ Hn) as (Hp & Hs).
  apply plain_version_parts in Hp as (Hne & Hpt & Hv & _).
  pose proof (split_lines_no_cr content Hcr) as Hclean. fold lines in Hclean.
  pose proof (no_terminator_no_trailing_cr lines Hclean) as Htr.
  pose proof (written_lines content nextVersion today) as Hout.
  rewrite Hs in Hout. specialize (Hout Hpt Hv Htoday Htr).
  fold out outLines lines in Hout.
  split.
  - destruct (update_first_header nextVersion today lines Hpt Hv Htoday)
      as (pre & x' & post & h & ws & tok & HL & Ex & Hh & Hlen & Hws & Hset
          & Hx & Hpre & Hfrom & Hcase).
    rewrite <- Hout in HL.
    assert (Hpre' : no_match (test (GetChangelog.hdrRx nextVersion)) pre).
    { unfold no_match in *. apply forallb_forall. intros l Hl.
      rewrite forallb_forall in Hpre. specialize (Hpre l Hl).
      apply negb_true_iff in Hpre. apply negb_true_iff.
      destruct (test (GetChangelog.hdrRx nextVersion) l) eqn:Et;
        [|reflexivity].
      assert (Hcl : Str.forallb UpdateChangelog.not_terminator l = true).
      { destruct (Hfrom l Hl) as [Hin | ->]; [|reflexivity].
        rewrite forallb_forall in Hclean. now apply Hclean. }
      rewrite (hdrRx_versionRx nextVersion l Hcl Et) in Hpre.
      discriminate. }
    assert (Hf : first_match (test (GetChangelog.hdrRx nextVersion))
                   outLines pre x' post).
    { split; [exact HL|]. split; [exact Hpre'|].
      now apply versionRx_hdrRx. }
    pose proof (first_match_findIndex _ _ _ _ _ Hf) as Hj.
    exists (List.length pre), h, ws, tok.
    split; [exact Hj|].
    split.
    { rewrite (script_runs out nextVersion Hne).
      unfold GetChangelog.content, GetChangelog.find_start.
      fold out. rewrite Hs. fold outLines. now rewrite Hj. }
    split; [rewrite HL, line_at_middle; exact Ex|].
    split; [exact Hh|]. split; [exact Hlen|]. split; [exact Hws|].
    split; [exact Hset|].
    unfold UpdateChangelog.created. rewrite Hs. fold lines.
    destruct Hcase as [[Hc [x El]] | [Hc (k & Hk & Epre & Ehd & Epost)]];
      rewrite Hc; (split; [intros Hb | intros Hb]); try discriminate Hb.
    + rewrite HL, El. split.
      * rewrite !length_app. reflexivity.
      * intros j Hjne. now apply nth_error_middle_other.
    + exists k. split; [|split; [exact Hk|]].
      * rewrite Epre, length_app, firstn_length_le by exact Hk.
        simpl. lia.
      * rewrite HL, Epre, Epost, Ehd. unfold UpdateChangelog.newSection.
        now rewrite <- app_assoc.
  - destruct (split_lines_shape (String.length content) content (le_n _))
      as [Hne' _].
    pose proof (split_lines_stable content Htr) as Hst.
    destruct (update_lines_settled nextVersion today
                (Str.split_lines content) Hpt Hv Htoday Hne' Hst)
      as (Hne1 & Hst1 & Hfix).
    unfold out, UpdateChangelog.written. rewrite Hs.
    rewrite (split_lines_join _ Hne1 Hst1). now rewrite Hfix.
Qed.

Lemma release_changelog_steps_witness :
  GetChangelog.script
    (UpdateChangelog.written
       (Str.join LF
          ["# Changelog"; ""; "## [Unreleased]"; ""; "- fix"; "";
           "## [1.0.0] - 2024-01-01"; ""; "- first"])
       "1.0.1" "2025-01-01") "1.0.1"
  = Returned (Str.join LF ["## [1.0.1] - 2025-01-01"; ""; "- fix"]).
Proof.
  destruct (release_changelog_steps "1.0.0-beta.1" "patch" "1.0.1"
              (Str.join LF
                 ["# Changelog"; ""; "## [Unreleased]"; ""; "- fix"; "";
                  "## [1.0.0] - 2024-01-01"; ""; "- first"])
              "2025-01-01" eq_refl eq_refl eq_refl)
    as [(start & h & ws & tok & Hj & Hrun & _) _].
  rewrite Hrun. vm_compute in Hj. injection Hj as <-. reflexivity.
Defined.
